(** * TechNewsHub: aggregation cascade, cache refresh and deep-dive expansion

    A shallow embedding of the Lambda handlers of the repository
    ([fetchNews], [fetchPatents], [relatedContent], [dailyRefresh]) and the
    properties of the design document that are checked against them.

    Conventions of the embedding.
    - An [async] function that may throw is a computation in the monad [M]:
      it threads the mutable [World] and returns [Ok v] or [Throw e].
    - Everything outside the process (Secrets Manager, the three AI
      providers, DynamoDB, Step Functions, the WebSocket management API, the
      clock) is an oracle in a read-only environment record.
    - A JavaScript number that carries a fraction (a provider confidence)
      is carried by the rational [Q] that its literal denotes, and the
      arithmetic on it rounds to binary64 as the program does ([Js.b64],
      [Js.times]); scores, which the code always produces with
      [Math.round] or as integer literals, are integers [Z].
    - [x ?? y] is [default y x] on [option]; [undefined] and [null] are
      both [None], except in the objects handed to the DynamoDB document
      client, which tells a missing key from [undefined]: their optional
      properties are [Js.Slot]s.
    - [console.*] calls are dropped. *)

From stdpp Require Import base option list strings gmap numbers pretty.
From Stdlib Require Import Ascii QArith Qround Qabs Qpower Lqa.
Close Scope Q_scope.
Set Warnings "-register-all".

(** ** JavaScript built-ins used by the handlers *)

Module Js.

(** [Math.round]: the nearest integer, a tie going towards +infinity. *)
Definition Math_round (x : Q) : Z := Qfloor (x + (1 # 2))%Q.

(** Numbers.  A number of the program is carried by the rational that its
    source denotes: a literal of the code, or a number of a JSON text.  The
    program computes with the binary64 number nearest to it, so the
    arithmetic below rounds what it reads and what it yields: [b64] is the
    rounding to the nearest binary64, a tie going to the even significand,
    with the subnormal numbers at the lower end.  Magnitudes from 2^1024 on,
    which JavaScript turns into [Infinity], are outside the model. *)
Definition pow2 (e : Z) : Q := (2 ^ e)%Q.

(** [floor (log2 x)] for a positive [x]. *)
Definition ilog2 (x : Q) : Z :=
  let k := (Z.log2 (Qnum x) - Z.log2 (Zpos (Qden x)))%Z in
  if Qle_bool (pow2 k) x then k else (k - 1)%Z.

Definition roundEven (y : Q) : Z :=
  let f := Qfloor y in
  match (y - inject_Z f ?= 1 # 2)%Q with
  | Lt => f
  | Gt => (f + 1)%Z
  | Eq => if Z.even f then f else (f + 1)%Z
  end.

Definition b64 (x : Q) : Q :=
  if Qeq_bool x 0 then 0%Q
  else
    let a := Qabs x in
    let e := Z.max (ilog2 a - 52) (-1074) in
    let r := (inject_Z (roundEven (a / pow2 e)) * pow2 e)%Q in
    if Qle_bool 0 x then r else (- r)%Q.

(** [x * y] on numbers. *)
Definition times (x y : Q) : Q := b64 (b64 x * b64 y)%Q.

(** The results that are in the range of the model: up to 2^1023 in
    magnitude the binary64 product is finite, so [times] is the product
    the program computes. *)
Definition inRange (exact : Q) : bool := Qle_bool (Qabs exact) (pow2 1023).

(** [Number.prototype.toFixed(0)] for magnitudes below 10^21: the sign is
    split off, then the magnitude is rounded with ties going up. *)
Definition toFixed0 (x : Q) : string :=
  if Qle_bool 0 x then pretty (Qfloor (x + (1 # 2))%Q)
  else "-" +:+ pretty (Qfloor ((- x) + (1 # 2))%Q).

(** [a ?? b] where [b] may itself be absent. *)
Definition orElse {A} (a b : option A) : option A :=
  match a with Some _ => a | None => b end.

(** A property as far as writing the object out is concerned: the object
    has no such key, or the key holds [undefined], [null] or a value.
    [JSON.stringify] leaves out both of the first two; the DynamoDB document
    client accepts a missing key and refuses [undefined]. *)
Inductive Slot (A : Type) :=
  | Absent
  | Undefined
  | Null
  | Value (a : A).
Arguments Absent {A}.
Arguments Undefined {A}.
Arguments Null {A}.
Arguments Value {A} a.

(** [key: a ?? o.b] in an object literal, where [a] is nullish or a value
    and [o.b] is read off a parsed JSON object: the key is there, and
    holds [undefined] when [o] has no [b]. *)
Definition coalesce {A} (a : option A) (b : Slot A) : Slot A :=
  match a with
  | Some x => Value x
  | None => match b with Absent => Undefined | _ => b end
  end.

Definition defined {A} (x : Slot A) : bool :=
  match x with Undefined => false | _ => true end.

(** Truthiness of [string | undefined]: the empty string is falsy. *)
Definition truthy (s : option string) : bool :=
  match s with
  | None => false
  | Some EmptyString => false
  | Some _ => true
  end.

Definition nonEmpty (s : string) : bool :=
  match s with EmptyString => false | _ => true end.

(** [String.prototype.toUpperCase] / [toLowerCase].  A text of ASCII
    characters is mapped letter by letter.  Any other text is mapped by the
    case tables of the runtime, which the model takes from outside:
    [upperOf] and [lowerOf]. *)
Record Unicode := {
  upperOf : string → string;
  lowerOf : string → string;
}.

Definition upperChar (c : ascii) : ascii :=
  let n := nat_of_ascii c in
  if (97 <=? n) && (n <=? 122) then ascii_of_nat (n - 32) else c.

Definition lowerChar (c : ascii) : ascii :=
  let n := nat_of_ascii c in
  if (65 <=? n) && (n <=? 90) then ascii_of_nat (n + 32) else c.

Fixpoint mapChars (f : ascii → ascii) (s : string) : string :=
  match s with
  | EmptyString => EmptyString
  | String c s' => String (f c) (mapChars f s')
  end.

Fixpoint isAscii (s : string) : bool :=
  match s with
  | EmptyString => true
  | String c s' => (nat_of_ascii c <? 128) && isAscii s'
  end.

Definition toUpperCase (u : Unicode) (s : string) : string :=
  if isAscii s then mapChars upperChar s else upperOf u s.

Definition toLowerCase (u : Unicode) (s : string) : string :=
  if isAscii s then mapChars lowerChar s else lowerOf u s.

(** [hay.includes(needle)]. *)
Fixpoint includes (hay needle : string) : bool :=
  String.prefix needle hay ||
  match hay with
  | EmptyString => false
  | String _ hay' => includes hay' needle
  end.

(** [s.split(sep)] for a one-character separator: always at least one
    piece. *)
Fixpoint split (sep : ascii) (s : string) : list string :=
  match s with
  | EmptyString => [EmptyString]
  | String c s' =>
      if Ascii.eqb c sep then EmptyString :: split sep s'
      else match split sep s' with
           | [] => [String c EmptyString]
           | p :: ps => String c p :: ps
           end
  end.

(** Integers as [Number.parseInt] yields them: an integer or [NaN]. *)
Inductive Num := NaN | Int (z : Z).

Definition isSpace (c : ascii) : bool :=
  let n := nat_of_ascii c in
  (n =? 32) || ((9 <=? n) && (n <=? 13)).

Definition digitOf (c : ascii) : option Z :=
  let n := nat_of_ascii c in
  if (48 <=? n) && (n <=? 57) then Some (Z.of_nat (n - 48)) else None.

Fixpoint skipSpaces (s : string) : string :=
  match s with
  | String c s' => if isSpace c then skipSpaces s' else s
  | EmptyString => s
  end.

(** The longest prefix of decimal digits, read left to right. *)
Fixpoint digits (acc : option Z) (s : string) : option Z :=
  match s with
  | EmptyString => acc
  | String c s' =>
      match digitOf c with
      | Some d => digits (Some (10 * default 0 acc + d)%Z) s'
      | None => acc
      end
  end.

(** [Number.parseInt(s, 10)]: leading white space (the ASCII part of it),
    an optional sign, then digits up to the first other character. *)
Definition parseInt (s : string) : Num :=
  let s := skipSpaces s in
  let '(neg, rest) :=
    match s with
    | String "-" r => (true, r)
    | String "+" r => (false, r)
    | _ => (false, s)
    end in
  match digits None rest with
  | None => NaN
  | Some z => Int (if neg : bool then - z else z)%Z
  end.

(** [Math.min(x, k)], [x - 1] and [x > k]; [NaN] is contagious and every
    comparison with it is false. *)
Definition Math_min (x : Num) (k : Z) : Num :=
  match x with NaN => NaN | Int z => Int (Z.min z k) end.

Definition pred (x : Num) : Num :=
  match x with NaN => NaN | Int z => Int (z - 1) end.

Definition gt (x : Num) (k : Z) : bool :=
  match x with NaN => false | Int z => (k <? z)%Z end.

End Js.

(** ** Exceptions, worlds and the handler monad *)

Inductive Exn :=
  | SyntaxError            (* JSON.parse on a malformed text *)
  | TypeError              (* property access on null *)
  | AxiosError (provider : string)
  | ServiceError (service : string).

Inductive Res (A : Type) :=
  | Ok (a : A)
  | Throw (e : Exn).
Arguments Ok {A} a.
Arguments Throw {A} e.

Definition M (W A : Type) : Type := W → Res A * W.

Definition ret {W A} (a : A) : M W A := λ w, (Ok a, w).
Definition throw {W A} (e : Exn) : M W A := λ w, (Throw e, w).

Definition bind {W A B} (m : M W A) (k : A → M W B) : M W B :=
  λ w, match m w with
       | (Ok a, w') => k a w'
       | (Throw e, w') => (Throw e, w')
       end.

(** [try { m } catch (error) { h }]: effects performed before the throw
    stay. *)
Definition tryCatch {W A} (m : M W A) (h : Exn → M W A) : M W A :=
  λ w, match m w with
       | (Ok a, w') => (Ok a, w')
       | (Throw e, w') => h e w'
       end.

Definition modify {W} (f : W → W) : M W unit := λ w, (Ok tt, f w).

Notation "'let*' x ':=' m 'in' k" := (bind m (λ x, k))
  (at level 10, x pattern, m at level 100, k at level 200).
Notation "m ';;;' k" := (bind m (λ _, k))
  (at level 100, k at level 200, right associativity).

(** [xs.map(f)] when [f] has effects: left to right. *)
Fixpoint mapM {W A B} (f : A → M W B) (xs : list A) : M W (list B) :=
  match xs with
  | [] => ret []
  | x :: xs' => let* y := f x in let* ys := mapM f xs' in ret (y :: ys)
  end.

(** ** Data model *)

(** The credential bundle kept in Secrets Manager (the fields the handlers
    read). *)
Record SecretBundle := {
  perplexityApiKey : option string;
  geminiApiKey : option string;
  chatGptApiKey : option string;
}.

Definition noSecrets : SecretBundle :=
  {| perplexityApiKey := None; geminiApiKey := None; chatGptApiKey := None |}.

(** The canonical news item ([AiContentItem] of fetchNews).  The document
    client marshals an item unless a key of it holds [undefined]; the
    only key that can is [sourceUrl]. *)
Module Ai.
Record AiContentItem := {
  id : string;
  title : string;
  summary : string;
  sourceUrl : Js.Slot string;
  verificationScore : Z;
  publishedAt : option string;
}.

Definition marshals (item : AiContentItem) : bool :=
  Js.defined (sourceUrl item).
End Ai.

(** The canonical patent item ([PatentSummary] of fetchPatents); the field
    [abstract] is spelled [abstractText]. *)
Module Patent.
Record PatentSummary := {
  id : string;
  title : string;
  abstractText : string;
  filingDate : Js.Slot string;
  inventors : option (list string);
  impactScore : Z;
  sourceUrl : Js.Slot string;
}.

Definition marshals (patent : PatentSummary) : bool :=
  Js.defined (filingDate patent) && Js.defined (sourceUrl patent).
End Patent.

(** One item of the content-cache table, keyed by [sectionPeriod].  A
    DynamoDB item only has the attributes that some update has set. *)
Record CacheRecord := {
  newsArray : option (list Ai.AiContentItem);
  patentsArray : option (list Patent.PatentSummary);
  verifiedAt : option string;
  expiresAt : option Z;
  verificationScore : option Z;
  patentImpactAverage : option Z;
}.

Definition emptyRecord : CacheRecord :=
  {| newsArray := None; patentsArray := None; verifiedAt := None;
     expiresAt := None; verificationScore := None;
     patentImpactAverage := None |}.

(** An outbound provider call, kept as a trace. *)
Inductive Call := Post (provider query : string).

(** What a handler can change: the uuid stream position, the cache table,
    each Lambda's memoised [cachedSecrets], and the trace of provider
    calls.  [entropy] is the stream [uuid()] draws from. *)
Record World := {
  entropy : nat → string;
  uuids : nat;
  contentCache : gmap string CacheRecord;
  newsSecrets : option SecretBundle;
  patentSecrets : option SecretBundle;
  outbound : list Call;
}.

Definition uuid : M World string := λ w,
  (Ok (entropy w (uuids w)),
   {| entropy := entropy w; uuids := S (uuids w);
      contentCache := contentCache w; newsSecrets := newsSecrets w;
      patentSecrets := patentSecrets w; outbound := outbound w |}).

Definition setCache (t : gmap string CacheRecord) (w : World) : World :=
  {| entropy := entropy w; uuids := uuids w; contentCache := t;
     newsSecrets := newsSecrets w; patentSecrets := patentSecrets w;
     outbound := outbound w |}.

Definition setNewsSecrets (s : SecretBundle) (w : World) : World :=
  {| entropy := entropy w; uuids := uuids w; contentCache := contentCache w;
     newsSecrets := Some s; patentSecrets := patentSecrets w;
     outbound := outbound w |}.

Definition setPatentSecrets (s : SecretBundle) (w : World) : World :=
  {| entropy := entropy w; uuids := uuids w; contentCache := contentCache w;
     newsSecrets := newsSecrets w; patentSecrets := Some s;
     outbound := outbound w |}.

Definition logCall (c : Call) (w : World) : World :=
  {| entropy := entropy w; uuids := uuids w; contentCache := contentCache w;
     newsSecrets := newsSecrets w; patentSecrets := patentSecrets w;
     outbound := outbound w ++ [c] |}.

(** An axios call: it rejects, or resolves with [response.data], which may
    be missing. *)
Inductive Axios (D : Type) :=
  | Rejects
  | Resolves (data : option D).
Arguments Rejects {D}.
Arguments Resolves {D} data.

(** The answer of [GetSecretValue]: the call fails, or it carries a
    [SecretString] that [JSON.parse] rejects, or one that parses to a
    bundle, or none at all. *)
Inductive SecretAnswer :=
  | SecretFails
  | SecretMalformed
  | SecretString (bundle : option SecretBundle).

(** The HTTP answer of a handler behind API Gateway; [body] is kept
    structured instead of stringified, and the constant [headers] are
    left out. *)
Inductive ProxyBody (R : Type) :=
  | Payload (r : R)
  | Message (message : string).
Arguments Payload {R} r.
Arguments Message {R} message.

Record ProxyResult (R : Type) := {
  statusCode : Z;
  body : ProxyBody R;
}.
Arguments statusCode {R} _.
Arguments body {R} _.

(** [event.body] as [JSON.parse] sees it: a text it rejects, the text
    [null] (reading a property of the result throws), or any other JSON
    value, of which the handlers read the properties [section] and
    [timePeriod] (absent on a value that is not an object). *)
Inductive JsonBody :=
  | Unparseable (raw : string)
  | JsonNull
  | JsonObject (section timePeriod : option string).

(** An API Gateway event (it has [requestContext]); [apiBody = None] is an
    absent or empty body, [query] is [queryStringParameters]. *)
Record ApiEvent := {
  apiBody : option JsonBody;
  query : option (option string * option string);
}.

(** What the aggregation Lambdas are invoked with: an API Gateway event or
    the plain request object the refresh state machine sends. *)
Inductive Event :=
  | FromApiGateway (e : ApiEvent)
  | FromStateMachine (section timePeriod mode : option string).

(** ** fetchNews: the news aggregation Lambda *)

Module FetchNews.
Import Js.

Record AggregationRequest := {
  section : string;
  timePeriod : string;
  mode : option string;
}.

(** A provider's raw item ([any]): the properties the canonicaliser
    reads, each a string when present.  A property that is [null] reads as
    an absent one, except [url], whose [null] ends up in the canonical
    item. *)
Record RawItem := {
  r_id : option string;
  r_title : option string;
  r_summary : option string;
  r_content : option string;
  r_source_url : option string;       (* item.source?.url *)
  r_url : Slot string;
  r_published_at : option string;
  r_publishedAt : option string;
}.

Record AiResult := {
  provider : string;
  confidence : Q;
  items : list RawItem;
}.

Record AggregatedResponse := {
  res_section : string;
  res_timePeriod : string;
  res_items : list Ai.AiContentItem;
  verificationSummary : string;
  generatedAt : string;
}.

(** [response.data] of the Perplexity search endpoint. *)
Record PerplexityData := {
  pd_confidence : option Q;
  pd_results : option (list RawItem);
}.

(** The surroundings of one invocation. [postPerplexity query key] and
    its siblings are the three HTTP calls; [updateSucceeds] tells whether
    DynamoDB accepts the [UpdateCommand] once the client has marshalled
    it; [nowIso] and [nowSeconds] are [new Date().toISOString()] and
    [Math.floor(Date.now() / 1000)]; [unicode] holds the case tables of the
    runtime. *)
Record Env := {
  apiSecretArn : string;
  getSecretValue : SecretAnswer;
  postPerplexity : string → string → Axios PerplexityData;
  postGemini : string → string → Axios (option (list RawItem));
  postChatGpt : string → string → Axios (option (list RawItem));
  updateSucceeds : bool;
  nowIso : string;
  nowSeconds : Z;
  unicode : Unicode;
}.

Section Handlers.
Variable env : Env.

Definition resolveSecrets : M World SecretBundle := λ w,
  match newsSecrets w with
  | Some cached => (Ok cached, w)
  | None =>
      if nonEmpty (apiSecretArn env) then
        match getSecretValue env with
        | SecretFails => (Throw (ServiceError "secretsmanager"), w)
        | SecretMalformed => (Throw SyntaxError, w)
        | SecretString (Some bundle) => (Ok bundle, setNewsSecrets bundle w)
        | SecretString None => (Ok noSecrets, setNewsSecrets noSecrets w)
        end
      else (Ok noSecrets, setNewsSecrets noSecrets w)
  end.

Definition parseRequest (event : Event) : M World AggregationRequest :=
  match event with
  | FromApiGateway e =>
      let* b :=
        match apiBody e with
        | None => ret (None, None)
        | Some (Unparseable _) => throw SyntaxError
        | Some JsonNull => throw TypeError
        | Some (JsonObject s t) => ret (s, t)
        end in
      let q := default (None, None) (query e) in
      ret {| section := default "ai" (orElse b.1 q.1);
             timePeriod := default "daily" (orElse b.2 q.2);
             mode := Some "api" |}
  | FromStateMachine s t m =>
      ret {| section := default "ai" s;
             timePeriod := default "daily" t;
             mode := m |}
  end.

Definition callPerplexity (query : string) (key : option string)
  : M World (option AiResult) :=
  match key with
  | Some k =>
      if nonEmpty k then
        modify (logCall (Post "perplexity" query)) ;;;
        match postPerplexity env query k with
        | Resolves data =>
            ret (Some {| provider := "perplexity";
                         confidence := default 0%Q (data ≫= pd_confidence);
                         items := default [] (data ≫= pd_results) |})
        | Rejects => throw (AxiosError "perplexity")
        end
      else ret None
  | None => ret None
  end.

Definition callGemini (query : string) (key : option string)
  : M World (option AiResult) :=
  match key with
  | Some k =>
      if nonEmpty k then
        modify (logCall (Post "gemini" query)) ;;;
        match postGemini env query k with
        | Resolves data =>
            ret (Some {| provider := "gemini";
                         confidence := 0.7%Q;
                         items := default [] (mjoin data) |})
        | Rejects => throw (AxiosError "gemini")
        end
      else ret None
  | None => ret None
  end.

Definition callChatGpt (query : string) (key : option string)
  : M World (option AiResult) :=
  match key with
  | Some k =>
      if nonEmpty k then
        modify (logCall (Post "chatgpt" query)) ;;;
        match postChatGpt env query k with
        | Resolves data =>
            ret (Some {| provider := "chatgpt";
                         confidence := 0.6%Q;
                         items := default [] (mjoin data) |})
        | Rejects => throw (AxiosError "chatgpt")
        end
      else ret None
  | None => ret None
  end.

Definition placeholderItem (section timePeriod : string) (index : nat)
  : M World Ai.AiContentItem :=
  let* i := uuid in
  ret {| Ai.id := i;
         Ai.title := toUpperCase (unicode env) section +:+ " insight "
                     +:+ pretty (index + 1) +:+ " (" +:+ timePeriod +:+ ")";
         Ai.summary := "Placeholder content for " +:+ section +:+ " during "
                       +:+ timePeriod
                       +:+ ". Replace with real aggregation when API keys are configured.";
         Ai.sourceUrl := Absent;
         Ai.verificationScore := 50;
         Ai.publishedAt := Some (nowIso env) |}.

Definition buildPlaceholderItems (section timePeriod : string)
  : M World (list Ai.AiContentItem) :=
  mapM (placeholderItem section timePeriod) (seq 0 3).

(** The three guarded attempts of [aggregateContent] (its lines up to
    the canonicalisation): the value of [aiResult] after them. *)
Definition cascade (query : string) (secrets : SecretBundle)
  : M World (option AiResult) :=
  let* r1 := tryCatch (callPerplexity query (perplexityApiKey secrets))
                      (λ _, ret None) in
  let* r2 := match r1 with
             | Some _ => ret r1
             | None => tryCatch (callGemini query (geminiApiKey secrets))
                                (λ _, ret None)
             end in
  match r2 with
  | Some _ => ret r2
  | None => tryCatch (callChatGpt query (chatGptApiKey secrets))
                     (λ _, ret None)
  end.

(** The body of the [.map] that canonicalises one raw item. *)
Definition canonical (request : AggregationRequest) (generatedAt : string)
    (aiResult : option AiResult) (item : RawItem)
  : M World Ai.AiContentItem :=
  let* i := match r_id item with Some i => ret i | None => uuid end in
  ret {| Ai.id := i;
         Ai.title := default ("Update for " +:+ section request)
                       (orElse (r_title item) (r_summary item));
         Ai.summary :=
           default ("Automated insight regarding " +:+ section request
                    +:+ " developments for " +:+ timePeriod request +:+ ".")
             (orElse (r_summary item) (r_content item));
         Ai.sourceUrl := coalesce (r_source_url item) (r_url item);
         Ai.verificationScore :=
           Math_round (times (default 0.6%Q (confidence <$> aiResult)) 100);
         Ai.publishedAt :=
           Some (default generatedAt
                   (orElse (r_published_at item) (r_publishedAt item))) |}.

(** The [UpdateCommand] of [aggregateContent]: [SET] overwrites the four
    named attributes of the item under [key] and creates the item when
    there is none. *)
Definition setNews (key : string) (news : list Ai.AiContentItem)
    (at_ : string) (ttl score : Z) (t : gmap string CacheRecord)
  : gmap string CacheRecord :=
  let old := default emptyRecord (t !! key) in
  <[key := {| newsArray := Some news;
              patentsArray := patentsArray old;
              verifiedAt := Some at_;
              expiresAt := Some ttl;
              verificationScore := Some score;
              patentImpactAverage := patentImpactAverage old |}]> t.

(** [docClient.send(new UpdateCommand(...))]: it is rejected when the
    client cannot marshal the values, which is when an item holds
    [undefined], or when DynamoDB does not accept the update. *)
Definition writeNews (request : AggregationRequest)
    (news : list Ai.AiContentItem) (at_ : string) (score : Z)
  : M World unit :=
  if forallb Ai.marshals news && updateSucceeds env then
    modify (λ w, setCache
                   (setNews (section request +:+ "#" +:+ timePeriod request)
                            news at_ (nowSeconds env + 60 * 60 * 24) score
                            (contentCache w)) w)
  else throw (ServiceError "dynamodb").

Definition summaryOf (aiResult : option AiResult) : string :=
  match aiResult with
  | Some r =>
      if nonEmpty (provider r) then
        "Content verified via " +:+ provider r +:+ " with confidence "
        +:+ toFixed0 (times (confidence r) 100) +:+ "%."
      else "Placeholder content generated because AI providers were unavailable."
  | None => "Placeholder content generated because AI providers were unavailable."
  end.

Definition newsQuery (request : AggregationRequest) : string :=
  "Top verified " +:+ section request +:+ " technology news for "
  +:+ timePeriod request.

Definition aggregateContent (request : AggregationRequest)
  : M World AggregatedResponse :=
  let* secrets := resolveSecrets in
  let query := newsQuery request in
  let* aiResult := cascade query secrets in
  let generatedAt := nowIso env in
  let* items :=
    mapM (canonical request generatedAt aiResult)
         (take 10 (default [] (items <$> aiResult))) in
  let* enrichedItems :=
    match items with
    | _ :: _ => ret items
    | [] => buildPlaceholderItems (section request) (timePeriod request)
    end in
  writeNews request enrichedItems generatedAt
    (Math_round (times (default 0.5%Q (confidence <$> aiResult)) 100)) ;;;
  ret {| res_section := section request;
         res_timePeriod := timePeriod request;
         res_items := enrichedItems;
         verificationSummary := summaryOf aiResult;
         generatedAt := generatedAt |}.

Definition handleApiGateway (event : Event)
  : M World (ProxyResult AggregatedResponse) :=
  tryCatch
    (let* request := parseRequest event in
     let* result := aggregateContent request in
     ret {| statusCode := 200; body := Payload result |})
    (λ _, ret {| statusCode := 500;
                 body := Message "Failed to aggregate news content" |}).

(** The exported [handler]: an HTTP answer for an API Gateway event,
    the bare response otherwise. *)
Definition handler (event : Event)
  : M World (ProxyResult AggregatedResponse + AggregatedResponse) :=
  match event with
  | FromApiGateway _ =>
      let* r := handleApiGateway event in ret (inl r)
  | FromStateMachine _ _ _ =>
      let* normalized := parseRequest event in
      let* r := aggregateContent normalized in ret (inr r)
  end.

End Handlers.
End FetchNews.

(** ** fetchPatents: the patent aggregation Lambda *)

Module FetchPatents.
Import Js.

Record PatentRequest := {
  section : string;
  timePeriod : string;
  mode : option string;
}.

(** A raw Perplexity result ([any]) as the patent mapper reads it.  A
    property that is [null] reads as an absent one, except [filingDate]
    and [url], whose [null] ends up in the summary. *)
Record RawPatent := {
  p_id : option string;
  p_title : option string;
  p_summary : option string;
  p_abstract : option string;
  p_published_at : option string;
  p_filingDate : Slot string;
  p_inventors : option (list string);
  p_confidence : option Q;
  p_source_url : option string;       (* patent.source?.url *)
  p_url : Slot string;
}.

Record PatentResponse := {
  res_section : string;
  res_timePeriod : string;
  patents : list Patent.PatentSummary;
  generatedAt : string;
}.

(** [postPerplexity] resolves with [response.data.results];
    [postChatGpt] with [response.data.choices[0].message.content];
    [updateSucceeds] tells whether DynamoDB accepts the [UpdateCommand]
    once the client has marshalled it. *)
Record Env := {
  secretArn : string;
  getSecretValue : SecretAnswer;
  postPerplexity : string → string → Axios (list RawPatent);
  postChatGpt : string → string → Axios string;
  updateSucceeds : bool;
  nowIso : string;
  nowSeconds : Z;
  unicode : Unicode;
}.

Section Handlers.
Variable env : Env.

Definition loadSecrets : M World SecretBundle := λ w,
  match patentSecrets w with
  | Some cached => (Ok cached, w)
  | None =>
      if nonEmpty (secretArn env) then
        match getSecretValue env with
        | SecretFails => (Throw (ServiceError "secretsmanager"), w)
        | SecretMalformed => (Throw SyntaxError, w)
        | SecretString (Some bundle) =>
            (Ok bundle, setPatentSecrets bundle w)
        | SecretString None => (Ok noSecrets, setPatentSecrets noSecrets w)
        end
      else (Ok noSecrets, setPatentSecrets noSecrets w)
  end.

Definition normalizeRequest (event : Event) : M World PatentRequest :=
  match event with
  | FromApiGateway e =>
      let* b :=
        match apiBody e with
        | None => ret (None, None)
        | Some (Unparseable _) => throw SyntaxError
        | Some JsonNull => throw TypeError
        | Some (JsonObject s t) => ret (s, t)
        end in
      let q := default (None, None) (query e) in
      ret {| section := default "ai" (orElse b.1 q.1);
             timePeriod := default "monthly" (orElse b.2 q.2);
             mode := Some "api" |}
  | FromStateMachine s t m =>
      ret {| section := default "ai" s;
             timePeriod := default "monthly" t;
             mode := m |}
  end.

(** The object pushed for one Perplexity result. *)
Definition fromPerplexity (request : PatentRequest) (patent : RawPatent)
  : M World Patent.PatentSummary :=
  let* i := match p_id patent with Some i => ret i | None => uuid end in
  ret {| Patent.id := i;
         Patent.title :=
           default ("Patent insight for " +:+ section request)
                   (p_title patent);
         Patent.abstractText :=
           default ("Placeholder summary for a " +:+ section request
                    +:+ " patent during " +:+ timePeriod request +:+ ".")
             (orElse (p_summary patent) (p_abstract patent));
         Patent.filingDate :=
           coalesce (p_published_at patent) (p_filingDate patent);
         Patent.inventors := Some (default [] (p_inventors patent));
         Patent.impactScore :=
           Math_round (times (default 0.6%Q (p_confidence patent)) 100);
         Patent.sourceUrl :=
           coalesce (p_source_url patent) (p_url patent) |}.

(** The object pushed for one line of the ChatGPT answer. *)
Definition fromLine (indexed : nat * string)
  : M World Patent.PatentSummary :=
  let '(index, line) := indexed in
  let* i := uuid in
  ret {| Patent.id := i;
         Patent.title :=
           default ("Patent " +:+ pretty (index + 1))
                   (head (split ":" line));
         Patent.abstractText := line;
         Patent.filingDate := Absent;
         Patent.inventors := None;
         Patent.impactScore := 60;
         Patent.sourceUrl := Absent |}.

Definition placeholderPatent (request : PatentRequest) (index : nat)
  : M World Patent.PatentSummary :=
  let* i := uuid in
  ret {| Patent.id := i;
         Patent.title := toUpperCase (unicode env) (section request)
                         +:+ " patent highlight " +:+ pretty (index + 1);
         Patent.abstractText :=
           "Placeholder patent highlight for " +:+ section request +:+ " ("
           +:+ timePeriod request
           +:+ "). Configure API keys to replace this data.";
         Patent.filingDate := Absent;
         Patent.inventors := None;
         Patent.impactScore := 55;
         Patent.sourceUrl := Absent |}.

Definition patentQuery (request : PatentRequest) : string :=
  "Summarize the most impactful patents related to "
  +:+ section request +:+ " filed within " +:+ timePeriod request.

Definition generatePatentSummaries (request : PatentRequest)
  : M World (list Patent.PatentSummary) :=
  let* secrets := loadSecrets in
  let query := patentQuery request in
  (* Perplexity, inside try/catch *)
  let* items1 :=
    match perplexityApiKey secrets with
    | Some k =>
        if nonEmpty k then
          tryCatch
            (modify (logCall (Post "perplexity" query)) ;;;
             match postPerplexity env query k with
             | Resolves data =>
                 mapM (fromPerplexity request) (default [] data)
             | Rejects => throw (AxiosError "perplexity")
             end)
            (λ _, ret [])
        else ret []
    | None => ret []
    end in
  (* ChatGPT, not inside any try/catch *)
  let* items2 :=
    match items1, chatGptApiKey secrets with
    | [], Some k =>
        if nonEmpty k then
          modify (logCall (Post "chatgpt" query)) ;;;
          match postChatGpt env query k with
          | Resolves data =>
              let text := default "" data in
              if nonEmpty text then
                mapM fromLine
                  (imap pair
                     (take 5 (List.filter nonEmpty (split "010" text))))
              else ret []
          | Rejects => throw (AxiosError "chatgpt")
          end
        else ret items1
    | _, _ => ret items1
    end in
  match items2 with
  | [] => mapM (placeholderPatent request) (seq 0 3)
  | _ :: _ => ret (take 10 items2)
  end.

(** [patents.reduce((acc, item) => acc + (item.impactScore ?? 0), 0)]. *)
Definition sumImpact (patents : list Patent.PatentSummary) : Z :=
  foldl (λ acc item, acc + Patent.impactScore item)%Z 0%Z patents.

(** The value bound to [:impact]. *)
Definition impactAverage (patents : list Patent.PatentSummary) : Z :=
  Math_round (inject_Z (sumImpact patents)
              / inject_Z (Z.max 1 (Z.of_nat (length patents))))%Q.

(** The [UpdateCommand] of [upsertCache] on the table. *)
Definition setPatents (key : string) (ps : list Patent.PatentSummary)
    (at_ : string) (ttl impact : Z) (t : gmap string CacheRecord)
  : gmap string CacheRecord :=
  let old := default emptyRecord (t !! key) in
  <[key := {| newsArray := newsArray old;
              patentsArray := Some ps;
              verifiedAt := Some at_;
              expiresAt := Some ttl;
              verificationScore := verificationScore old;
              patentImpactAverage := Some impact |}]> t.

(** [docClient.send(new UpdateCommand(...))]: it is rejected when the
    client cannot marshal the values, which is when a summary holds
    [undefined], or when DynamoDB does not accept the update. *)
Definition upsertCache (request : PatentRequest)
    (ps : list Patent.PatentSummary) : M World unit :=
  if forallb Patent.marshals ps && updateSucceeds env then
    modify (λ w, setCache
                   (setPatents
                      (section request +:+ "#" +:+ timePeriod request)
                      ps (nowIso env) (nowSeconds env + 60 * 60 * 24)
                      (impactAverage ps) (contentCache w)) w)
  else throw (ServiceError "dynamodb").

Definition respond (request : PatentRequest)
    (ps : list Patent.PatentSummary) : PatentResponse :=
  {| res_section := section request;
     res_timePeriod := timePeriod request;
     patents := ps;
     generatedAt := nowIso env |}.

Definition handleApi (event : Event)
  : M World (ProxyResult PatentResponse) :=
  tryCatch
    (let* request := normalizeRequest event in
     let* ps := generatePatentSummaries request in
     upsertCache request ps ;;;
     ret {| statusCode := 200; body := Payload (respond request ps) |})
    (λ _, ret {| statusCode := 500;
                 body := Message "Unable to aggregate patent insights" |}).

Definition handler (event : Event)
  : M World (ProxyResult PatentResponse + PatentResponse) :=
  match event with
  | FromApiGateway _ => let* r := handleApi event in ret (inl r)
  | FromStateMachine _ _ _ =>
      let* request := normalizeRequest event in
      let* ps := generatePatentSummaries request in
      upsertCache request ps ;;;
      ret (inr (respond request ps))
  end.

End Handlers.
End FetchPatents.

(** ** relatedContent: the deep-dive expansion Lambda *)

Module RelatedContent.
Import Js.

Record RelatedContentRequest := {
  section : string;
  period : string;
  itemId : string;
  depth : option Num;
}.

(** A stored item as the handler reads it ([any]).  [j_verificationScore]
    is present exactly when [Number.isFinite] holds of the stored value,
    [j_related] exactly when [Array.isArray] holds. *)
Inductive JsItem := mkJsItem {
  j_id : option string;
  j_title : option string;
  j_summary : option string;
  j_content : option string;
  j_sourceUrl : option string;
  j_source_url : option string;       (* item.source?.url *)
  j_url : option string;
  j_verificationScore : option Q;
  j_related : option (list JsItem);
}.

Inductive RelatedItem := mkRelatedItem {
  id : string;
  title : string;
  summary : string;
  sourceUrl : option string;
  verificationScore : Z;
  related : option (list RelatedItem);
}.

Record RelatedContentResponse := {
  res_section : string;
  res_period : string;
  item : RelatedItem;
  generatedAt : string;
}.

Record PathParameters := {
  pp_section : option string;
  pp_period : option string;
  pp_itemId : option string;
}.

(** The API Gateway event: [pathParameters] and
    [queryStringParameters?.depth]. *)
Record RelatedEvent := {
  pathParameters : option PathParameters;
  queryDepth : option string;
}.

(** The answer of the [GetCommand]: it fails, or yields [result.Item];
    of the item only [newsArray] is read, present when it is an array. *)
Inductive GetAnswer :=
  | GetFails
  | GetItem (newsArray : option (option (list JsItem))).

Record Env := {
  tableName : string;
  getItem : string → GetAnswer;
  nowIso : string;
  unicode : Unicode;
}.

(** A typed [RelatedItem] handed to a parameter of type [any]. *)
Fixpoint asAny (r : RelatedItem) : JsItem :=
  match r with
  | mkRelatedItem i t s u v rel =>
      mkJsItem (Some i) (Some t) (Some s) None u None None
               (Some (inject_Z v))
               (match rel with
                | Some children => Some (List.map asAny children)
                | None => None
                end)
  end.

Definition parseRequest (event : RelatedEvent) : RelatedContentRequest :=
  {| section := default "ai" (pathParameters event ≫= pp_section);
     period := default "daily" (pathParameters event ≫= pp_period);
     itemId := default "unknown" (pathParameters event ≫= pp_itemId);
     depth := match queryDepth event with
              | Some d => if nonEmpty d then Some (parseInt d) else None
              | None => None
              end |}.

Definition placeholderChild (u : Unicode) (section : string) (index : nat)
  : M World RelatedItem :=
  let* i := uuid in
  ret (mkRelatedItem i
         (toUpperCase u section +:+ " contextual insight "
          +:+ pretty (index + 1))
         "Placeholder context pending real AI enrichment."
         None 55 None).

Definition buildPlaceholder (u : Unicode) (section period itemId : string)
  : M World RelatedItem :=
  let* children := mapM (placeholderChild u section) (seq 0 2) in
  ret (mkRelatedItem itemId
         ("Deep dive for " +:+ toUpperCase u section +:+ " (" +:+ period
          +:+ ")")
         "Configure aggregation providers to unlock hierarchical related content."
         None 60 (Some children)).

(** [expandRelated(item, depth)].  The children are expanded first, with
    [depth - 1], whatever [depth] is; [depth] only decides whether the
    expanded children are kept.  The inner loop is
    [item.related.slice(0, 3).map(...)], written with a counter so that
    the recursion is structural (see [expandRelated_unfold]). *)
Fixpoint expandRelated (item : JsItem) (depth : Num) {struct item}
  : M World RelatedItem :=
  match item with
  | mkJsItem jid jtitle jsummary jcontent jsourceUrl jsource jurl jscore jrel =>
      let* relatedItems :=
        match jrel with
        | Some children =>
            (fix each (n : nat) (cs : list JsItem) {struct cs}
               : M World (list RelatedItem) :=
               match n, cs with
               | S n', child :: cs' =>
                   let* r := expandRelated child (pred depth) in
                   let* rs := each n' cs' in
                   ret (r :: rs)
               | _, _ => ret []
               end) 3 children
        | None => ret []
        end in
      let* i := match jid with Some i => ret i | None => uuid end in
      ret (mkRelatedItem i
             (default "Related technology development" jtitle)
             (default "AI generated related insight awaiting full orchestration."
                (orElse jsummary jcontent))
             (orElse jsourceUrl (orElse jsource jurl))
             (match jscore with Some v => Math_round v | None => 60 end)
             (if gt depth 1 then Some relatedItems else None))
  end.

Section Handlers.
Variable env : Env.

Definition fetchCached (section period : string)
  : M World (option (option (list JsItem))) :=
  if nonEmpty (tableName env) then
    match getItem env (section +:+ "#" +:+ period) with
    | GetFails => throw (ServiceError "dynamodb")
    | GetItem it => ret it
    end
  else ret None.

(** [candidates.find(...) ?? candidates.find(...) ?? fallback]. *)
Definition pickTarget (candidates : list JsItem) (itemId : string)
    (fallback : RelatedItem) : JsItem :=
  default (asAny fallback)
    (orElse
       (List.find (λ it, bool_decide (j_id it = Some itemId)) candidates)
       (List.find
          (λ it, match j_title it with
                 | Some t =>
                     includes (toLowerCase (unicode env) t)
                              (toLowerCase (unicode env) itemId)
                 | None => false
                 end) candidates)).

(** The handler once the request is parsed. *)
Definition serve (request : RelatedContentRequest)
  : M World (ProxyResult RelatedContentResponse) :=
  let* cached := fetchCached (section request) (period request) in
  let candidates := default [] (mjoin cached) in
  let* fallback :=
    buildPlaceholder (unicode env) (section request) (period request)
      (itemId request) in
  let target := pickTarget candidates (itemId request) fallback in
  let* it :=
    expandRelated target (Math_min (default (Int 3) (depth request)) 5) in
  ret {| statusCode := 200;
         body := Payload {| res_section := section request;
                            res_period := period request;
                            item := it;
                            generatedAt := nowIso env |} |}.

Definition handler (event : RelatedEvent)
  : M World (ProxyResult RelatedContentResponse) :=
  serve (parseRequest event).

End Handlers.
End RelatedContent.

(** ** dailyRefresh: the refresh trigger and subscriber notifier

    The repository holds two versions of this Lambda.  Both start the
    refresh state machine; they differ in whom they notify. *)

Module DailyRefresh.
Import Js.

Record RefreshEventDetail := {
  sections : option (list string);
  timePeriods : option (list string);
  connections : option (list string);     (* present when an array *)
}.

Definition noDetail : RefreshEventDetail :=
  {| sections := None; timePeriods := None; connections := None |}.

(** The input of [StartExecutionCommand]. *)
Record Execution := {
  ex_sections : list string;
  ex_timePeriods : list string;
  triggeredAt : string;
}.

(** The notification pushed to a connection. *)
Record Notice := {
  n_type : string;
  n_message : string;
  n_sections : list string;
  n_timePeriods : list string;
}.

(** One [PostToConnectionCommand]: the target, the data, and whether the
    service accepted it. *)
Record Push := {
  connectionId : string;
  data : Notice;
  delivered : bool;
}.

(** What the Lambda does to the outside: executions started and pushes
    attempted, in order. *)
Record Wire := {
  executions : list Execution;
  pushes : list Push;
}.

(** The answer of the [ScanCommand] on the sessions table: it fails, or
    yields [result.Items], each with its [connectionId] attribute, and
    [result.LastEvaluatedKey], which is there when the scan stopped before
    the end of the table; the Lambda does not read that key. *)
Inductive ScanAnswer :=
  | ScanFails
  | ScanItems (items : option (list (option string)))
              (lastEvaluatedKey : option string).

Record Env := {
  stateMachineArn : string;
  websocketEndpoint : string;
  websocketTableName : string;
  startSucceeds : bool;
  scan : ScanAnswer;
  postToConnection : string → bool;
  nowIso : string;
}.

Record Answer := {
  answerStatus : Z;
  answerBody : string;
}.

Section Handlers.
Variable env : Env.

Definition startExecution (ss ps : list string) : M Wire unit :=
  if startSucceeds env then
    modify (λ w, {| executions := executions w ++
                      [{| ex_sections := ss; ex_timePeriods := ps;
                          triggeredAt := nowIso env |}];
                    pushes := pushes w |})
  else throw (ServiceError "states").

(** [Promise.allSettled(connections.map(id => websocketClient.send(...)))]:
    every send is issued, in order, and no rejection escapes. *)
Definition pushAll (payload : Notice) (targets : list string)
  : M Wire unit :=
  modify (λ w, {| executions := executions w;
                  pushes := pushes w ++
                    List.map (λ c, {| connectionId := c; data := payload;
                                      delivered := postToConnection env c |})
                             targets |}).

Definition notice (ss ps : list string) : Notice :=
  {| n_type := "refresh";
     n_message := "TechNewsHub content refresh triggered";
     n_sections := ss; n_timePeriods := ps |}.

Definition defaultSections : list string := ["ml"; "ai"; "iot"; "quantum"].
Definition defaultPeriods : list string :=
  ["daily"; "weekly"; "monthly"; "yearly"].

(** First version (lines 18-60 of dailyRefresh.ts): it notifies only the
    connections named in the event. *)
Definition handlerListed (event : option RefreshEventDetail)
  : M Wire Answer :=
  let detail := default noDetail event in
  let ss := default defaultSections (sections detail) in
  let ps := default defaultPeriods (timePeriods detail) in
  if nonEmpty (stateMachineArn env) then
    startExecution ss ps ;;;
    (match nonEmpty (websocketEndpoint env), connections detail with
     | true, Some cs => pushAll (notice ss ps) cs
     | _, _ => ret tt
     end) ;;;
    ret {| answerStatus := 202; answerBody := "Refresh started" |}
  else
    ret {| answerStatus := 500;
           answerBody := "Missing state machine configuration" |}.

Definition listActiveConnections : M Wire (list string) :=
  if nonEmpty (websocketTableName env) then
    match scan env with
    | ScanFails => throw (ServiceError "dynamodb")
    | ScanItems its _ =>
        ret (omap (λ c : option string,
                     match c with
                     | Some i => if nonEmpty i then Some i else None
                     | None => None
                     end) (default [] its))
    end
  else ret [].

(** Second version (lines 96-142 of dailyRefresh.ts): without a list in
    the event it scans the sessions table. *)
Definition handler (event : option RefreshEventDetail) : M Wire Answer :=
  let detail := default noDetail event in
  let ss := default defaultSections (sections detail) in
  let ps := default defaultPeriods (timePeriods detail) in
  if nonEmpty (stateMachineArn env) then
    startExecution ss ps ;;;
    let* targets :=
      match connections detail with
      | Some cs => ret cs
      | None => listActiveConnections
      end in
    (match nonEmpty (websocketEndpoint env), targets with
     | true, _ :: _ => pushAll (notice ss ps) targets
     | _, _ => ret tt
     end) ;;;
    ret {| answerStatus := 202; answerBody := "Refresh started" |}
  else
    ret {| answerStatus := 500;
           answerBody := "Missing state machine configuration" |}.

End Handlers.
End DailyRefresh.


(** ** Further JavaScript built-ins *)

Module JsMore.
Import Js.

(** [s.trimEnd()] and [s.trim()] for the ASCII white space. *)
Fixpoint trimEnd (s : string) : string :=
  match s with
  | EmptyString => EmptyString
  | String c s' =>
      match trimEnd s' with
      | EmptyString => if isSpace c then EmptyString else String c EmptyString
      | t => String c t
      end
  end.

Definition trim (s : string) : string := trimEnd (skipSpaces s).

(** [xs.slice(0, end)] for an integer [end]: a negative [end] counts from
    the end of the array. *)
Definition slice0 {A} (stop : Z) (xs : list A) : list A :=
  take (Z.to_nat (if (stop <? 0)%Z then Z.of_nat (length xs) + stop else stop))
       xs.

(** [x || d] on numbers: zero is falsy. *)
Definition orNumber (x d : Q) : Q := if Qeq_bool x 0 then d else x.

(** [xs.sort((a, b) => key(b) - key(a))]: the sort is stable, so it is
    the insertion of each element, left to right, behind the elements
    that do not have a smaller key. *)
Fixpoint insertDesc {A} (key : A → Q) (x : A) (sorted : list A) : list A :=
  match sorted with
  | [] => [x]
  | y :: rest =>
      if Qle_bool (key x) (key y) then y :: insertDesc key x rest
      else x :: sorted
  end.

Definition sortDesc {A} (key : A → Q) (xs : list A) : list A :=
  foldl (λ sorted x, insertDesc key x sorted) [] xs.

End JsMore.

(** ** websocketManager: the live-connection registry *)

Module WebsocketManager.
Import Js.

(** One item of the sessions table, keyed by [connectionId]. *)
Record Session := {
  sessionId : option string;
  ttl : option Z;
  connectedAt : option string;
  lastSeen : option string;
}.

(** What the Lambda can change: the position in the [randomUUID] stream
    [seed] and the sessions table. *)
Record Registry := {
  seed : nat → string;
  drawn : nat;
  sessions : gmap string Session;
}.

(** The WebSocket event: [requestContext.eventType],
    [requestContext.connectionId], [queryStringParameters?.sessionId] and
    [body]. *)
Record SocketEvent := {
  eventType : option string;
  connectionId : option string;
  querySessionId : option string;
  frame : option string;
}.

(** [writeSucceeds] tells whether the DynamoDB command of the invocation
    goes through. *)
Record Env := {
  tableName : string;
  writeSucceeds : bool;
  nowIso : string;
  nowSeconds : Z;
}.

(** The answer body: a text, or the stringified
    [{connectionId, sessionId}]. *)
Inductive Reply :=
  | Text (s : string)
  | Registered (connectionId sessionId : string).

Record Answer := {
  answerStatus : Z;
  answerBody : Reply;
}.

Definition randomUUID : M Registry string := λ r,
  (Ok (seed r (drawn r)),
   {| seed := seed r; drawn := S (drawn r); sessions := sessions r |}).

Definition setSessions (t : gmap string Session) (r : Registry) : Registry :=
  {| seed := seed r; drawn := drawn r; sessions := t |}.

Section Handlers.
Variable env : Env.

(** A DynamoDB command that changes the table to [f table]. *)
Definition send (f : gmap string Session → gmap string Session)
  : M Registry unit :=
  if writeSucceeds env then modify (λ r, setSessions (f (sessions r)) r)
  else throw (ServiceError "dynamodb").

Definition handleConnect (event : SocketEvent) : M Registry Answer :=
  if nonEmpty (tableName env) then
    let* c := match connectionId event with
              | Some c => ret c
              | None => randomUUID
              end in
    let* s := match querySessionId event with
              | Some s => ret s
              | None => randomUUID
              end in
    send (λ t, <[c := {| sessionId := Some s;
                         ttl := Some (nowSeconds env + 60 * 60 * 24)%Z;
                         connectedAt := Some (nowIso env);
                         lastSeen := None |}]> t) ;;;
    ret {| answerStatus := 200; answerBody := Registered c s |}
  else ret {| answerStatus := 200; answerBody := Text "connected" |}.

Definition handleDisconnect (event : SocketEvent) : M Registry Answer :=
  if nonEmpty (tableName env) then
    (if truthy (connectionId event)
     then send (λ t, delete (default "" (connectionId event)) t)
     else ret tt) ;;;
    ret {| answerStatus := 200; answerBody := Text "disconnected" |}
  else ret {| answerStatus := 200; answerBody := Text "disconnected" |}.

(** The [UpdateCommand] of [handleMessage] is never accepted: its
    expression [SET lastSeen = :now, ttl = :ttl] names the attribute [ttl],
    a reserved word of DynamoDB, without an expression attribute name, so
    the service answers every such update with a validation error. *)
Definition handleMessage (event : SocketEvent) : M Registry Answer :=
  if nonEmpty (tableName env) then
    (if truthy (connectionId event)
     then throw (ServiceError "dynamodb")
     else ret tt) ;;;
    ret {| answerStatus := 200;
           answerBody := Text (default "ack" (frame event)) |}
  else ret {| answerStatus := 200; answerBody := Text "noop" |}.

Definition handler (event : SocketEvent) : M Registry Answer :=
  match eventType event with
  | Some "CONNECT" => handleConnect event
  | Some "DISCONNECT" => handleDisconnect event
  | _ => handleMessage event
  end.

End Handlers.
End WebsocketManager.

(** ** searchHandler: the search Lambda *)

Module Search.
Import Js JsMore.

Record SearchRequest := {
  query : string;
  section : option string;
  limit : option Z;
}.

(** [item.source] of a raw hit: missing, a text, or an object with [name]
    and [url]. *)
Inductive SourceField :=
  | NoSource
  | SourceText (s : string)
  | SourceObject (name url : option string).

(** A provider's raw hit ([any]) as [formatResults] reads it. *)
Record RawHit := {
  h_id : option string;
  h_title : option string;
  h_summary : option string;
  h_text : option string;
  h_content : option string;
  h_source : SourceField;
  h_url : option string;
}.

(** The [source] of a formatted result: a text, or the source object
    itself when it has no [name]. *)
Inductive SourceValue :=
  | SourceName (s : string)
  | SourceAsIs (url : option string).

Record SearchResultItem := {
  id : string;
  headline : string;
  summary : string;
  source : SourceValue;
  url : option string;
  verificationScore : Z;
}.

Record SearchResponse := {
  res_query : string;
  res_section : option string;
  results : list SearchResultItem;
  generatedAt : string;
  provider : option string;
}.

Record ProviderResult := {
  p_provider : string;
  p_confidence : Q;
  p_items : list RawHit;
}.

Record PerplexityData := {
  pd_confidence : option Q;
  pd_results : option (list RawHit);
}.

(** [event.body] as [JSON.parse] sees it. *)
Inductive SearchBody :=
  | Unreadable (raw : string)
  | BodyNull
  | BodyObject (query section : option string) (limit : option Z).

(** What the Lambda can change: the position in the uuid stream [seed],
    its memoised [cachedSecrets], and the trace of provider calls. *)
Record Process := {
  seed : nat → string;
  drawn : nat;
  memo : option SecretBundle;
  trace : list Call;
}.

Record Env := {
  apiSecretArn : string;
  getSecretValue : SecretAnswer;
  postPerplexity : string → string → Axios PerplexityData;
  postGemini : string → string → Axios (option (list RawHit));
  postChatGpt : string → string → Axios (option (list RawHit));
  nowIso : string;
}.

Definition draw : M Process string := λ p,
  (Ok (seed p (drawn p)),
   {| seed := seed p; drawn := S (drawn p); memo := memo p;
      trace := trace p |}).

Definition remember (s : SecretBundle) (p : Process) : Process :=
  {| seed := seed p; drawn := drawn p; memo := Some s; trace := trace p |}.

Definition note (c : Call) (p : Process) : Process :=
  {| seed := seed p; drawn := drawn p; memo := memo p;
     trace := trace p ++ [c] |}.

Section Handlers.
Variable env : Env.

Definition loadSecrets : M Process SecretBundle := λ p,
  match memo p with
  | Some cached => (Ok cached, p)
  | None =>
      if nonEmpty (apiSecretArn env) then
        match getSecretValue env with
        | SecretFails => (Throw (ServiceError "secretsmanager"), p)
        | SecretMalformed => (Throw SyntaxError, p)
        | SecretString (Some bundle) => (Ok bundle, remember bundle p)
        | SecretString None => (Ok noSecrets, remember noSecrets p)
        end
      else (Ok noSecrets, remember noSecrets p)
  end.

Definition parseRequest (body : option SearchBody) : SearchRequest :=
  match body with
  | None =>
      {| query := "latest ai breakthroughs"; section := None;
         limit := Some 10%Z |}
  | Some (BodyObject q s l) =>
      {| query := default "latest ai breakthroughs" q; section := s;
         limit := Some (default 10%Z l) |}
  | Some (Unreadable _) | Some BodyNull =>
      {| query := "technology news"; section := None; limit := Some 10%Z |}
  end.

Definition callPerplexity (q : string) (apiKey : option string)
  : M Process (option ProviderResult) :=
  match apiKey with
  | Some k =>
      if nonEmpty k then
        modify (note (Post "perplexity" q)) ;;;
        match postPerplexity env q k with
        | Resolves data =>
            ret (Some {| p_provider := "perplexity";
                         p_confidence := default 0.7%Q (data ≫= pd_confidence);
                         p_items := default [] (data ≫= pd_results) |})
        | Rejects => ret None
        end
      else ret None
  | None => ret None
  end.

Definition callGemini (q : string) (apiKey : option string)
  : M Process (option ProviderResult) :=
  match apiKey with
  | Some k =>
      if nonEmpty k then
        modify (note (Post "gemini" q)) ;;;
        match postGemini env q k with
        | Resolves data =>
            ret (Some {| p_provider := "gemini"; p_confidence := 0.6%Q;
                         p_items := default [] (mjoin data) |})
        | Rejects => ret None
        end
      else ret None
  | None => ret None
  end.

Definition callChatGpt (q : string) (apiKey : option string)
  : M Process (option ProviderResult) :=
  match apiKey with
  | Some k =>
      if nonEmpty k then
        modify (note (Post "chatgpt" q)) ;;;
        match postChatGpt env q k with
        | Resolves data =>
            ret (Some {| p_provider := "chatgpt"; p_confidence := 0.55%Q;
                         p_items := default [] (mjoin data) |})
        | Rejects => ret None
        end
      else ret None
  | None => ret None
  end.

(** The body of the [.map] of [formatResults]. *)
Definition formatOne (confidence : Q) (item : RawHit)
  : M Process SearchResultItem :=
  let* i := match h_id item with Some i => ret i | None => draw end in
  ret {| id := i;
         headline :=
           default "Technology insight"
             (orElse (h_title item) (orElse (h_summary item) (h_text item)));
         summary :=
           default "AI generated placeholder summary pending integration with upstream providers."
             (orElse (h_summary item) (orElse (h_content item) (h_text item)));
         source :=
           match h_source item with
           | SourceObject (Some n) _ => SourceName n
           | SourceObject None u => SourceAsIs u
           | SourceText s => SourceName s
           | NoSource => SourceName "aggregated"
           end;
         url :=
           orElse (match h_source item with
                   | SourceObject _ u => u
                   | _ => None
                   end) (h_url item);
         verificationScore :=
           Math_round (times (orNumber (b64 confidence) 0.5%Q) 100) |}.

Definition formatResults (raw : list RawHit) (confidence : Q) (limit : Z)
  : M Process (list SearchResultItem) :=
  mapM (formatOne confidence) (slice0 limit raw).

Definition stayTuned : RawHit :=
  {| h_id := None;
     h_title := Some "Stay tuned for curated technology insights";
     h_summary :=
       Some "Configure API keys to enable live semantic search results for TechNewsHub.";
     h_text := None; h_content := None; h_source := NoSource;
     h_url := None |}.

(** [providers.find(p => p.items.length > 0) ?? providers[0] ?? null]. *)
Definition select (providers : list ProviderResult) : option ProviderResult :=
  orElse (List.find (λ p, match p_items p with [] => false | _ => true end)
            providers)
         (head providers).

Definition enrich (request : SearchRequest) : string :=
  trim (query request +:+ " " +:+
        match section request with
        | Some s => if nonEmpty s then "focused on " +:+ s else ""
        | None => ""
        end).

Definition handler (body : option SearchBody)
  : M Process (ProxyResult SearchResponse) :=
  let request := parseRequest body in
  let* secrets := loadSecrets in
  let enrichedQuery := enrich request in
  let* r1 := callPerplexity enrichedQuery (perplexityApiKey secrets) in
  let* r2 := callGemini enrichedQuery (geminiApiKey secrets) in
  let* r3 := callChatGpt enrichedQuery (chatGptApiKey secrets) in
  let providers := omap (λ r : option ProviderResult, r) [r1; r2; r3] in
  let selected := select providers in
  let* formatted :=
    match selected with
    | Some s =>
        formatResults (p_items s) (p_confidence s)
                      (default 10%Z (limit request))
    | None => formatResults [] 0.5%Q (default 10%Z (limit request))
    end in
  let* results :=
    match formatted with
    | [] => formatResults [stayTuned] 0.5%Q 1
    | _ :: _ => ret formatted
    end in
  ret {| statusCode := 200;
         body := Payload {| res_query := query request;
                            res_section := section request;
                            results := results;
                            generatedAt := nowIso env;
                            provider := p_provider <$> selected |} |}.

End Handlers.
End Search.

(** ** recommendations: the recommendation Lambda *)

Module Recommendations.
Import Js JsMore.

Record RecommendationRequest := {
  sessionId : option string;
  email : option string;
  limit : option Z;
}.

Record RecommendationItem := {
  section : string;
  reason : string;
  score : Q;
}.

Record RecommendationResponse := {
  recommendations : list RecommendationItem;
  generatedAt : string;
}.

(** [event.body] as [JSON.parse] sees it. *)
Inductive RequestBody :=
  | Unreadable (raw : string)
  | BodyNull
  | BodyObject (sessionId email : option string) (limit : option Z).

(** One access-log item: [path], and [geo] when it is a string. *)
Record AccessItem := {
  path : option string;
  geo : option string;
}.

(** The answer of the [QueryCommand] on the access-log table. *)
Inductive QueryAnswer :=
  | QueryFails
  | QueryItems (items : option (list AccessItem)).

Record Env := {
  tableName : string;
  queryLogs : string → QueryAnswer;
  nowIso : string;
  unicode : Unicode;
}.

Definition parseRequest (body : option RequestBody) : RecommendationRequest :=
  match body with
  | Some (BodyObject s e l) =>
      {| sessionId := s; email := e; limit := Some (default 3%Z l) |}
  | _ => {| sessionId := None; email := None; limit := Some 3%Z |}
  end.

Definition baseSections : list string := ["ai"; "ml"; "iot"; "quantum"].

(** [interest[section] += amount]. *)
Definition bump (section : string) (amount : Q) (interest : gmap string Q)
  : gmap string Q :=
  <[section := (default 0%Q (interest !! section) + amount)%Q]> interest.

(** The body of [history.forEach]. *)
Definition visit (u : Unicode) (interest : gmap string Q) (item : AccessItem)
  : gmap string Q :=
  let p := default "" (path item) in
  let interest :=
    foldl (λ acc section,
             if includes (toLowerCase u p) section then bump section 2%Q acc
             else acc)
          interest baseSections in
  match geo item with
  | Some g =>
      if includes (toLowerCase u g) "research"
      then bump "quantum" 1.5%Q interest
      else interest
  | None => interest
  end.

Definition interestOf (u : Unicode) (history : list AccessItem)
  : gmap string Q :=
  foldl (visit u) (list_to_map ((λ s, (s, 0%Q)) <$> baseSections)) history.

Definition inferScores (u : Unicode) (history : list AccessItem)
  : list RecommendationItem :=
  let interest := interestOf u history in
  let scored :=
    sortDesc snd
      ((λ s, (s, orNumber (default 0%Q (interest !! s)) 0.5%Q))
         <$> baseSections) in
  (λ entry : string * Q,
     {| section := entry.1;
        score := (inject_Z (Math_round (entry.2 * 10)) / 10)%Q;
        reason :=
          if Qle_bool entry.2 1
          then "Discover curated " +:+ toUpperCase u entry.1
               +:+ " highlights tailored for emerging trends."
          else "You recently explored " +:+ toUpperCase u entry.1
               +:+ " stories, so we surfaced more insights." |})
    <$> scored.

Section Handlers.
Variable env : Env.

Definition fetchAccessHistory (sessionId : option string)
  : M unit (list AccessItem) :=
  match sessionId with
  | Some s =>
      if nonEmpty (tableName env) && nonEmpty s then
        match queryLogs env s with
        | QueryFails => throw (ServiceError "dynamodb")
        | QueryItems its => ret (default [] its)
        end
      else ret []
  | None => ret []
  end.

Definition handler (body : option RequestBody)
  : M unit (ProxyResult RecommendationResponse) :=
  let request := parseRequest body in
  let* history := fetchAccessHistory (sessionId request) in
  let recommendations :=
    slice0 (default 3%Z (limit request))
           (inferScores (unicode env) history) in
  ret {| statusCode := 200;
         body := Payload {| recommendations := recommendations;
                            generatedAt := nowIso env |} |}.

End Handlers.
End Recommendations.

(** ** authCallback: the Google sign-in Lambda *)

Module AuthCallback.
Import Js.

Record AuthPayload := {
  authorizationCode : option string;
  redirectUri : option string;
  sessionId : option string;
  preferredName : option string;
}.

Definition noPayload : AuthPayload :=
  {| authorizationCode := None; redirectUri := None; sessionId := None;
     preferredName := None |}.

(** [event.body] as [JSON.parse] sees it: text it rejects, the JSON
    [null], or any other value, of which the handler reads four
    properties. *)
Inductive AuthBody :=
  | Unreadable (raw : string)
  | BodyNull
  | BodyObject (payload : AuthPayload).

Record GoogleSecrets := {
  googleClientId : option string;
  googleClientSecret : option string;
}.

Definition noGoogleSecrets : GoogleSecrets :=
  {| googleClientId := None; googleClientSecret := None |}.

Inductive GoogleSecretAnswer :=
  | SecretFails
  | SecretMalformed
  | SecretString (bundle : option GoogleSecrets).

(** [tokenResponse.data], of which only [access_token] is read. *)
Record GoogleTokenResponse := {
  access_token : option string;
}.

(** [profileResponse.data] as the handler reads it:
    [emailAddresses?.[0]?.value] and [names?.[0]?.displayName]. *)
Record GoogleProfileResponse := {
  firstEmail : option string;
  firstName : option string;
}.

(** One item of the user-profiles table as this Lambda writes it, keyed
    by [email]. *)
Record Profile := {
  displayName : string;
  updatedAt : string;
}.

(** The requests sent to Google. *)
Inductive GoogleCall :=
  | TokenExchange (code redirect clientId clientSecret : string)
  | ProfileRead (accessToken : string).

(** What the Lambda can change: its memoised [cachedSecrets], the
    user-profiles table, and the trace of requests to Google. *)
Record Auth := {
  memo : option GoogleSecrets;
  profiles : gmap string Profile;
  calls : list GoogleCall;
}.

(** [encode] stands for
    [Buffer.from(JSON.stringify({email, displayName})).toString('base64url')]. *)
Record Env := {
  secretArn : string;
  getSecretValue : GoogleSecretAnswer;
  postToken : string → string → string → string → Axios GoogleTokenResponse;
  getProfile : string → Axios GoogleProfileResponse;
  userProfilesTableName : string;
  putSucceeds : bool;
  nowIso : string;
  encode : string → option string → string;
}.

(** The body of an answer: the failure message, or [{email, displayName}]. *)
Inductive Reply :=
  | Failure (message : string)
  | Identity (email : string) (displayName : option string).

Record Answer := {
  statusCode : Z;
  setCookie : option string;
  reply : Reply;
}.

Definition remember (s : GoogleSecrets) (a : Auth) : Auth :=
  {| memo := Some s; profiles := profiles a; calls := calls a |}.

Definition note (c : GoogleCall) (a : Auth) : Auth :=
  {| memo := memo a; profiles := profiles a; calls := calls a ++ [c] |}.

Definition setProfiles (t : gmap string Profile) (a : Auth) : Auth :=
  {| memo := memo a; profiles := t; calls := calls a |}.

Section Handlers.
Variable env : Env.

Definition getGoogleSecrets : M Auth GoogleSecrets := λ a,
  match memo a with
  | Some cached => (Ok cached, a)
  | None =>
      if nonEmpty (secretArn env) then
        match getSecretValue env with
        | SecretFails => (Throw (ServiceError "secretsmanager"), a)
        | SecretMalformed => (Throw SyntaxError, a)
        | SecretString (Some bundle) => (Ok bundle, remember bundle a)
        | SecretString None => (Ok noGoogleSecrets, remember noGoogleSecrets a)
        end
      else (Ok noGoogleSecrets, remember noGoogleSecrets a)
  end.

(** [parsePayload]: [None] is the JSON [null], on which every property
    access throws. *)
Definition parsePayload (body : option AuthBody) : option AuthPayload :=
  match body with
  | None => Some noPayload
  | Some (Unreadable _) => Some noPayload
  | Some BodyNull => None
  | Some (BodyObject payload) => Some payload
  end.

Definition exchangeCodeForTokens (payload : option AuthPayload)
  : M Auth (option GoogleTokenResponse) :=
  let* secrets := getGoogleSecrets in
  match payload with
  | None => throw TypeError
  | Some payload =>
      if truthy (authorizationCode payload)
         && truthy (googleClientId secrets)
         && truthy (googleClientSecret secrets)
      then
        let code := default "" (authorizationCode payload) in
        let redirect :=
          default "https://example.com/auth/callback" (redirectUri payload) in
        let clientId := default "" (googleClientId secrets) in
        let clientSecret := default "" (googleClientSecret secrets) in
        modify (note (TokenExchange code redirect clientId clientSecret)) ;;;
        match postToken env code redirect clientId clientSecret with
        | Resolves data => ret data
        | Rejects => ret None
        end
      else ret None
  end.

Definition fetchGoogleProfile (accessToken : string)
  : M Auth (option GoogleProfileResponse) :=
  modify (note (ProfileRead accessToken)) ;;;
  match getProfile env accessToken with
  | Resolves data => ret data
  | Rejects => ret None
  end.

(** [email.split('@')[0]]. *)
Definition localPart (email : string) : string :=
  default "" (head (split "@" email)).

Definition persistUserProfile (email : string) (name : option string)
  : M Auth unit :=
  if nonEmpty (userProfilesTableName env) then
    if putSucceeds env then
      modify (λ a, setProfiles
                     (<[email := {| displayName :=
                                      default (localPart email) name;
                                    updatedAt := nowIso env |}]>
                        (profiles a)) a)
    else throw (ServiceError "dynamodb")
  else ret tt.

Definition sessionCookie (email : string) (name : option string) : string :=
  "tnh_session=" +:+ encode env email name
  +:+ "; Path=/; HttpOnly; Secure; SameSite=Lax; Max-Age=604800".

Definition handler (body : option AuthBody) : M Auth Answer :=
  let payload := parsePayload body in
  let* tokenSet := exchangeCodeForTokens payload in
  let preferred := payload ≫= preferredName in
  let* found :=
    match tokenSet ≫= access_token with
    | Some token =>
        if nonEmpty token then
          let* profile := fetchGoogleProfile token in
          ret (profile ≫= firstEmail,
               orElse preferred (profile ≫= firstName))
        else ret (None, preferred)
    | None => ret (None, preferred)
    end in
  match found.1 with
  | Some email =>
      if nonEmpty email then
        persistUserProfile email found.2 ;;;
        ret {| statusCode := 200;
               setCookie := Some (sessionCookie email found.2);
               reply := Identity email found.2 |}
      else
        ret {| statusCode := 400; setCookie := None;
               reply := Failure "Unable to resolve Google profile information" |}
  | None =>
      ret {| statusCode := 400; setCookie := None;
             reply := Failure "Unable to resolve Google profile information" |}
  end.

End Handlers.
End AuthCallback.

(** ** Vocabulary of the design document *)

(** The mean of a list of integer scores. *)
Definition mean (xs : list Z) : Q :=
  (inject_Z (foldr Z.add 0%Z xs) / inject_Z (Z.of_nat (length xs)))%Q.

(** A provider is unavailable for a query when its credential is missing
    (or empty) or when the call made with it is rejected. *)
Definition unavailable {D} (key : option string) (post : string → Axios D)
  : Prop :=
  Js.truthy key = false ∨ ∃ k, key = Some k ∧ post k = Rejects.

(** Where a caller can name the section and the period of an aggregation
    request: the JSON body or the query string of an API call, or the
    fields of the object the state machine sends. *)
Definition givenSection (event : Event) : option string :=
  match event with
  | FromApiGateway e =>
      Js.orElse
        (match apiBody e with Some (JsonObject s _) => s | _ => None end)
        (query e ≫= fst)
  | FromStateMachine s _ _ => s
  end.

Definition givenPeriod (event : Event) : option string :=
  match event with
  | FromApiGateway e =>
      Js.orElse
        (match apiBody e with Some (JsonObject _ t) => t | _ => None end)
        (query e ≫= snd)
  | FromStateMachine _ t _ => t
  end.

(** The body of the event, if any, is JSON text for an object. *)
Definition wellFormed (event : Event) : Prop :=
  match event with
  | FromApiGateway e =>
      match apiBody e with
      | Some (Unparseable _) | Some JsonNull => False
      | _ => True
      end
  | FromStateMachine _ _ _ => True
  end.

(** A raw item whose canonical form the document client marshals: its
    link is a text, or its [url] is [null].  A cascade result is storable
    when the items that are canonicalised, the first ten, are; without
    items the placeholders are written, which always marshal. *)
Definition storable (raw : FetchNews.RawItem) : bool :=
  Js.defined (Js.coalesce (FetchNews.r_source_url raw) (FetchNews.r_url raw)).

Definition storableResult (aiResult : option FetchNews.AiResult) : bool :=
  forallb storable (take 10 (default [] (FetchNews.items <$> aiResult))).

(** The cache key of a request: [section#period]. *)
Definition newsKey (request : FetchNews.AggregationRequest) : string :=
  FetchNews.section request +:+ "#" +:+ FetchNews.timePeriod request.

Definition patentKey (request : FetchPatents.PatentRequest) : string :=
  FetchPatents.section request +:+ "#" +:+ FetchPatents.timePeriod request.

(** Every node of an expanded tree has at most [n] children. *)
Fixpoint fanoutOk (n : nat) (r : RelatedContent.RelatedItem) : bool :=
  match r with
  | RelatedContent.mkRelatedItem _ _ _ _ _ rel =>
      match rel with
      | Some children =>
          (length children <=? n) && forallb (fanoutOk n) children
      | None => true
      end
  end.

(** What one expansion guarantees: it returns, the tree it returns has
    fan-out at most three, and any other depth leaves the world in the same
    state and, when both depths are at most one, yields the same tree. *)
Definition expands (item : RelatedContent.JsItem) : Prop :=
  ∀ depth w, ∃ r w',
    RelatedContent.expandRelated item depth w = (Ok r, w')
    ∧ fanoutOk 3 r = true
    ∧ ∀ depth', ∃ r',
        RelatedContent.expandRelated item depth' w = (Ok r', w')
        ∧ (Js.gt depth 1 = false → Js.gt depth' 1 = false → r' = r).

(** ** Sample surroundings for the worked examples *)

Module Sample.

Definition world : World :=
  {| entropy := λ n, "uuid-" +:+ pretty n;
     uuids := 0;
     contentCache := ∅;
     newsSecrets := None;
     patentSecrets := None;
     outbound := [] |}.

(** A raw item with a title and nothing else, and one that also has a
    link. *)
Definition story (t : string) : FetchNews.RawItem :=
  {| FetchNews.r_id := None; FetchNews.r_title := Some t;
     FetchNews.r_summary := None; FetchNews.r_content := None;
     FetchNews.r_source_url := None; FetchNews.r_url := Js.Absent;
     FetchNews.r_published_at := None; FetchNews.r_publishedAt := None |}.

Definition linked (t url : string) : FetchNews.RawItem :=
  {| FetchNews.r_id := None; FetchNews.r_title := Some t;
     FetchNews.r_summary := None; FetchNews.r_content := None;
     FetchNews.r_source_url := None; FetchNews.r_url := Js.Value url;
     FetchNews.r_published_at := None; FetchNews.r_publishedAt := None |}.

(** The samples hold ASCII text only, so their case tables are never
    read. *)
Definition tables : Js.Unicode :=
  {| Js.upperOf := λ s, s; Js.lowerOf := λ s, s |}.

Definition instant : string := "2024-05-01T00:00:00.000Z".

(** A news Lambda whose secret holds [keys], whose Perplexity call
    resolves with [confidence] and [results], whose Gemini call resolves
    with five candidates and whose ChatGPT call is rejected. *)
Definition newsEnv (keys : SecretBundle) (confidence : Q)
    (results : list FetchNews.RawItem) : FetchNews.Env :=
  {| FetchNews.apiSecretArn := "arn:aws:secretsmanager:technews";
     FetchNews.getSecretValue := SecretString (Some keys);
     FetchNews.postPerplexity := λ _ _,
       Resolves (Some {| FetchNews.pd_confidence := Some confidence;
                         FetchNews.pd_results := Some results |});
     FetchNews.postGemini := λ _ _,
       Resolves (Some (Some [story "g1"; story "g2"; story "g3";
                             story "g4"; story "g5"]));
     FetchNews.postChatGpt := λ _ _, Rejects;
     FetchNews.updateSucceeds := true;
     FetchNews.nowIso := instant;
     FetchNews.nowSeconds := 1714521600;
     FetchNews.unicode := tables |}.

Definition allKeys : SecretBundle :=
  {| perplexityApiKey := Some "pk"; geminiApiKey := Some "gk";
     chatGptApiKey := Some "ck" |}.

Definition perplexityOnly : SecretBundle :=
  {| perplexityApiKey := Some "pk"; geminiApiKey := None;
     chatGptApiKey := None |}.

Definition chatGptOnly : SecretBundle :=
  {| perplexityApiKey := None; geminiApiKey := None;
     chatGptApiKey := Some "ck" |}.

Definition aiDaily : Event :=
  FromApiGateway {| apiBody := Some (JsonObject (Some "ai") (Some "daily"));
                    query := None |}.

Definition aiDailyRequest : FetchNews.AggregationRequest :=
  {| FetchNews.section := "ai"; FetchNews.timePeriod := "daily";
     FetchNews.mode := Some "api" |}.

(** A patent Lambda with only the ChatGPT key, whose ChatGPT call is
    rejected. *)
Definition patentEnv : FetchPatents.Env :=
  {| FetchPatents.secretArn := "arn:aws:secretsmanager:technews";
     FetchPatents.getSecretValue := SecretString (Some chatGptOnly);
     FetchPatents.postPerplexity := λ _ _, Rejects;
     FetchPatents.postChatGpt := λ _ _, Rejects;
     FetchPatents.updateSucceeds := true;
     FetchPatents.nowIso := instant;
     FetchPatents.nowSeconds := 1714521600;
     FetchPatents.unicode := tables |}.

Definition patent (i : string) (score : Z) : Patent.PatentSummary :=
  {| Patent.id := i; Patent.title := "Patent " +:+ i;
     Patent.abstractText := "Abstract of " +:+ i;
     Patent.filingDate := Js.Absent; Patent.inventors := Some [];
     Patent.impactScore := score; Patent.sourceUrl := Js.Absent |}.

Definition aiMonthly : FetchPatents.PatentRequest :=
  {| FetchPatents.section := "ai"; FetchPatents.timePeriod := "monthly";
     FetchPatents.mode := Some "refresh" |}.

(** A refresh Lambda that is fully configured, whose scan of the sessions
    table answers with the connections [page] and the key [lastKey]. *)
Definition scanning (page : list string) (lastKey : option string)
  : DailyRefresh.Env :=
  {| DailyRefresh.stateMachineArn := "arn:aws:states:refresh";
     DailyRefresh.websocketEndpoint := "https://ws.example/prod";
     DailyRefresh.websocketTableName := "WebSocketSessions";
     DailyRefresh.startSucceeds := true;
     DailyRefresh.scan := DailyRefresh.ScanItems (Some (Some <$> page)) lastKey;
     DailyRefresh.postToConnection := λ _, true;
     DailyRefresh.nowIso := instant |}.

(** The scan returns the two connections of the table in one page. *)
Definition refreshEnv : DailyRefresh.Env := scanning ["c1"; "c2"] None.

(** The scan stops after the connections c1 and c2, as DynamoDB does once
    it has read 1 MB of the table, and hands back the key to resume
    from. *)
Definition firstPageEnv : DailyRefresh.Env :=
  scanning ["c1"; "c2"] (Some "c2").

(** The record [handleConnect] writes for a connection. *)
Definition session (s : string) : WebsocketManager.Session :=
  {| WebsocketManager.sessionId := Some s;
     WebsocketManager.ttl := Some (1714521600 + 60 * 60 * 24)%Z;
     WebsocketManager.connectedAt := Some instant;
     WebsocketManager.lastSeen := None |}.

(** A sessions table with the connections on that first page and one
    beyond it; the three stand for the many connections of a table that
    one scan does not cover. *)
Definition sessionsTable : gmap string WebsocketManager.Session :=
  <["c1" := session "s1"]>
    (<["c2" := session "s2"]> (<["c3" := session "s3"]> ∅)).

Definition quiet : DailyRefresh.Wire :=
  {| DailyRefresh.executions := []; DailyRefresh.pushes := [] |}.

End Sample.

(** ** Vocabulary of the further properties *)

(** A provider answers a query when it has a credential and the call made
    with it resolves, with items or without. *)
Definition answers {D} (key : option string) (post : string → Axios D) : bool :=
  match key with
  | Some k =>
      Js.nonEmpty k
      && match post k with Resolves _ => true | Rejects => false end
  | None => false
  end.

(** The provider calls a news cascade is expected to make for a query:
    each provider with a credential, as long as no provider before it has
    answered. *)
Definition newsCalls (env : FetchNews.Env) (q : string)
    (secrets : SecretBundle) : list Call :=
  let p := answers (perplexityApiKey secrets) (FetchNews.postPerplexity env q) in
  let g := answers (geminiApiKey secrets) (FetchNews.postGemini env q) in
  (if Js.truthy (perplexityApiKey secrets) then [Post "perplexity" q] else [])
  ++ (if Js.truthy (geminiApiKey secrets) && negb p
      then [Post "gemini" q] else [])
  ++ (if Js.truthy (chatGptApiKey secrets) && negb p && negb g
      then [Post "chatgpt" q] else []).

(** The provider a news cascade is expected to keep: the first that
    answers. *)
Definition newsSelected (env : FetchNews.Env) (q : string)
    (secrets : SecretBundle) : option string :=
  if answers (perplexityApiKey secrets) (FetchNews.postPerplexity env q)
  then Some "perplexity"
  else if answers (geminiApiKey secrets) (FetchNews.postGemini env q)
  then Some "gemini"
  else if answers (chatGptApiKey secrets) (FetchNews.postChatGpt env q)
  then Some "chatgpt"
  else None.

(** A computation keeps a relation between the world before and the world
    after it, whether it returns or throws. *)
Definition keeps {W A} (R : W → W → Prop) (m : M W A) : Prop :=
  ∀ w, R w (m w).2.

(** Relations on worlds: the cache table is the same; the provider trace
    is the same; a world differs from another at most in the news slot of
    one key. *)
Definition sameCache (w w' : World) : Prop := contentCache w' = contentCache w.

Definition sameTrace (w w' : World) : Prop := outbound w' = outbound w.

Definition onlyNewsOf (key : string) (w w' : World) : Prop :=
  (∀ k, k ≠ key → contentCache w' !! k = contentCache w !! k)
  ∧ (contentCache w' !! key) ≫= patentsArray
    = (contentCache w !! key) ≫= patentsArray
  ∧ (contentCache w' !! key) ≫= patentImpactAverage
    = (contentCache w !! key) ≫= patentImpactAverage.

Definition onlyPatentsOf (key : string) (w w' : World) : Prop :=
  (∀ k, k ≠ key → contentCache w' !! k = contentCache w !! k)
  ∧ (contentCache w' !! key) ≫= newsArray
    = (contentCache w !! key) ≫= newsArray
  ∧ (contentCache w' !! key) ≫= verificationScore
    = (contentCache w !! key) ≫= verificationScore.

(** The number of levels of an expanded tree. *)
Fixpoint height (r : RelatedContent.RelatedItem) : nat :=
  match r with
  | RelatedContent.mkRelatedItem _ _ _ _ _ rel =>
      match rel with
      | Some children => S (foldr Nat.max 0 (List.map height children))
      | None => 1
      end
  end.

(** The connections are a page of one scan of the sessions table [t]:
    each is the key of an item of the table, which DynamoDB does not allow
    to be empty, none comes twice, and when the answer carries no key to
    resume from the page holds every item of the table. *)
Definition pageOf (t : gmap string WebsocketManager.Session)
    (ids : list string) (lastKey : option string) : Prop :=
  NoDup ids
  ∧ (∀ c, c ∈ ids → is_Some (t !! c) ∧ Js.nonEmpty c = true)
  ∧ (lastKey = None → ∀ c, is_Some (t !! c) → c ∈ ids).

(** Cache and provider trace are both untouched. *)
Definition calm (w w' : World) : Prop := sameCache w w' ∧ sameTrace w w'.

(** What the canonicaliser keeps of a raw item: a provider id, and the
    first present of title and summary, of summary and content, of the two
    source links and of the two publication times. *)
Definition canonOf (request : FetchNews.AggregationRequest)
    (generatedAt : string) (raw : FetchNews.RawItem)
    (out : Ai.AiContentItem) : Prop :=
  (∀ i, FetchNews.r_id raw = Some i → Ai.id out = i)
  ∧ Ai.title out
    = default ("Update for " +:+ FetchNews.section request)
        (Js.orElse (FetchNews.r_title raw) (FetchNews.r_summary raw))
  ∧ Ai.summary out
    = default ("Automated insight regarding " +:+ FetchNews.section request
               +:+ " developments for " +:+ FetchNews.timePeriod request
               +:+ ".")
        (Js.orElse (FetchNews.r_summary raw) (FetchNews.r_content raw))
  ∧ Ai.sourceUrl out
    = Js.coalesce (FetchNews.r_source_url raw) (FetchNews.r_url raw)
  ∧ Ai.publishedAt out
    = Some (default generatedAt
              (Js.orElse (FetchNews.r_published_at raw)
                         (FetchNews.r_publishedAt raw))).

(** The raw results the patent pipeline gets from Perplexity: none
    without a credential, none when the call is rejected. *)
Definition perplexityPatents (env : FetchPatents.Env) (q : string)
    (secrets : SecretBundle) : list FetchPatents.RawPatent :=
  match perplexityApiKey secrets with
  | Some k =>
      if Js.nonEmpty k then
        match FetchPatents.postPerplexity env q k with
        | Resolves data => default [] data
        | Rejects => []
        end
      else []
  | None => []
  end.

(** What the patent mapper keeps of a raw Perplexity result. *)
Definition patentOf (request : FetchPatents.PatentRequest)
    (raw : FetchPatents.RawPatent) (p : Patent.PatentSummary) : Prop :=
  (∀ i, FetchPatents.p_id raw = Some i → Patent.id p = i)
  ∧ Patent.title p
    = default ("Patent insight for " +:+ FetchPatents.section request)
              (FetchPatents.p_title raw)
  ∧ Patent.abstractText p
    = default ("Placeholder summary for a " +:+ FetchPatents.section request
               +:+ " patent during " +:+ FetchPatents.timePeriod request
               +:+ ".")
        (Js.orElse (FetchPatents.p_summary raw) (FetchPatents.p_abstract raw))
  ∧ Patent.filingDate p
    = Js.coalesce (FetchPatents.p_published_at raw)
                  (FetchPatents.p_filingDate raw)
  ∧ Patent.inventors p = Some (default [] (FetchPatents.p_inventors raw))
  ∧ Patent.impactScore p
    = Js.Math_round
        (Js.times (default 0.6%Q (FetchPatents.p_confidence raw)) 100)
  ∧ Patent.sourceUrl p
    = Js.coalesce (FetchPatents.p_source_url raw) (FetchPatents.p_url raw).

(** The lines of a ChatGPT answer that become patents: the first five
    non-empty ones. *)
Definition patentLines (text : string) : list string :=
  take 5 (List.filter Js.nonEmpty (Js.split "010" text)).


(** The levels a deep dive of a given depth may have: one for [NaN] and
    for every depth below one. *)
Definition levels (depth : Js.Num) : nat :=
  match depth with
  | Js.NaN => 1
  | Js.Int z => Z.to_nat (Z.max 1 z)
  end.




(** The title of a stored item mentions the requested id, whatever the
    case of the letters. *)
Definition mentions (u : Js.Unicode) (itemId : string)
    (it : RelatedContent.JsItem) : bool :=
  match RelatedContent.j_title it with
  | Some t => Js.includes (Js.toLowerCase u t) (Js.toLowerCase u itemId)
  | None => false
  end.

(** What a search provider offers for a query: nothing without a
    credential or when the call is rejected, otherwise the result built
    from the data it resolves with. *)
Definition offer {D} (key : option string) (post : string → Axios D)
    (build : option D → Search.ProviderResult)
  : option Search.ProviderResult :=
  match key with
  | Some k =>
      if Js.nonEmpty k then
        match post k with
        | Resolves data => Some (build data)
        | Rejects => None
        end
      else None
  | None => None
  end.

(** The offers of the three search providers, in the order of the
    handler, those that offer nothing left out. *)
Definition searchOffers (env : Search.Env) (q : string)
    (secrets : SecretBundle) : list Search.ProviderResult :=
  omap (λ r : option Search.ProviderResult, r)
    [ offer (perplexityApiKey secrets) (Search.postPerplexity env q)
        (λ data, {| Search.p_provider := "perplexity";
                    Search.p_confidence :=
                      default 0.7%Q (data ≫= Search.pd_confidence);
                    Search.p_items := default [] (data ≫= Search.pd_results) |});
      offer (geminiApiKey secrets) (Search.postGemini env q)
        (λ data, {| Search.p_provider := "gemini";
                    Search.p_confidence := 0.6%Q;
                    Search.p_items := default [] (mjoin data) |});
      offer (chatGptApiKey secrets) (Search.postChatGpt env q)
        (λ data, {| Search.p_provider := "chatgpt";
                    Search.p_confidence := 0.55%Q;
                    Search.p_items := default [] (mjoin data) |}) ].

(** The provider calls of one search: every provider with a credential,
    in the order of the handler. *)
Definition searchCalls (q : string) (secrets : SecretBundle) : list Call :=
  (if Js.truthy (perplexityApiKey secrets) then [Post "perplexity" q] else [])
  ++ (if Js.truthy (geminiApiKey secrets) then [Post "gemini" q] else [])
  ++ (if Js.truthy (chatGptApiKey secrets) then [Post "chatgpt" q] else []).

(** A provider result with at least one hit. *)
Definition hasHits (p : Search.ProviderResult) : bool :=
  match Search.p_items p with [] => false | _ => true end.

(** The search process keeps its memoised secrets and its call trace. *)
Definition quietly (p p' : Search.Process) : Prop :=
  Search.memo p' = Search.memo p ∧ Search.trace p' = Search.trace p.

(** A list of scores in which no score is followed by a larger one. *)
Fixpoint descending (scores : list Q) : Prop :=
  match scores with
  | [] => True
  | x :: rest => Forall (λ y, (y <= x)%Q) rest ∧ descending rest
  end.

(** The two reasons a recommendation can carry. *)
Definition discover (u : Js.Unicode) (section : string) : string :=
  "Discover curated " +:+ Js.toUpperCase u section
  +:+ " highlights tailored for emerging trends.".

Definition explored (u : Js.Unicode) (section : string) : string :=
  "You recently explored " +:+ Js.toUpperCase u section
  +:+ " stories, so we surfaced more insights.".

(** What an access history says about a section: the items that name the
    section in their path, whatever the case of the letters, and the items
    that come from a research network. *)
Definition namedIn (u : Js.Unicode) (section : string)
    (item : Recommendations.AccessItem) : bool :=
  Js.includes (Js.toLowerCase u (default "" (Recommendations.path item)))
              section.

Definition fromResearch (u : Js.Unicode) (item : Recommendations.AccessItem)
  : bool :=
  match Recommendations.geo item with
  | Some g => Js.includes (Js.toLowerCase u g) "research"
  | None => false
  end.

(** What one item adds to the interest in a section. *)
Definition adds (u : Js.Unicode) (item : Recommendations.AccessItem)
    (section : string) : Q :=
  ((if namedIn u section item then 2 else 0)
   + (if String.eqb section "quantum" && fromResearch u item
      then 3 # 2 else 0))%Q.

(** The interest a history shows in a section: two for every item that
    names it and, for quantum, one and a half more for every item from a
    research network. *)
Definition interestIn (u : Js.Unicode)
    (history : list Recommendations.AccessItem) (section : string) : Q :=
  (2 * inject_Z (Z.of_nat (length (List.filter (namedIn u section) history)))
   + (if String.eqb section "quantum"
      then (3 # 2)
           * inject_Z (Z.of_nat (length (List.filter (fromResearch u) history)))
      else 0))%Q.

(** ** Further surroundings for the worked examples *)

Module Fixture.

(** The news Lambda of [Sample.newsEnv] with a cache write that fails. *)
Definition newsDown (keys : SecretBundle) (confidence : Q)
    (results : list FetchNews.RawItem) : FetchNews.Env :=
  {| FetchNews.apiSecretArn := "arn:aws:secretsmanager:technews";
     FetchNews.getSecretValue := SecretString (Some keys);
     FetchNews.postPerplexity := λ _ _,
       Resolves (Some {| FetchNews.pd_confidence := Some confidence;
                         FetchNews.pd_results := Some results |});
     FetchNews.postGemini := λ _ _, Rejects;
     FetchNews.postChatGpt := λ _ _, Rejects;
     FetchNews.updateSucceeds := false;
     FetchNews.nowIso := Sample.instant;
     FetchNews.nowSeconds := 1714521600;
     FetchNews.unicode := Sample.tables |}.

(** A patent Lambda with the given credentials, provider answers and
    outcome of the cache write. *)
Definition patentsEnv (keys : SecretBundle)
    (perplexity : Axios (list FetchPatents.RawPatent)) (chat : Axios string)
    (writes : bool) : FetchPatents.Env :=
  {| FetchPatents.secretArn := "arn:aws:secretsmanager:technews";
     FetchPatents.getSecretValue := SecretString (Some keys);
     FetchPatents.postPerplexity := λ _ _, perplexity;
     FetchPatents.postChatGpt := λ _ _, chat;
     FetchPatents.updateSucceeds := writes;
     FetchPatents.nowIso := Sample.instant;
     FetchPatents.nowSeconds := 1714521600;
     FetchPatents.unicode := Sample.tables |}.

Definition rawPatent (i t : string) : FetchPatents.RawPatent :=
  {| FetchPatents.p_id := Some i; FetchPatents.p_title := Some t;
     FetchPatents.p_summary := None; FetchPatents.p_abstract := None;
     FetchPatents.p_published_at := None;
     FetchPatents.p_filingDate := Js.Absent;
     FetchPatents.p_inventors := None; FetchPatents.p_confidence := None;
     FetchPatents.p_source_url := None; FetchPatents.p_url := Js.Absent |}.

(** The same result with a confidence. *)
Definition ratedPatent (i t : string) (c : Q) : FetchPatents.RawPatent :=
  {| FetchPatents.p_id := Some i; FetchPatents.p_title := Some t;
     FetchPatents.p_summary := None; FetchPatents.p_abstract := None;
     FetchPatents.p_published_at := None;
     FetchPatents.p_filingDate := Js.Absent;
     FetchPatents.p_inventors := None; FetchPatents.p_confidence := Some c;
     FetchPatents.p_source_url := None; FetchPatents.p_url := Js.Absent |}.

Definition refreshOfPatents : Event := FromStateMachine (Some "ai") None None.

(** A deep-dive Lambda over a record with the given stored items. *)
Definition relatedEnv (stored : list RelatedContent.JsItem)
  : RelatedContent.Env :=
  {| RelatedContent.tableName := "ContentCache";
     RelatedContent.getItem := λ _,
       RelatedContent.GetItem (Some (Some stored));
     RelatedContent.nowIso := Sample.instant;
     RelatedContent.unicode := Sample.tables |}.

Definition storedItem (i t : string) : RelatedContent.JsItem :=
  RelatedContent.mkJsItem (Some i) (Some t) None None None None None None None.


Definition deepDive (i : string) : RelatedContent.RelatedContentRequest :=
  {| RelatedContent.section := "ai"; RelatedContent.period := "daily";
     RelatedContent.itemId := i; RelatedContent.depth := None |}.

(** A connection registry with a configured table and writes that go
    through. *)
Definition socketsEnv : WebsocketManager.Env :=
  {| WebsocketManager.tableName := "WebSocketSessions";
     WebsocketManager.writeSucceeds := true;
     WebsocketManager.nowIso := Sample.instant;
     WebsocketManager.nowSeconds := 1714521600 |}.

Definition registry : WebsocketManager.Registry :=
  {| WebsocketManager.seed := λ n, "session-" +:+ pretty n;
     WebsocketManager.drawn := 0;
     WebsocketManager.sessions := ∅ |}.

(** The same process with three connections registered. *)
Definition crowded : WebsocketManager.Registry :=
  {| WebsocketManager.seed := λ n, "session-" +:+ pretty n;
     WebsocketManager.drawn := 3;
     WebsocketManager.sessions := Sample.sessionsTable |}.

Definition socketEvent (type c : string) : WebsocketManager.SocketEvent :=
  {| WebsocketManager.eventType := Some type;
     WebsocketManager.connectionId := Some c;
     WebsocketManager.querySessionId := None;
     WebsocketManager.frame := None |}.

Definition listed (cs : list string) : DailyRefresh.RefreshEventDetail :=
  {| DailyRefresh.sections := None; DailyRefresh.timePeriods := None;
     DailyRefresh.connections := Some cs |}.

(** A search Lambda with all three credentials whose Perplexity call
    resolves without hits, whose Gemini call resolves with the given hits
    and whose ChatGPT call is rejected. *)
Definition searchEnv (hits : list Search.RawHit) : Search.Env :=
  {| Search.apiSecretArn := "arn:aws:secretsmanager:technews";
     Search.getSecretValue := SecretString (Some Sample.allKeys);
     Search.postPerplexity := λ _ _,
       Resolves (Some {| Search.pd_confidence := Some 0.9%Q;
                         Search.pd_results := Some [] |});
     Search.postGemini := λ _ _, Resolves (Some (Some hits));
     Search.postChatGpt := λ _ _, Rejects;
     Search.nowIso := Sample.instant |}.

Definition hit (t : string) : Search.RawHit :=
  {| Search.h_id := None; Search.h_title := Some t; Search.h_summary := None;
     Search.h_text := None; Search.h_content := None;
     Search.h_source := Search.NoSource; Search.h_url := None |}.

Definition process : Search.Process :=
  {| Search.seed := λ n, "hit-" +:+ pretty n; Search.drawn := 0;
     Search.memo := None; Search.trace := [] |}.

(** A recommendation Lambda without an access-log table. *)
Definition recommendEnv : Recommendations.Env :=
  {| Recommendations.tableName := "";
     Recommendations.queryLogs := λ _, Recommendations.QueryFails;
     Recommendations.nowIso := Sample.instant;
     Recommendations.unicode := Sample.tables |}.

(** A sign-in Lambda whose Google calls resolve for one user. *)
Definition authEnv : AuthCallback.Env :=
  {| AuthCallback.secretArn := "arn:aws:secretsmanager:technews";
     AuthCallback.getSecretValue :=
       AuthCallback.SecretString
         (Some {| AuthCallback.googleClientId := Some "client";
                  AuthCallback.googleClientSecret := Some "secret" |});
     AuthCallback.postToken := λ _ _ _ _,
       Resolves (Some {| AuthCallback.access_token := Some "token" |});
     AuthCallback.getProfile := λ _,
       Resolves (Some {| AuthCallback.firstEmail := Some "ada@example.com";
                         AuthCallback.firstName := Some "Ada L." |});
     AuthCallback.userProfilesTableName := "UserProfiles";
     AuthCallback.putSucceeds := true;
     AuthCallback.nowIso := Sample.instant;
     AuthCallback.encode := λ email name, email +:+ "|" +:+ default "" name |}.

Definition visitor : AuthCallback.Auth :=
  {| AuthCallback.memo := None; AuthCallback.profiles := ∅;
     AuthCallback.calls := [] |}.

Definition signIn : AuthCallback.AuthPayload :=
  {| AuthCallback.authorizationCode := Some "code";
     AuthCallback.redirectUri := None; AuthCallback.sessionId := None;
     AuthCallback.preferredName := None |}.

End Fixture.

(** * Properties *)

(** ** The handler monad *)

Lemma bind_ok {W A B} (m : M W A) (k : A → M W B) w a w' :
  m w = (Ok a, w') → bind m k w = k a w'.
Proof. intros H. unfold bind. by rewrite H. Qed.

Lemma bind_throw {W A B} (m : M W A) (k : A → M W B) w e w' :
  m w = (Throw e, w') → bind m k w = (Throw e, w').
Proof. intros H. unfold bind. by rewrite H. Qed.

Lemma bind_ret {W A B} (a : A) (k : A → M W B) w : bind (ret a) k w = k a w.
Proof. reflexivity. Qed.

Lemma bind_modify {W B} (f : W → W) (k : unit → M W B) w :
  bind (modify f) k w = k tt (f w).
Proof. reflexivity. Qed.

(** A loop body that always returns makes [mapM] return, one result per
    element, each with the property the body guarantees. *)
Lemma mapM_total {W A B} (f : A → M W B) (P : B → Prop) :
  (∀ x w, ∃ y w', f x w = (Ok y, w') ∧ P y) →
  ∀ xs w, ∃ ys w',
    mapM f xs w = (Ok ys, w') ∧ length ys = length xs ∧ Forall P ys.
Proof.
  intros Hf xs. induction xs as [|x xs IH]; intros w.
  - exists [], w. by repeat split.
  - destruct (Hf x w) as (y & w1 & Hy & HP).
    destruct (IH w1) as (ys & w2 & Hys & Hlen & HPs).
    exists (y :: ys), w2. repeat split.
    + cbn [mapM]. rewrite (bind_ok _ _ _ _ _ Hy).
      by rewrite (bind_ok _ _ _ _ _ Hys).
    + cbn. by rewrite Hlen.
    + by constructor.
Qed.

(** ** Rounding and means *)

(** [Math.round] is within one half of its argument, a tie going up. *)
Lemma Math_round_nearest (x : Q) :
  (x - (1 # 2) < inject_Z (Js.Math_round x))%Q
  ∧ (inject_Z (Js.Math_round x) <= x + (1 # 2))%Q.
Proof.
  unfold Js.Math_round.
  pose proof (Qfloor_le (x + (1 # 2))) as Hle.
  pose proof (Qlt_floor (x + (1 # 2))) as Hlt.
  rewrite inject_Z_plus in Hlt. change (inject_Z 1) with 1%Q in Hlt.
  split; lra.
Qed.

(** ** binary64 arithmetic *)

Section Numbers.
Import Js.
Local Open Scope Q_scope.








Lemma b64_zero : b64 0 == 0.
Proof. reflexivity. Qed.



End Numbers.

(** A [reduce] that adds [f item] to the accumulator computes the sum. *)
Lemma foldl_sum {A} (f : A → Z) (l : list A) (a : Z) :
  foldl (λ acc x, acc + f x)%Z a l = (a + foldr Z.add 0 (f <$> l))%Z.
Proof.
  revert a. induction l as [|x l IH]; intros a; cbn.
  - lia.
  - rewrite IH. lia.
Qed.

(** The mean of a non-empty list whose elements all equal [s] is [s]. *)
Lemma mean_constant (xs : list Z) (s : Z) :
  xs ≠ [] → Forall (λ x, x = s) xs → (mean xs == inject_Z s)%Q.
Proof.
  intros Hne Hall. unfold mean.
  assert (foldr Z.add 0%Z xs = (s * Z.of_nat (length xs))%Z) as ->.
  { clear Hne. induction Hall as [|x xs -> _ IH]; [cbn; lia|].
    cbn [foldr length]. rewrite IH. lia. }
  rewrite inject_Z_mult. apply Qdiv_mult_l.
  destruct xs; [done|]. cbn [length].
  intros H. unfold Qeq in H. cbn in H. lia.
Qed.

(** ** fetchNews *)

Section News.
Import Js FetchNews.
Variable env : Env.

Lemma canonical_returns request g aiResult item w :
  ∃ y w', canonical request g aiResult item w = (Ok y, w')
          ∧ Ai.verificationScore y
            = Math_round (times (default 0.6%Q (confidence <$> aiResult)) 100)
          ∧ Ai.marshals y = storable item.
Proof.
  unfold canonical. destruct (r_id item) as [i|].
  - eexists _, _. split; [|split]; reflexivity.
  - eexists _, _. split; [|split]; reflexivity.
Qed.

(** The canonical forms of a list of raw items marshal exactly when the
    raw items are storable; all of them carry the score of the result. *)
Lemma canonical_list request g aiResult raws w :
  ∃ ys w',
    mapM (canonical request g aiResult) raws w = (Ok ys, w')
    ∧ length ys = length raws
    ∧ Forall (λ it, Ai.verificationScore it
                    = Math_round
                        (times (default 0.6%Q (confidence <$> aiResult)) 100))
             ys
    ∧ forallb Ai.marshals ys = forallb storable raws.
Proof.
  revert w. induction raws as [|raw raws IH]; intros w.
  - by exists [], w.
  - destruct (canonical_returns request g aiResult raw w)
      as (y & w1 & Hy & Hscore & Hm).
    destruct (IH w1) as (ys & w2 & Hys & Hlen & Hall & Hms).
    exists (y :: ys), w2. cbn [mapM].
    rewrite (bind_ok _ _ _ _ _ Hy), (bind_ok _ _ _ _ _ Hys).
    split; [done|]. split; [cbn; by rewrite Hlen|].
    split; [by constructor|]. cbn. by rewrite Hm, Hms.
Qed.

Lemma placeholders_return s t w :
  ∃ ys w', buildPlaceholderItems env s t w = (Ok ys, w')
           ∧ length ys = 3
           ∧ Forall (λ it, Ai.verificationScore it = 50%Z) ys.
Proof.
  unfold buildPlaceholderItems.
  destruct (mapM_total (placeholderItem env s t)
              (λ it, Ai.verificationScore it = 50%Z))
    with (xs := seq 0 3) (w := w) as (ys & w' & H & Hl & HP).
  { intros x w0. eexists _, _. split; reflexivity. }
  exists ys, w'. by repeat split.
Qed.

(** The placeholders have no [sourceUrl] key, so they marshal. *)
Lemma placeholders_marshal s t w ys w' :
  buildPlaceholderItems env s t w = (Ok ys, w') →
  forallb Ai.marshals ys = true.
Proof.
  unfold buildPlaceholderItems.
  destruct (mapM_total (placeholderItem env s t)
              (λ it, Ai.marshals it = true))
    with (xs := seq 0 3) (w := w) as (ys' & w'' & H & _ & HP).
  { intros x w0. eexists _, _. split; reflexivity. }
  rewrite H. intros [= <- _]. clear H.
  induction HP as [|y ys0 Hy _ IH]; [done|]. cbn. by rewrite Hy, IH.
Qed.

(** Each guarded attempt of the cascade returns, with a result or with
    [null]; a rejection never leaves the [try]. *)
Lemma attempt_perplexity q key w :
  ∃ r w', tryCatch (callPerplexity env q key) (λ _, ret None) w = (Ok r, w').
Proof.
  unfold tryCatch, callPerplexity. destruct key as [k|]; [|by eexists _, _].
  destruct (nonEmpty k); [|by eexists _, _].
  rewrite bind_modify. destruct (postPerplexity env q k); by eexists _, _.
Qed.

Lemma attempt_gemini q key w :
  ∃ r w', tryCatch (callGemini env q key) (λ _, ret None) w = (Ok r, w').
Proof.
  unfold tryCatch, callGemini. destruct key as [k|]; [|by eexists _, _].
  destruct (nonEmpty k); [|by eexists _, _].
  rewrite bind_modify. destruct (postGemini env q k); by eexists _, _.
Qed.

Lemma attempt_chatGpt q key w :
  ∃ r w', tryCatch (callChatGpt env q key) (λ _, ret None) w = (Ok r, w').
Proof.
  unfold tryCatch, callChatGpt. destruct key as [k|]; [|by eexists _, _].
  destruct (nonEmpty k); [|by eexists _, _].
  rewrite bind_modify. destruct (postChatGpt env q k); by eexists _, _.
Qed.

(** The cascade itself always returns. *)
Lemma cascade_returns q secrets w :
  ∃ r w', cascade env q secrets w = (Ok r, w').
Proof.
  unfold cascade.
  destruct (attempt_perplexity q (perplexityApiKey secrets) w)
    as (r1 & w1 & H1).
  rewrite (bind_ok _ _ _ _ _ H1). destruct r1 as [r1|].
  { rewrite bind_ret. by eexists _, _. }
  destruct (attempt_gemini q (geminiApiKey secrets) w1) as (r2 & w2 & H2).
  rewrite (bind_ok _ _ _ _ _ H2). destruct r2 as [r2|].
  { by eexists _, _. }
  apply attempt_chatGpt.
Qed.

(** A provider that answers is kept whatever the providers after it would
    have answered: they are not called. *)
Lemma cascade_keeps_first_answer q secrets w r w' :
  callPerplexity env q (perplexityApiKey secrets) w = (Ok (Some r), w') →
  cascade env q secrets w = (Ok (Some r), w').
Proof.
  intros H.
  assert (tryCatch (callPerplexity env q (perplexityApiKey secrets))
                   (λ _, ret None) w = (Ok (Some r), w')) as H1
    by (unfold tryCatch; by rewrite H).
  unfold cascade. rewrite (bind_ok _ _ _ _ _ H1). by rewrite bind_ret.
Qed.

Lemma unavailable_perplexity q key w :
  unavailable key (postPerplexity env q) →
  ∃ w', tryCatch (callPerplexity env q key) (λ _, ret None) w = (Ok None, w').
Proof.
  unfold tryCatch, callPerplexity. intros [H|(k & -> & H)].
  - destruct key as [[|c k]|]; try discriminate H; by eexists.
  - destruct (nonEmpty k); [|by eexists].
    rewrite bind_modify, H. by eexists.
Qed.

Lemma unavailable_gemini q key w :
  unavailable key (postGemini env q) →
  ∃ w', tryCatch (callGemini env q key) (λ _, ret None) w = (Ok None, w').
Proof.
  unfold tryCatch, callGemini. intros [H|(k & -> & H)].
  - destruct key as [[|c k]|]; try discriminate H; by eexists.
  - destruct (nonEmpty k); [|by eexists].
    rewrite bind_modify, H. by eexists.
Qed.

Lemma unavailable_chatGpt q key w :
  unavailable key (postChatGpt env q) →
  ∃ w', tryCatch (callChatGpt env q key) (λ _, ret None) w = (Ok None, w').
Proof.
  unfold tryCatch, callChatGpt. intros [H|(k & -> & H)].
  - destruct key as [[|c k]|]; try discriminate H; by eexists.
  - destruct (nonEmpty k); [|by eexists].
    rewrite bind_modify, H. by eexists.
Qed.

(** When the three providers are unavailable the cascade ends with
    [null]. *)
Lemma cascade_exhausted q secrets w :
  unavailable (perplexityApiKey secrets) (postPerplexity env q) →
  unavailable (geminiApiKey secrets) (postGemini env q) →
  unavailable (chatGptApiKey secrets) (postChatGpt env q) →
  ∃ w', cascade env q secrets w = (Ok None, w').
Proof.
  intros Hp Hg Hc. unfold cascade.
  destruct (unavailable_perplexity q _ w Hp) as (w1 & H1).
  rewrite (bind_ok _ _ _ _ _ H1).
  destruct (unavailable_gemini q _ w1 Hg) as (w2 & H2).
  rewrite (bind_ok _ _ _ _ _ H2).
  by apply unavailable_chatGpt.
Qed.

(** What [aggregateContent] does once the secrets are there and the
    cascade has ended with [aiResult], provided the cache write goes
    through: the document client marshals the items and the table accepts
    the update. *)
Lemma aggregateContent_returns request w w1 w2 secrets aiResult :
  resolveSecrets env w = (Ok secrets, w1) →
  cascade env (newsQuery request) secrets w1 = (Ok aiResult, w2) →
  storableResult aiResult = true →
  updateSucceeds env = true →
  ∃ resp w' rec,
    aggregateContent env request w = (Ok resp, w')
    ∧ verificationSummary resp = summaryOf aiResult
    ∧ contentCache w' !! newsKey request = Some rec
    ∧ newsArray rec = Some (res_items resp)
    ∧ verificationScore rec
      = Some (Math_round (times (default 0.5%Q (confidence <$> aiResult)) 100))
    ∧ match default [] (items <$> aiResult) with
      | [] =>
          length (res_items resp) = 3
          ∧ Forall (λ it, Ai.verificationScore it = 50%Z) (res_items resp)
      | (_ :: _) as its =>
          length (res_items resp) = min 10 (length its)
          ∧ Forall (λ it, Ai.verificationScore it
                          = Math_round
                              (times (default 0.6%Q (confidence <$> aiResult))
                                 100))
                   (res_items resp)
          ∧ ∃ w3, mapM (canonical request (nowIso env) aiResult)
                       (take 10 its) w2
                  = (Ok (res_items resp), w3)
      end.
Proof.
  intros Hsec Hcas Hsto Hupd.
  destruct (canonical_list request (nowIso env) aiResult
              (take 10 (default [] (items <$> aiResult))) w2)
    as (ys & w3 & Hmap & Hlen & Hall & Hms).
  unfold aggregateContent.
  rewrite (bind_ok _ _ _ _ _ Hsec). cbv beta zeta.
  rewrite (bind_ok _ _ _ _ _ Hcas).
  rewrite (bind_ok _ _ _ _ _ Hmap).
  destruct ys as [|y ys].
  - destruct (placeholders_return (section request) (timePeriod request) w3)
      as (ps & w4 & Hps & Hl & Hfifty).
    rewrite (bind_ok _ _ _ _ _ Hps).
    unfold writeNews.
    rewrite (placeholders_marshal _ _ _ _ _ Hps), Hupd. cbn [andb].
    rewrite bind_modify.
    eexists _, _, _. split; [reflexivity|].
    cbn [res_items verificationSummary contentCache setCache].
    split; [done|].
    split; [unfold setNews, newsKey; by rewrite lookup_insert_eq|].
    split; [done|]. split; [done|].
    destruct (default [] (items <$> aiResult)); [done | discriminate].
  - rewrite bind_ret. unfold writeNews.
    rewrite Hms. unfold storableResult in Hsto.
    rewrite Hsto, Hupd. cbn [andb]. rewrite bind_modify.
    eexists _, _, _. split; [reflexivity|].
    cbn [res_items verificationSummary contentCache setCache].
    split; [done|].
    split; [unfold setNews, newsKey; by rewrite lookup_insert_eq|].
    split; [done|]. split; [done|].
    destruct (default [] (items <$> aiResult)) as [|i its] eqn:Hits;
      [discriminate|].
    split; [rewrite Hlen; by rewrite length_take|].
    split; [done|]. by exists w3.
Qed.

(** Whatever the three providers do, a news aggregation whose secrets
    resolve and whose cache write goes through (the result the cascade ends
    with is storable and the table accepts the update) returns a response
    with at least one item. *)
Theorem news_provider_failures_are_absorbed request w secrets w1 :
  resolveSecrets env w = (Ok secrets, w1) →
  (∀ aiResult w2,
     cascade env (newsQuery request) secrets w1 = (Ok aiResult, w2) →
     storableResult aiResult = true) →
  updateSucceeds env = true →
  ∃ resp w', aggregateContent env request w = (Ok resp, w')
             ∧ res_items resp ≠ [].
Proof.
  intros Hsec Hsto Hupd.
  destruct (cascade_returns (newsQuery request) secrets w1)
    as (aiResult & w2 & Hcas).
  destruct (aggregateContent_returns _ _ _ _ _ _ Hsec Hcas
              (Hsto _ _ Hcas) Hupd)
    as (resp & w' & rec & Hrun & _ & _ & _ & _ & Hitems).
  exists resp, w'. split; [done|].
  destruct (default [] (items <$> aiResult)); destruct Hitems as [Hlen _];
    destruct (res_items resp); cbn in Hlen; done.
Qed.

(** With every provider unavailable the response carries the three
    placeholders, scored 50, and says that providers were unavailable. *)
Theorem news_exhaustion_yields_placeholders request w secrets w1 :
  resolveSecrets env w = (Ok secrets, w1) →
  unavailable (perplexityApiKey secrets)
              (postPerplexity env (newsQuery request)) →
  unavailable (geminiApiKey secrets) (postGemini env (newsQuery request)) →
  unavailable (chatGptApiKey secrets) (postChatGpt env (newsQuery request)) →
  updateSucceeds env = true →
  ∃ resp w',
    aggregateContent env request w = (Ok resp, w')
    ∧ length (res_items resp) = 3
    ∧ Forall (λ it, Ai.verificationScore it = 50%Z) (res_items resp)
    ∧ verificationSummary resp
      = "Placeholder content generated because AI providers were unavailable.".
Proof.
  intros Hsec Hp Hg Hc Hupd.
  destruct (cascade_exhausted (newsQuery request) secrets w1 Hp Hg Hc)
    as (w2 & Hcas).
  destruct (aggregateContent_returns _ _ _ _ _ _ Hsec Hcas eq_refl Hupd)
    as (resp & w' & rec & Hrun & Hsum & _ & _ & _ & Hlen & Hall).
  by exists resp, w'.
Qed.

(** Seen from the caller: an API Gateway request with a well-formed body
    is answered 200 whatever the three providers do, as long as the secrets
    resolve and the cache write goes through: what the cascade ends with is
    storable and the table accepts the update. *)
Theorem news_handler_answers_200 e w secrets w1 :
  wellFormed (FromApiGateway e) →
  resolveSecrets env w = (Ok secrets, w1) →
  (∀ request aiResult w2,
     cascade env (newsQuery request) secrets w1 = (Ok aiResult, w2) →
     storableResult aiResult = true) →
  updateSucceeds env = true →
  ∃ resp w',
    handler env (FromApiGateway e) w
    = (Ok (inl {| statusCode := 200; body := Payload resp |}), w')
    ∧ res_items resp ≠ [].
Proof.
  intros Hwf Hsec Hsto Hupd.
  assert (∃ request, parseRequest (FromApiGateway e) w = (Ok request, w))
    as (request & Hparse).
  { destruct e as [[[raw| |s t]|] q]; try (by destruct Hwf);
      by eexists. }
  destruct (news_provider_failures_are_absorbed request w secrets w1 Hsec
              (Hsto request) Hupd)
    as (resp & w' & Hrun & Hne).
  exists resp, w'. split; [|done].
  assert (handleApiGateway env (FromApiGateway e) w
          = (Ok {| statusCode := 200; body := Payload resp |}, w')) as Hapi.
  { unfold handleApiGateway, tryCatch.
    rewrite (bind_ok _ _ _ _ _ Hparse). by rewrite (bind_ok _ _ _ _ _ Hrun). }
  unfold handler. by rewrite (bind_ok _ _ _ _ _ Hapi).
Qed.

End News.

(** ** C1: the cascade stops at an empty success *)

(** C1 (code fails the claim).  Perplexity is configured and answers with
    confidence 0.9 and no results; Gemini is configured and would answer
    with five candidates.  The claim wants Gemini to be tried and chosen;
    [cascade] keeps Perplexity's empty result and never calls Gemini. *)
Theorem C1_empty_success_ends_cascade :
  let env := Sample.newsEnv Sample.allKeys 0.9%Q [] in
  let q := FetchNews.newsQuery Sample.aiDailyRequest in
  let out := FetchNews.cascade env q Sample.allKeys Sample.world in
  out.1 = Ok (Some {| FetchNews.provider := "perplexity";
                      FetchNews.confidence := 0.9%Q;
                      FetchNews.items := [] |})
  ∧ outbound out.2 = [Post "perplexity" q]
  ∧ ∃ r, (FetchNews.callGemini env q (Some "gk") Sample.world).1 = Ok (Some r)
         ∧ length (FetchNews.items r) = 5.
Proof.
  cbv zeta. split; [reflexivity|]. split; [reflexivity|].
  eexists. split; reflexivity.
Qed.

(** ** C2: what the response says after an empty success *)

(** C2 (code fails the claim).  Only Perplexity is configured and it
    answers with no results, so every provider is unavailable or empty.
    The request succeeds with three placeholder items of score 50, but the
    summary reports verified content instead of unavailable providers. *)
Theorem C2_empty_success_reported_as_verified :
  let env := Sample.newsEnv Sample.perplexityOnly 0.9%Q [] in
  ∃ resp w',
    FetchNews.handler env Sample.aiDaily Sample.world
      = (Ok (inl {| statusCode := 200; body := Payload resp |}), w')
    ∧ length (FetchNews.res_items resp) = 3
    ∧ Forall (λ it, Ai.verificationScore it = 50%Z) (FetchNews.res_items resp)
    ∧ FetchNews.verificationSummary resp
        = "Content verified via perplexity with confidence 90%."
    ∧ FetchNews.verificationSummary resp
        ≠ "Placeholder content generated because AI providers were unavailable.".
Proof.
  cbv zeta. eexists _, _. split; [vm_compute; reflexivity|].
  split; [reflexivity|]. split; [by repeat constructor|].
  split; [reflexivity|]. discriminate.
Qed.

(** ** C3: one score for the whole generation *)



(** ** C6: an unparseable body *)

(** C6 (code fails the claim).  For every API Gateway event whose body
    [JSON.parse] rejects, the news handler answers 500 with the generic
    message; no default is substituted and nothing is aggregated. *)
Theorem C6_unparseable_body_is_rejected (env : FetchNews.Env) (raw : string)
    (q : option (option string * option string)) (w : World) :
  FetchNews.handler env
    (FromApiGateway {| apiBody := Some (Unparseable raw); query := q |}) w
  = (Ok (inl {| statusCode := 500;
                body := Message "Failed to aggregate news content" |}), w).
Proof. reflexivity. Qed.

(** ** fetchPatents *)

(** For a non-empty list the value stored as [patentImpactAverage] is the
    mean of the impact scores, rounded. *)
Lemma impactAverage_rounds_mean (ps : list Patent.PatentSummary) :
  ps ≠ [] →
  FetchPatents.impactAverage ps
  = Js.Math_round (mean (Patent.impactScore <$> ps)).
Proof.
  intros Hne. unfold FetchPatents.impactAverage, mean, FetchPatents.sumImpact.
  rewrite foldl_sum, length_fmap.
  replace (Z.max 1 (Z.of_nat (length ps))) with (Z.of_nat (length ps))
    by (destruct ps; [done | cbn [length]; lia]).
  by rewrite Z.add_0_l.
Qed.

Lemma upsertCache_writes env request ps w :
  forallb Patent.marshals ps = true →
  FetchPatents.updateSucceeds env = true →
  FetchPatents.upsertCache env request ps w
  = (Ok tt,
     setCache (FetchPatents.setPatents (patentKey request) ps
                 (FetchPatents.nowIso env)
                 (FetchPatents.nowSeconds env + 60 * 60 * 24)
                 (FetchPatents.impactAverage ps) (contentCache w)) w).
Proof. intros Hm H. unfold FetchPatents.upsertCache. by rewrite Hm, H. Qed.

Lemma writeNews_writes env request news g score w :
  forallb Ai.marshals news = true →
  FetchNews.updateSucceeds env = true →
  FetchNews.writeNews env request news g score w
  = (Ok tt,
     setCache (FetchNews.setNews (newsKey request) news g
                 (FetchNews.nowSeconds env + 60 * 60 * 24) score
                 (contentCache w)) w).
Proof. intros Hm H. unfold FetchNews.writeNews. by rewrite Hm, H. Qed.

(** A list the document client cannot marshal is refused, and the table
    stays as it was. *)
Lemma upsertCache_refuses env request ps w :
  forallb Patent.marshals ps = false →
  ∃ e, FetchPatents.upsertCache env request ps w = (Throw e, w).
Proof. intros Hm. unfold FetchPatents.upsertCache. rewrite Hm. by eexists. Qed.

Lemma writeNews_refuses env request news g score w :
  forallb Ai.marshals news = false →
  ∃ e, FetchNews.writeNews env request news g score w = (Throw e, w).
Proof. intros Hm. unfold FetchNews.writeNews. rewrite Hm. by eexists. Qed.

(** Each update overwrites its own slot and keeps the other one. *)
Lemma setPatents_lookup key ps g ttl impact t :
  FetchPatents.setPatents key ps g ttl impact t !! key
  = Some {| newsArray := (t !! key) ≫= newsArray;
            patentsArray := Some ps;
            verifiedAt := Some g;
            expiresAt := Some ttl;
            verificationScore := (t !! key) ≫= verificationScore;
            patentImpactAverage := Some impact |}.
Proof.
  unfold FetchPatents.setPatents. rewrite lookup_insert_eq.
  by destruct (t !! key).
Qed.

Lemma setNews_lookup key news g ttl score t :
  FetchNews.setNews key news g ttl score t !! key
  = Some {| newsArray := Some news;
            patentsArray := (t !! key) ≫= patentsArray;
            verifiedAt := Some g;
            expiresAt := Some ttl;
            verificationScore := Some score;
            patentImpactAverage := (t !! key) ≫= patentImpactAverage |}.
Proof.
  unfold FetchNews.setNews. rewrite lookup_insert_eq.
  by destruct (t !! key).
Qed.

(** ** C7: a failing provider in the patent pipeline *)

(** C7 (code fails the claim).  The patent Lambda has only the ChatGPT key
    and the ChatGPT call is rejected: the rejection is not caught in
    [generatePatentSummaries] and reaches the caller as the 500 answer,
    with nothing written to the cache. *)
Theorem C7_patent_provider_failure_surfaces :
  let out := FetchPatents.handler Sample.patentEnv Sample.aiDaily Sample.world in
  out.1 = Ok (inl {| statusCode := 500;
                     body := Message "Unable to aggregate patent insights" |})
  ∧ outbound out.2
      = [Post "chatgpt"
           "Summarize the most impactful patents related to ai filed within daily"]
  ∧ contentCache out.2 = ∅.
Proof. cbv zeta. repeat split; reflexivity. Qed.

(** ** C9: the defaults of a patent request *)

(** C9 (the claim fails).  A patent request that names neither section nor
    period is not normalised to ("ai", "daily"). *)
Lemma C9_default_period_is_not_daily :
  ¬ ∃ r w',
      FetchPatents.normalizeRequest (FromStateMachine None None None)
        Sample.world = (Ok r, w')
      ∧ FetchPatents.section r = "ai"
      ∧ FetchPatents.timePeriod r = "daily".
Proof. intros (r & w' & [= <- _] & _ & Hperiod). discriminate Hperiod. Qed.

(** C9 (amended).  Every patent request whose body is well formed is
    normalised, leaving the world as it was: a named section or period is
    kept, an omitted section becomes "ai" as for news, and an omitted
    period becomes "monthly" where the news request takes "daily". *)
Theorem C9_patent_defaults (event : Event) (w : World) :
  wellFormed event →
  ∃ r,
    FetchPatents.normalizeRequest event w = (Ok r, w)
    ∧ (givenSection event = None → FetchPatents.section r = "ai")
    ∧ (givenPeriod event = None → FetchPatents.timePeriod r = "monthly")
    ∧ (∀ s, givenSection event = Some s → FetchPatents.section r = s)
    ∧ (∀ p, givenPeriod event = Some p → FetchPatents.timePeriod r = p)
    ∧ ∃ n,
        FetchNews.parseRequest event w = (Ok n, w)
        ∧ (givenSection event = None → FetchNews.section n = "ai")
        ∧ (givenPeriod event = None → FetchNews.timePeriod n = "daily").
Proof.
  intros Hwf.
  assert (∃ n, FetchNews.parseRequest event w = (Ok n, w)
               ∧ FetchNews.section n = default "ai" (givenSection event)
               ∧ FetchNews.timePeriod n = default "daily" (givenPeriod event))
    as (n & Hnews & Hns & Hnp).
  { destruct event as [[[[raw| |s t]|] [[qs qt]|]]|s t m];
      try (by destruct Hwf);
      (eexists; split; [reflexivity|]; split; reflexivity). }
  assert (∃ r, FetchPatents.normalizeRequest event w = (Ok r, w)
               ∧ FetchPatents.section r = default "ai" (givenSection event)
               ∧ FetchPatents.timePeriod r
                 = default "monthly" (givenPeriod event))
    as (r & Hrun & Hs & Hp).
  { destruct event as [[[[raw| |s t]|] [[qs qt]|]]|s t m];
      try (by destruct Hwf);
      (eexists; split; [reflexivity|]; split; reflexivity). }
  exists r. split; [done|]. rewrite Hs, Hp.
  split; [by intros ->|]. split; [by intros ->|].
  split; [by intros s ->|]. split; [by intros p ->|].
  exists n. split; [done|]. rewrite Hns, Hnp.
  split; by intros ->.
Qed.

Lemma C9_patent_defaults_example :
  ∃ r,
    FetchPatents.normalizeRequest (FromStateMachine None None None)
      Sample.world = (Ok r, Sample.world)
    ∧ FetchPatents.section r = "ai"
    ∧ FetchPatents.timePeriod r = "monthly".
Proof.
  destruct (C9_patent_defaults (FromStateMachine None None None)
              Sample.world I)
    as (r & Hrun & Hs & Hp & _).
  exists r. split; [exact Hrun|]. split; [exact (Hs eq_refl)|exact (Hp eq_refl)].
Defined.

(** ** C4: replacing a slot of the cache record *)

(** C4 (the claim fails).  After [upsertCache] has written two patents
    with impact scores 60 and 55, the stored aggregate is 58, which is not
    their mean 57.5. *)
Lemma C4_stored_aggregate_is_not_the_mean :
  let ps := [Sample.patent "p1" 60; Sample.patent "p2" 55] in
  let w := (FetchPatents.upsertCache Sample.patentEnv Sample.aiMonthly ps
              Sample.world).2 in
  ¬ ∃ rec avg,
      contentCache w !! "ai#monthly" = Some rec
      ∧ patentsArray rec = Some ps
      ∧ patentImpactAverage rec = Some avg
      ∧ (inject_Z avg == mean (Patent.impactScore <$> ps))%Q.
Proof.
  cbv zeta. intros (rec & avg & Hrec & _ & Havg & Hmean).
  rewrite (upsertCache_writes Sample.patentEnv Sample.aiMonthly
             [Sample.patent "p1" 60; Sample.patent "p2" 55] Sample.world
             eq_refl eq_refl) in Hrec.
  cbn [snd contentCache setCache] in Hrec.
  change "ai#monthly" with (patentKey Sample.aiMonthly) in Hrec.
  rewrite setPatents_lookup in Hrec. injection Hrec as <-.
  cbn [patentImpactAverage] in Havg. injection Havg as <-.
  vm_compute in Hmean. discriminate Hmean.
Qed.

(** The score that [aggregateContent] stores with the news it writes is
    the mean of the scores of those items, when the cascade selected a
    provider result with at least one item or selected none, and the write
    goes through. *)
Lemma news_score_is_mean env request w w1 w2 secrets aiResult :
  FetchNews.resolveSecrets env w = (Ok secrets, w1) →
  FetchNews.cascade env (FetchNews.newsQuery request) secrets w1
    = (Ok aiResult, w2) →
  match aiResult with Some r => FetchNews.items r ≠ [] | None => True end →
  storableResult aiResult = true →
  FetchNews.updateSucceeds env = true →
  ∃ resp w' rec s,
    FetchNews.aggregateContent env request w = (Ok resp, w')
    ∧ contentCache w' !! newsKey request = Some rec
    ∧ newsArray rec = Some (FetchNews.res_items resp)
    ∧ verificationScore rec = Some s
    ∧ (inject_Z s
       == mean (Ai.verificationScore <$> FetchNews.res_items resp))%Q.
Proof.
  intros Hsec Hcas Hsel Hsto Hupd.
  destruct (aggregateContent_returns env _ _ _ _ _ _ Hsec Hcas Hsto Hupd)
    as (resp & w' & rec & Hrun & _ & Hrec & Hnews & Hscore & Hitems).
  exists resp, w', rec. eexists. split; [done|]. split; [done|].
  split; [done|]. split; [exact Hscore|].
  symmetry. apply mean_constant.
  - destruct aiResult as [r|]; cbn in Hitems.
    + destruct (FetchNews.items r); [done|]. destruct Hitems as [Hlen _].
      destruct (FetchNews.res_items resp); [cbn in Hlen; lia | done].
    + destruct Hitems as [Hlen _].
      by destruct (FetchNews.res_items resp).
  - apply Forall_fmap. destruct aiResult as [r|]; cbn in Hitems.
    + destruct (FetchNews.items r); [done|].
      by destruct Hitems as (_ & Hall & _).
    + by destruct Hitems as [_ Hall].
Qed.

(** C4 (amended).  A write goes through when the document client
    marshals the list (no item holds [undefined]) and the table accepts
    the update; a list the client cannot marshal is refused and leaves the
    table as it was.  Writing [A] and then [B] to the patents slot of a
    key, both writes going through, leaves exactly [B] there and leaves the
    news slot as it was; the aggregate stored with a patents write is the
    mean of the impact scores just written rounded to the nearest integer,
    not the mean itself (and 0 for the empty list).  Writing [NA] and then
    [NB] to the news slot leaves exactly [NB] with the score passed along,
    and leaves the patents slot as it was; the score [aggregateContent]
    passes along is the mean of the item scores it writes whenever the
    cascade selected a provider result with at least one item, each of the
    canonicalised ones with a link, or selected none. *)
Theorem C4_upsert_replaces_slot_and_rescores
    (penv : FetchPatents.Env) (nenv : FetchNews.Env)
    (preq : FetchPatents.PatentRequest) (A B : list Patent.PatentSummary)
    (nreq : FetchNews.AggregationRequest) (NA NB : list Ai.AiContentItem)
    (gA gB : string) (sA sB : Z) (w : World) :
  FetchPatents.updateSucceeds penv = true →
  FetchNews.updateSucceeds nenv = true →
  forallb Patent.marshals A = true →
  forallb Patent.marshals B = true →
  forallb Ai.marshals NA = true →
  forallb Ai.marshals NB = true →
  let pA := (FetchPatents.upsertCache penv preq A w).2 in
  let pB := (FetchPatents.upsertCache penv preq B pA).2 in
  let nA := (FetchNews.writeNews nenv nreq NA gA sA w).2 in
  let nB := (FetchNews.writeNews nenv nreq NB gB sB nA).2 in
  (∃ rec, contentCache pA !! patentKey preq = Some rec
          ∧ patentsArray rec = Some A
          ∧ patentImpactAverage rec = Some (FetchPatents.impactAverage A))
  ∧ (∃ rec, contentCache pB !! patentKey preq = Some rec
            ∧ patentsArray rec = Some B
            ∧ patentImpactAverage rec = Some (FetchPatents.impactAverage B)
            ∧ newsArray rec = (contentCache w !! patentKey preq) ≫= newsArray)
  ∧ (∀ ps, ps ≠ [] →
       let m := mean (Patent.impactScore <$> ps) in
       FetchPatents.impactAverage ps = Js.Math_round m
       ∧ (m - (1 # 2) < inject_Z (FetchPatents.impactAverage ps))%Q
       ∧ (inject_Z (FetchPatents.impactAverage ps) <= m + (1 # 2))%Q)
  ∧ FetchPatents.impactAverage [] = 0%Z
  ∧ (∃ rec, contentCache nA !! newsKey nreq = Some rec
            ∧ newsArray rec = Some NA
            ∧ verificationScore rec = Some sA)
  ∧ (∃ rec, contentCache nB !! newsKey nreq = Some rec
            ∧ newsArray rec = Some NB
            ∧ verificationScore rec = Some sB
            ∧ patentsArray rec
              = (contentCache w !! newsKey nreq) ≫= patentsArray)
  ∧ (∀ request w0 w1 w2 secrets aiResult,
       FetchNews.resolveSecrets nenv w0 = (Ok secrets, w1) →
       FetchNews.cascade nenv (FetchNews.newsQuery request) secrets w1
         = (Ok aiResult, w2) →
       match aiResult with
       | Some r => FetchNews.items r ≠ []
       | None => True
       end →
       storableResult aiResult = true →
       ∃ resp w' rec s,
         FetchNews.aggregateContent nenv request w0 = (Ok resp, w')
         ∧ contentCache w' !! newsKey request = Some rec
         ∧ newsArray rec = Some (FetchNews.res_items resp)
         ∧ verificationScore rec = Some s
         ∧ (inject_Z s
            == mean (Ai.verificationScore <$> FetchNews.res_items resp))%Q)
  ∧ (∀ ps w0, forallb Patent.marshals ps = false →
       ∃ e, FetchPatents.upsertCache penv preq ps w0 = (Throw e, w0))
  ∧ (∀ news g s w0, forallb Ai.marshals news = false →
       ∃ e, FetchNews.writeNews nenv nreq news g s w0 = (Throw e, w0)).
Proof.
  intros Hp Hn HA HB HNA HNB pA pB nA nB. subst pA pB nA nB.
  rewrite (upsertCache_writes penv _ A _ HA Hp).
  rewrite (upsertCache_writes penv _ B _ HB Hp).
  rewrite (writeNews_writes nenv _ NA _ _ _ HNA Hn).
  rewrite (writeNews_writes nenv _ NB _ _ _ HNB Hn).
  cbn [snd contentCache setCache].
  rewrite !setPatents_lookup, !setNews_lookup. cbn [mbind option_bind].
  split; [by eexists|]. split; [by eexists|].
  split.
  { intros ps Hne. cbv zeta. rewrite (impactAverage_rounds_mean ps Hne).
    split; [done|]. apply Math_round_nearest. }
  split; [reflexivity|]. split; [by eexists|]. split; [by eexists|].
  split.
  { intros request w0 w1 w2 secrets aiResult Hsec Hcas Hsel Hsto.
    by apply (news_score_is_mean nenv request w0 w1 w2 secrets aiResult). }
  split.
  - intros ps w0. apply upsertCache_refuses.
  - intros news g s w0. apply writeNews_refuses.
Qed.

(** The two patents of the counter-example, written after an earlier
    list: the slot holds exactly them and the stored aggregate is 58. *)
Lemma C4_rounded_mean_example :
  ∃ rec,
    contentCache
      (FetchPatents.upsertCache Sample.patentEnv Sample.aiMonthly
         [Sample.patent "p1" 60; Sample.patent "p2" 55]
         (FetchPatents.upsertCache Sample.patentEnv Sample.aiMonthly
            [Sample.patent "p0" 70] Sample.world).2).2
      !! "ai#monthly" = Some rec
    ∧ patentsArray rec = Some [Sample.patent "p1" 60; Sample.patent "p2" 55]
    ∧ patentImpactAverage rec = Some 58%Z.
Proof.
  destruct (C4_upsert_replaces_slot_and_rescores
              Sample.patentEnv (Sample.newsEnv Sample.allKeys 0.9%Q [])
              Sample.aiMonthly
              [Sample.patent "p0" 70]
              [Sample.patent "p1" 60; Sample.patent "p2" 55]
              Sample.aiDailyRequest [] [] Sample.instant Sample.instant
              50%Z 50%Z Sample.world eq_refl eq_refl eq_refl eq_refl
              eq_refl eq_refl)
    as (_ & (rec & Hrec & Hps & Havg & _) & _).
  exists rec. split; [exact Hrec|]. split; [exact Hps|exact Havg].
Defined.

(** ** relatedContent *)

Section Related.
Import Js RelatedContent.

(** Induction on a stored item, with the hypothesis available for every
    item of its [related] array. *)
Lemma JsItem_induction (P : JsItem → Prop) :
  (∀ a b c d e f g h rel,
      match rel with Some cs => Forall P cs | None => True end →
      P (mkJsItem a b c d e f g h rel)) →
  ∀ j, P j.
Proof.
  intros H. fix IH 1. intros [a b c d e f g h rel]. apply H.
  destruct rel as [cs|]; [|exact I].
  induction cs as [|c0 cs IHcs]; constructor.
  - apply IH.
  - apply IHcs.
Qed.

(** The counted loop of [expandRelated] is [slice(0, n).map(f)]. *)
Lemma slice_loop {W A B} (f : A → M W B) (n : nat) (cs : list A) :
  (fix each (n : nat) (cs : list A) {struct cs} : M W (list B) :=
     match n, cs with
     | S n', child :: cs' =>
         let* r := f child in
         let* rs := each n' cs' in
         ret (r :: rs)
     | _, _ => ret []
     end) n cs
  = mapM f (take n cs).
Proof.
  revert n. induction cs as [|c cs IH]; intros [|n]; try reflexivity.
  cbn [take mapM]. by rewrite <- IH.
Qed.

(** [expandRelated] as the source writes it. *)
Lemma expandRelated_unfold a b c d e f g h rel depth :
  expandRelated (mkJsItem a b c d e f g h rel) depth
  = (let* relatedItems :=
       match rel with
       | Some children =>
           mapM (λ child, expandRelated child (pred depth)) (take 3 children)
       | None => ret []
       end in
     let* i := match a with Some i => ret i | None => uuid end in
     ret (mkRelatedItem i
            (default "Related technology development" b)
            (default "AI generated related insight awaiting full orchestration."
               (orElse c d))
            (orElse e (orElse f g))
            (match h with Some v => Math_round v | None => 60%Z end)
            (if gt depth 1 then Some relatedItems else None))).
Proof.
  destruct rel as [children|]; [|reflexivity].
  cbn [expandRelated]. by rewrite <- slice_loop.
Qed.

Lemma expand_children (cs : list JsItem) :
  Forall expands cs →
  ∀ depth w, ∃ rs w',
    mapM (λ child, expandRelated child depth) cs w = (Ok rs, w')
    ∧ length rs = length cs
    ∧ forallb (fanoutOk 3) rs = true
    ∧ ∀ depth', ∃ rs',
        mapM (λ child, expandRelated child depth') cs w = (Ok rs', w').
Proof.
  induction 1 as [|c cs Hc _ IH]; intros depth w.
  - exists [], w. repeat split; try done. intros ?. by exists [].
  - destruct (Hc depth w) as (r & w1 & Hr & Hfan & Hother).
    destruct (IH depth w1) as (rs & w2 & Hrs & Hlen & Hfans & Hothers).
    exists (r :: rs), w2. split.
    { cbn [mapM]. rewrite (bind_ok _ _ _ _ _ Hr).
      by rewrite (bind_ok _ _ _ _ _ Hrs). }
    split; [cbn; by rewrite Hlen|].
    split; [cbn; by rewrite Hfan, Hfans|].
    intros depth'. destruct (Hother depth') as (r' & Hr' & _).
    destruct (Hothers depth') as (rs' & Hrs').
    exists (r' :: rs'). cbn [mapM]. rewrite (bind_ok _ _ _ _ _ Hr').
    by rewrite (bind_ok _ _ _ _ _ Hrs').
Qed.

Lemma expandRelated_expands (item : JsItem) : expands item.
Proof.
  induction item as [a b c d e f g h rel IH] using JsItem_induction.
  assert (∀ w1, ∃ i w2,
            (match a with Some i => ret i | None => uuid end) w1 = (Ok i, w2))
    as Hid by (intros w1; destruct a; eexists _, _; reflexivity).
  intros depth w. rewrite expandRelated_unfold.
  destruct rel as [children|].
  - assert (Forall expands (take 3 children)) as Hcs by (by apply Forall_take).
    destruct (expand_children _ Hcs (pred depth) w)
      as (rs & w1 & Hrs & Hlen & Hfans & Hothers).
    rewrite (bind_ok _ _ _ _ _ Hrs).
    assert (length rs ≤ 3) as Hle by (rewrite Hlen, length_take; lia).
    destruct (Hid w1) as (i & w2 & Hi).
    rewrite (bind_ok _ _ _ _ _ Hi).
    eexists _, _. split; [reflexivity|]. split.
    { cbn. destruct (gt depth 1); [|done].
      apply andb_true_iff. split; [by apply Nat.leb_le | done]. }
    intros depth'. rewrite expandRelated_unfold.
    destruct (Hothers (pred depth')) as (rs' & Hrs').
    rewrite (bind_ok _ _ _ _ _ Hrs'), (bind_ok _ _ _ _ _ Hi).
    eexists. split; [reflexivity|]. by intros -> ->.
  - rewrite bind_ret. destruct (Hid w) as (i & w2 & Hi).
    rewrite (bind_ok _ _ _ _ _ Hi).
    eexists _, _. split; [reflexivity|]. split.
    { cbn. by destruct (gt depth 1). }
    intros depth'. rewrite expandRelated_unfold.
    rewrite bind_ret, (bind_ok _ _ _ _ _ Hi).
    eexists. split; [reflexivity|]. by intros -> ->.
Qed.







Variable env : Env.


(** ** C5: the depth of a deep dive *)


(** ** C10: the fan-out of a deep dive *)

(** C10.  For every stored item and every depth, [expandRelated] returns a
    tree in which every node has at most three children; and whenever the
    handler answers, it answers 200 with such a tree (it fails only when
    the cache read fails). *)
Theorem C10_at_most_three_children :
  (∀ item depth w, ∃ r w',
      expandRelated item depth w = (Ok r, w') ∧ fanoutOk 3 r = true)
  ∧ (∀ event w,
       match handler env event w with
       | (Ok answer, _) =>
           statusCode answer = 200%Z
           ∧ ∃ resp, body answer = Payload resp ∧ fanoutOk 3 (item resp) = true
       | (Throw e, w') => e = ServiceError "dynamodb" ∧ w' = w
       end).
Proof.
  split.
  - intros item depth w.
    destruct (expandRelated_expands item depth w) as (r & w' & Hr & Hfan & _).
    by exists r, w'.
  - intros event w. unfold handler, serve.
    destruct (fetchCached env (section (parseRequest event))
                (period (parseRequest event)) w) as [[cached|e] w1] eqn:Hf.
    2: { rewrite (bind_throw _ _ _ _ _ Hf). revert Hf. unfold fetchCached.
         destruct (nonEmpty (tableName env)); [|discriminate].
         destruct (getItem env _); [|discriminate].
         unfold throw. by intros [= <- <-]. }
    rewrite (bind_ok _ _ _ _ _ Hf).
    destruct (buildPlaceholder (unicode env) (section (parseRequest event))
                (period (parseRequest event)) (itemId (parseRequest event)) w1)
      as [[fb|e] w2] eqn:Hb.
    2: { exfalso. revert Hb. unfold buildPlaceholder. cbn. discriminate. }
    rewrite (bind_ok _ _ _ _ _ Hb). cbv zeta.
    match goal with |- context [expandRelated ?t ?d] =>
      destruct (expandRelated_expands t d w2) as (r & w3 & Hr & Hfan & _) end.
    rewrite (bind_ok _ _ _ _ _ Hr). cbn. split; [done|]. eexists. by split.
Qed.

End Related.


(** ** dailyRefresh *)

(** The second version, fully configured and triggered without a list,
    starts the refresh and then pushes the notice once to every connection
    id the scan returned, in order, whether or not the answer of the scan
    carries a key to resume from. *)
Lemma scanning_handler_notifies_page env event ids lastKey w :
  DailyRefresh.connections (default DailyRefresh.noDetail event) = None →
  Js.nonEmpty (DailyRefresh.stateMachineArn env) = true →
  Js.nonEmpty (DailyRefresh.websocketEndpoint env) = true →
  Js.nonEmpty (DailyRefresh.websocketTableName env) = true →
  DailyRefresh.startSucceeds env = true →
  DailyRefresh.scan env = DailyRefresh.ScanItems (Some (Some <$> ids)) lastKey →
  Forall (λ i, Js.nonEmpty i = true) ids →
  ∃ w' sent,
    DailyRefresh.handler env event w
    = (Ok {| DailyRefresh.answerStatus := 202;
             DailyRefresh.answerBody := "Refresh started" |}, w')
    ∧ DailyRefresh.pushes w' = DailyRefresh.pushes w ++ sent
    ∧ DailyRefresh.connectionId <$> sent = ids.
Proof.
  intros Hnone Harn Hws Htab Hstart Hscan Hids.
  unfold DailyRefresh.handler, DailyRefresh.startExecution,
    DailyRefresh.listActiveConnections.
  rewrite Hnone, Harn, Hstart, Hws, Htab, Hscan.
  cbn [default from_option id].
  assert (omap (λ c : option string,
                  match c with
                  | Some i => if Js.nonEmpty i then Some i else None
                  | None => None
                  end) (Some <$> ids) = ids) as ->.
  { clear -Hids. induction Hids as [|i ids Hi _ IH]; [done|].
    cbn. rewrite Hi. cbn in IH. by rewrite IH. }
  rewrite bind_modify, bind_ret.
  destruct ids as [|i ids].
  - eexists _, []. split; [reflexivity|]. cbn. by rewrite app_nil_r.
  - eexists _, _. split; [reflexivity|]. cbn [DailyRefresh.pushes].
    split; [reflexivity|].
    generalize (i :: ids). clear. intros l.
    induction l as [|j l IH]; [done|]. cbn. f_equal. exact IH.
Qed.

(** The first version of the Lambda, on a trigger without a list: it
    starts the refresh and pushes to nobody, where the second version
    pushes to the connections the scan returned. *)
Lemma listed_handler_skips_notification :
  let listed := DailyRefresh.handlerListed Sample.refreshEnv
                  (Some DailyRefresh.noDetail) Sample.quiet in
  let scanned := DailyRefresh.handler Sample.refreshEnv
                   (Some DailyRefresh.noDetail) Sample.quiet in
  listed.1 = Ok {| DailyRefresh.answerStatus := 202;
                   DailyRefresh.answerBody := "Refresh started" |}
  ∧ length (DailyRefresh.executions listed.2) = 1
  ∧ DailyRefresh.pushes listed.2 = []
  ∧ DailyRefresh.connectionId <$> DailyRefresh.pushes scanned.2 = ["c1"; "c2"].
Proof. cbv zeta. repeat split; reflexivity. Qed.

(** ** C8: a refresh trigger without a connection list *)

(** C8 (code fails the claim).  On a trigger without [connections] the
    Lambda, fully configured, issues one scan of the sessions table and
    pushes the notice to the connections of the page that scan returns, in
    order and once each.  It never reads the key to resume from: when the
    scan stopped before the end of the table, a connection that is
    registered beyond the first page gets no notice. *)
Theorem C8_scan_stops_at_first_page
    (env : DailyRefresh.Env) (event : option DailyRefresh.RefreshEventDetail)
    (t : gmap string WebsocketManager.Session) (ids : list string)
    (key c : string) (w : DailyRefresh.Wire) :
  DailyRefresh.connections (default DailyRefresh.noDetail event) = None →
  Js.nonEmpty (DailyRefresh.stateMachineArn env) = true →
  Js.nonEmpty (DailyRefresh.websocketEndpoint env) = true →
  Js.nonEmpty (DailyRefresh.websocketTableName env) = true →
  DailyRefresh.startSucceeds env = true →
  DailyRefresh.scan env
  = DailyRefresh.ScanItems (Some (Some <$> ids)) (Some key) →
  pageOf t ids (Some key) →
  is_Some (t !! c) →
  c ∉ ids →
  ∃ w' sent,
    DailyRefresh.handler env event w
    = (Ok {| DailyRefresh.answerStatus := 202;
             DailyRefresh.answerBody := "Refresh started" |}, w')
    ∧ DailyRefresh.pushes w' = DailyRefresh.pushes w ++ sent
    ∧ DailyRefresh.connectionId <$> sent = ids
    ∧ c ∉ DailyRefresh.connectionId <$> sent.
Proof.
  intros Hnone Harn Hws Htab Hstart Hscan (Hnodup & Hin & _) Hc Hout.
  destruct (scanning_handler_notifies_page env event ids (Some key) w
              Hnone Harn Hws Htab Hstart Hscan)
    as (w' & sent & Hrun & Hpushes & Hsent).
  { apply Forall_forall. intros i Hi. by destruct (Hin i Hi). }
  exists w', sent. split; [done|]. split; [done|]. split; [done|].
  by rewrite Hsent.
Qed.

(** The sessions table holds c1, c2 and c3; the scan stops after c1 and
    c2: the notice goes to c1 and c2, and c3 is left out. *)
Lemma C8_third_connection_is_missed :
  is_Some (Sample.sessionsTable !! "c3")
  ∧ ∃ w' sent,
      DailyRefresh.handler Sample.firstPageEnv (Some DailyRefresh.noDetail)
        Sample.quiet
      = (Ok {| DailyRefresh.answerStatus := 202;
               DailyRefresh.answerBody := "Refresh started" |}, w')
      ∧ DailyRefresh.pushes w' = sent
      ∧ DailyRefresh.connectionId <$> sent = ["c1"; "c2"]
      ∧ "c3" ∉ DailyRefresh.connectionId <$> sent.
Proof.
  assert (is_Some (Sample.sessionsTable !! "c3")) as Hc3
    by (by eexists; vm_compute).
  split; [exact Hc3|].
  destruct (C8_scan_stops_at_first_page Sample.firstPageEnv
              (Some DailyRefresh.noDetail) Sample.sessionsTable
              ["c1"; "c2"] "c2" "c3" Sample.quiet
              eq_refl eq_refl eq_refl eq_refl eq_refl eq_refl)
    as (w' & sent & Hrun & Hpushes & Hsent & Hout).
  - split; [|split].
    + by apply (bool_decide_unpack _); vm_compute.
    + intros c0. rewrite !elem_of_cons, elem_of_nil.
      intros [->|[->|[]]]; (split; [by eexists; vm_compute | reflexivity]).
    + discriminate.
  - exact Hc3.
  - by apply (bool_decide_unpack _); vm_compute.
  - exists w', sent. split; [exact Hrun|]. split; [exact Hpushes|].
    split; [exact Hsent|exact Hout].
Defined.

(** * Further properties *)

(** ** Frames *)

Lemma keeps_ret {W A} (R : W → W → Prop) `{!Reflexive R} (a : A) :
  keeps R (ret a : M W A).
Proof. intros w. cbn. reflexivity. Qed.

Lemma keeps_throw {W A} (R : W → W → Prop) `{!Reflexive R} e :
  keeps R (throw e : M W A).
Proof. intros w. cbn. reflexivity. Qed.

Lemma keeps_bind {W A B} (R : W → W → Prop) `{!Transitive R}
    (m : M W A) (k : A → M W B) :
  keeps R m → (∀ a, keeps R (k a)) → keeps R (bind m k).
Proof.
  intros Hm Hk w. unfold bind. specialize (Hm w).
  destruct (m w) as [[a|e] w1]; [|done].
  etrans; [exact Hm|]. apply Hk.
Qed.

Lemma keeps_tryCatch {W A} (R : W → W → Prop) `{!Transitive R}
    (m : M W A) (h : Exn → M W A) :
  keeps R m → (∀ e, keeps R (h e)) → keeps R (tryCatch m h).
Proof.
  intros Hm Hh w. unfold tryCatch. specialize (Hm w).
  destruct (m w) as [[a|e] w1]; [done|].
  etrans; [exact Hm|]. apply Hh.
Qed.

Lemma keeps_mapM {W A B} (R : W → W → Prop) `{!PreOrder R}
    (f : A → M W B) (xs : list A) :
  (∀ x, keeps R (f x)) → keeps R (mapM f xs).
Proof.
  intros Hf. induction xs as [|x xs IH]; cbn [mapM].
  - apply keeps_ret; apply _.
  - apply keeps_bind; [apply _ | apply Hf |]. intros y.
    apply keeps_bind; [apply _ | apply IH |]. intros ys.
    apply keeps_ret; apply _.
Qed.

Global Instance sameCache_preorder : PreOrder sameCache.
Proof.
  split; [by intros w|]. intros w1 w2 w3 H12 H23. unfold sameCache in *.
  by rewrite H23.
Qed.

Global Instance sameTrace_preorder : PreOrder sameTrace.
Proof.
  split; [by intros w|]. intros w1 w2 w3 H12 H23. unfold sameTrace in *.
  by rewrite H23.
Qed.

Global Instance onlyNewsOf_preorder key : PreOrder (onlyNewsOf key).
Proof.
  split; [by intros w|].
  intros w1 w2 w3 (Ha & Hb & Hc) (Ha' & Hb' & Hc'). split; [|split].
  - intros k Hk. by rewrite Ha', Ha.
  - by rewrite Hb', Hb.
  - by rewrite Hc', Hc.
Qed.

Global Instance onlyPatentsOf_preorder key : PreOrder (onlyPatentsOf key).
Proof.
  split; [by intros w|].
  intros w1 w2 w3 (Ha & Hb & Hc) (Ha' & Hb' & Hc'). split; [|split].
  - intros k Hk. by rewrite Ha', Ha.
  - by rewrite Hb', Hb.
  - by rewrite Hc', Hc.
Qed.

Lemma sameCache_onlyNewsOf key w w' : sameCache w w' → onlyNewsOf key w w'.
Proof. unfold sameCache, onlyNewsOf. intros ->. done. Qed.

Lemma sameCache_onlyPatentsOf key w w' :
  sameCache w w' → onlyPatentsOf key w w'.
Proof. unfold sameCache, onlyPatentsOf. intros ->. done. Qed.

Lemma keeps_weaken {W A} (R S : W → W → Prop) (m : M W A) :
  (∀ w w', R w w' → S w w') → keeps R m → keeps S m.
Proof. intros HRS Hm w. apply HRS, Hm. Qed.

Ltac frame :=
  first [ apply keeps_mapM; [apply _|]
        | apply keeps_bind; [apply _| |]
        | apply keeps_tryCatch; [apply _| |]
        | apply keeps_ret; apply _
        | apply keeps_throw; apply _ ].


Lemma truthy_nonEmpty k : Js.truthy (Some k) = Js.nonEmpty k.
Proof. by destruct k. Qed.


(** ** fetchNews, further *)

Section NewsEffects.
Import Js FetchNews.
Variable env : Env.

Lemma uuid_sameCache : keeps sameCache uuid.
Proof. by intros w. Qed.

Lemma resolveSecrets_sameCache : keeps sameCache (resolveSecrets env).
Proof.
  intros w. unfold resolveSecrets. destruct (newsSecrets w); [done|].
  destruct (nonEmpty (apiSecretArn env)); [|done].
  by destruct (getSecretValue env) as [| |[b|]].
Qed.

Lemma cascade_sameCache q secrets : keeps sameCache (cascade env q secrets).
Proof.
  unfold cascade, callPerplexity, callGemini, callChatGpt.
  repeat first
    [ progress intros
    | frame
    | match goal with
      | |- keeps _ (match ?x with _ => _ end) => destruct x
      | |- keeps _ (modify _) => by intros w
      end ].
Qed.

Lemma canonical_sameCache request g r x :
  keeps sameCache (canonical request g r x).
Proof.
  unfold canonical. frame.
  - destruct (r_id x); [frame | apply uuid_sameCache].
  - intros i. frame.
Qed.

Lemma placeholders_sameCache s t :
  keeps sameCache (buildPlaceholderItems env s t).
Proof.
  unfold buildPlaceholderItems. frame. intros x.
  unfold placeholderItem. frame; [apply uuid_sameCache|].
  intros i. frame.
Qed.

Lemma writeNews_onlyNewsOf request news g score :
  keeps (onlyNewsOf (newsKey request)) (writeNews env request news g score).
Proof.
  intros w.
  destruct (forallb Ai.marshals news) eqn:Hm;
    [destruct (updateSucceeds env) eqn:Hupd|].
  - rewrite (writeNews_writes env _ _ _ _ _ Hm Hupd). unfold onlyNewsOf.
    cbn [snd contentCache setCache]. split; [|split].
    + intros k Hk. unfold setNews. cbv zeta.
      rewrite lookup_insert_ne; [done | congruence].
    + by rewrite setNews_lookup.
    + by rewrite setNews_lookup.
  - unfold writeNews. by rewrite Hm, Hupd.
  - unfold writeNews. by rewrite Hm.
Qed.

(** X6.  Whatever its outcome, a news aggregation changes in the cache
    table at most the record of its own section#period, and in that record
    it leaves the patents and their impact average as they were. *)
Theorem news_touches_only_its_slot request :
  keeps (onlyNewsOf (newsKey request)) (aggregateContent env request).
Proof.
  pose proof (sameCache_onlyNewsOf (newsKey request)) as Hweak.
  unfold aggregateContent. frame.
  { eapply keeps_weaken; [exact Hweak|]. apply resolveSecrets_sameCache. }
  intros secrets. cbv zeta. frame.
  { eapply keeps_weaken; [exact Hweak|]. apply cascade_sameCache. }
  intros aiResult. frame.
  { eapply keeps_weaken; [exact Hweak|]. frame.
    intros x. apply canonical_sameCache. }
  intros items. frame.
  { eapply keeps_weaken; [exact Hweak|]. destruct items.
    - apply placeholders_sameCache.
    - frame. }
  intros enriched. frame.
  - apply writeNews_onlyNewsOf.
  - intros []. frame.
Qed.

Global Instance calm_preorder : PreOrder calm.
Proof.
  split; [by intros w|]. intros w1 w2 w3 [Ha Hb] [Ha' Hb'].
  split; by etrans.
Qed.

Lemma mapM_Forall2 {W A B} (f : A → M W B) (P : A → B → Prop) :
  (∀ x w, ∃ y w', f x w = (Ok y, w') ∧ P x y) →
  ∀ xs w, ∃ ys w', mapM f xs w = (Ok ys, w') ∧ Forall2 P xs ys.
Proof.
  intros Hf xs. induction xs as [|x xs IH]; intros w.
  - exists [], w. by split.
  - destruct (Hf x w) as (y & w1 & Hy & HP).
    destruct (IH w1) as (ys & w2 & Hys & HPs).
    exists (y :: ys), w2. split; [|by constructor].
    cbn [mapM]. rewrite (bind_ok _ _ _ _ _ Hy).
    by rewrite (bind_ok _ _ _ _ _ Hys).
Qed.

(** How a frame is used on a run whose outcome is known. *)
Lemma keeps_run {W A} (R : W → W → Prop) (m : M W A) w r w' :
  keeps R m → m w = (r, w') → R w w'.
Proof. intros Hm Hrun. specialize (Hm w). by rewrite Hrun in Hm. Qed.

Lemma uuid_calm : keeps calm uuid.
Proof. by intros w. Qed.

Lemma resolveSecrets_calm : keeps calm (resolveSecrets env).
Proof.
  intros w. unfold resolveSecrets. destruct (newsSecrets w); [done|].
  destruct (nonEmpty (apiSecretArn env)); [|done].
  by destruct (getSecretValue env) as [| |[b|]].
Qed.

Lemma canonical_calm request g r x : keeps calm (canonical request g r x).
Proof.
  unfold canonical. frame.
  - destruct (r_id x); [frame | apply uuid_calm].
  - intros i. frame.
Qed.

Lemma placeholders_calm s t : keeps calm (buildPlaceholderItems env s t).
Proof.
  unfold buildPlaceholderItems. frame. intros x.
  unfold placeholderItem. frame; [apply uuid_calm|].
  intros i. frame.
Qed.

Lemma writeNews_sameTrace request news g score :
  keeps sameTrace (writeNews env request news g score).
Proof.
  intros w. unfold writeNews.
  by destruct (forallb Ai.marshals news), (updateSucceeds env).
Qed.

Lemma canonical_canonOf request g aiResult item w :
  ∃ y w', canonical request g aiResult item w = (Ok y, w')
          ∧ canonOf request g item y.
Proof.
  unfold canonical, canonOf. destruct (r_id item) as [i|] eqn:Hid.
  - eexists _, _. split; [reflexivity|]. cbn. repeat split. by intros ? [= ->].
  - eexists _, _. split; [reflexivity|]. cbn. by repeat split.
Qed.

(** The cascade: which provider it keeps and which calls it makes. *)
Lemma cascade_discipline q secrets w :
  ∃ r w',
    cascade env q secrets w = (Ok r, w')
    ∧ provider <$> r = newsSelected env q secrets
    ∧ outbound w' = outbound w ++ newsCalls env q secrets
    ∧ contentCache w' = contentCache w.
Proof.
  unfold cascade, newsCalls, newsSelected, answers, tryCatch, callPerplexity,
    callGemini, callChatGpt.
  destruct secrets as [[[|c1 k1]|] [[|c2 k2]|] [[|c3 k3]|]];
    cbn [perplexityApiKey geminiApiKey chatGptApiKey truthy nonEmpty andb negb];
    repeat match goal with
    | |- context [postPerplexity env q ?k] =>
        destruct (postPerplexity env q k)
    | |- context [postGemini env q ?k] => destruct (postGemini env q k)
    | |- context [postChatGpt env q ?k] => destruct (postChatGpt env q k)
    end;
    eexists _, _; (split; [reflexivity|]); cbn;
    rewrite ?app_nil_r, <- ?app_assoc; done.
Qed.

(** A whole run of [aggregateContent] once the secrets are there. *)
Lemma aggregateContent_run request w secrets w1 :
  resolveSecrets env w = (Ok secrets, w1) →
  ∃ aiResult items w2,
    (cascade env (newsQuery request) secrets w1).1 = Ok aiResult
    ∧ provider <$> aiResult = newsSelected env (newsQuery request) secrets
    ∧ outbound w2 = outbound w ++ newsCalls env (newsQuery request) secrets
    ∧ contentCache w2 = contentCache w
    ∧ 1 ≤ length items ≤ 10
    ∧ match default [] (FetchNews.items <$> aiResult) with
      | [] => length items = 3
              ∧ Forall (λ it, Ai.verificationScore it = 50%Z) items
      | (_ :: _) as raws =>
          Forall2 (canonOf request (nowIso env)) (take 10 raws) items
      end
    ∧ forallb Ai.marshals items = storableResult aiResult
    ∧ aggregateContent env request w
      = (let* _ := writeNews env request items (nowIso env)
                     (Math_round
                        (times (default 0.5%Q (confidence <$> aiResult))
                           100)) in
         ret {| res_section := section request;
                res_timePeriod := timePeriod request;
                res_items := items;
                verificationSummary := summaryOf aiResult;
                generatedAt := nowIso env |}) w2.
Proof.
  intros Hsec.
  destruct (keeps_run _ _ _ _ _ resolveSecrets_calm Hsec) as [Hc1 Ht1].
  destruct (cascade_discipline (newsQuery request) secrets w1)
    as (aiResult & w2 & Hcas & Hsel & Ht2 & Hc2).
  destruct (mapM_Forall2 (canonical request (nowIso env) aiResult)
              (canonOf request (nowIso env)))
    with (xs := take 10 (default [] (FetchNews.items <$> aiResult))) (w := w2)
    as (ys & w3 & Hmap & Hall).
  { intros x w0. apply canonical_canonOf. }
  assert (calm w2 w3) as [Hc3 Ht3].
  { eapply keeps_run; [|exact Hmap]. frame. intros x. apply canonical_calm. }
  pose proof (Forall2_length _ _ _ Hall) as Hlen. rewrite length_take in Hlen.
  unfold sameCache, sameTrace in *.
  unfold aggregateContent.
  rewrite (bind_ok _ _ _ _ _ Hsec). cbv beta zeta.
  rewrite (bind_ok _ _ _ _ _ Hcas), (bind_ok _ _ _ _ _ Hmap).
  destruct ys as [|y ys].
  - destruct (placeholders_return env (section request) (timePeriod request) w3)
      as (ps & w4 & Hps & Hl & Hfifty).
    destruct (keeps_run _ _ _ _ _ (placeholders_calm _ _) Hps) as [Hc4 Ht4].
    unfold sameCache, sameTrace in *.
    rewrite (bind_ok _ _ _ _ _ Hps).
    exists aiResult, ps, w4. split; [by rewrite Hcas|]. split; [done|].
    split; [by rewrite Ht4, Ht3, Ht2, Ht1|].
    split; [by rewrite Hc4, Hc3, Hc2, Hc1|].
    split; [lia|].
    assert (default [] (FetchNews.items <$> aiResult) = []) as Hnil.
    { destruct (default [] (FetchNews.items <$> aiResult)); [done|].
      cbn in Hlen. lia. }
    split; [by rewrite Hnil|]. split; [|done].
    rewrite (placeholders_marshal _ _ _ _ _ _ Hps).
    unfold storableResult. by rewrite Hnil.
  - rewrite bind_ret. exists aiResult, (y :: ys), w3.
    split; [by rewrite Hcas|]. split; [done|].
    split; [by rewrite Ht3, Ht2, Ht1|].
    split; [by rewrite Hc3, Hc2, Hc1|].
    split; [cbn [length] in *; lia|]. split; [|split; [|done]].
    + destruct (default [] (FetchNews.items <$> aiResult)); [|done].
      by inversion Hall.
    + unfold storableResult. clear -Hall.
      induction Hall as [|raw out raws outs (_ & _ & _ & Hurl & _) _ IH];
        [done|].
      cbn [forallb]. rewrite IH. f_equal.
      unfold Ai.marshals, storable. by rewrite Hurl.
Qed.


(** X2.  A successful load of the news secrets is remembered: every later
    load in the same process returns the same bundle and changes nothing,
    whatever Secrets Manager would answer then. A failed load leaves the
    process as it was. *)
Theorem news_secrets_are_memoised (w : World) :
  match resolveSecrets env w with
  | (Ok s, w1) => ∀ env', resolveSecrets env' w1 = (Ok s, w1)
  | (Throw _, w1) => w1 = w
  end.
Proof.
  unfold resolveSecrets. destruct (newsSecrets w) as [s|] eqn:Hmemo.
  - intros env'. unfold resolveSecrets. by rewrite Hmemo.
  - destruct (nonEmpty (apiSecretArn env)); [|done].
    destruct (getSecretValue env) as [| |[b|]]; done.
Qed.

(** X1.  Once the secrets are loaded, a news aggregation calls the
    providers in the order Perplexity, Gemini, ChatGPT, each one only when
    it has a credential and no provider before it has answered; it sends
    nothing else, whether its cache write then succeeds or fails. *)
Theorem news_calls_follow_the_cascade request w secrets w1 :
  resolveSecrets env w = (Ok secrets, w1) →
  outbound (aggregateContent env request w).2
  = outbound w ++ newsCalls env (newsQuery request) secrets.
Proof.
  intros Hsec.
  destruct (aggregateContent_run request w secrets w1 Hsec)
    as (aiResult & items & w2 & _ & _ & Htrace & _ & _ & _ & _ & ->).
  rewrite <- Htrace.
  match goal with |- outbound (?m w2).2 = _ =>
    assert (keeps sameTrace m) as Hk end.
  { frame; [apply writeNews_sameTrace|]. intros []. frame. }
  apply Hk.
Qed.

(** X3.  With the secrets loaded and a cache write that goes through (the
    first ten items of the result the cascade ends with each have a link
    the document client marshals, and the table accepts the update), a
    news aggregation returns between one and ten items for the requested
    section and period, and the record under section#period then holds
    exactly the returned items, the response's timestamp, a score and a
    time to live of one day, its patent fields being as before. *)
Theorem news_success_is_persisted request w secrets w1 aiResult w2 :
  resolveSecrets env w = (Ok secrets, w1) →
  cascade env (newsQuery request) secrets w1 = (Ok aiResult, w2) →
  storableResult aiResult = true →
  updateSucceeds env = true →
  ∃ resp w' score,
    aggregateContent env request w = (Ok resp, w')
    ∧ 1 ≤ length (res_items resp) ≤ 10
    ∧ res_section resp = section request
    ∧ res_timePeriod resp = timePeriod request
    ∧ contentCache w' !! newsKey request
      = Some {| newsArray := Some (res_items resp);
                patentsArray :=
                  (contentCache w !! newsKey request) ≫= patentsArray;
                verifiedAt := Some (generatedAt resp);
                expiresAt := Some (nowSeconds env + 86400)%Z;
                verificationScore := Some score;
                patentImpactAverage :=
                  (contentCache w !! newsKey request) ≫= patentImpactAverage |}.
Proof.
  intros Hsec Hcas Hsto Hupd.
  destruct (aggregateContent_run request w secrets w1 Hsec)
    as (aiResult' & items & w3 & Hsame & _ & _ & Hcache & Hlen & _ & Hm & ->).
  rewrite Hcas in Hsame. injection Hsame as <-. rewrite Hsto in Hm.
  rewrite (bind_ok _ _ _ _ _ (writeNews_writes env _ _ _ _ _ Hm Hupd)).
  eexists _, _, _. split; [reflexivity|].
  cbn [res_items res_section res_timePeriod generatedAt contentCache setCache].
  split; [done|]. split; [done|]. split; [done|].
  by rewrite setNews_lookup, Hcache.
Qed.

(** X4.  When the cache write fails, the news aggregation throws and the
    cache table keeps its content; behind API Gateway every event with a
    well-formed body is then answered 500 with the generic message. *)
Theorem news_write_failure_changes_nothing request w secrets w1 :
  resolveSecrets env w = (Ok secrets, w1) →
  updateSucceeds env = false →
  (∃ w', aggregateContent env request w = (Throw (ServiceError "dynamodb"), w')
         ∧ contentCache w' = contentCache w)
  ∧ (∀ e, wellFormed (FromApiGateway e) →
       ∃ w', handler env (FromApiGateway e) w
             = (Ok (inl {| statusCode := 500;
                           body := Message "Failed to aggregate news content" |}),
                w')
             ∧ contentCache w' = contentCache w).
Proof.
  intros Hsec Hupd.
  assert (∀ request,
            ∃ w', aggregateContent env request w
                  = (Throw (ServiceError "dynamodb"), w')
                  ∧ contentCache w' = contentCache w) as Hfail.
  { intros rq.
    destruct (aggregateContent_run rq w secrets w1 Hsec)
      as (aiResult & items & w2 & _ & _ & _ & Hcache & _ & _ & _ & ->).
    exists w2. split; [|done]. unfold writeNews, bind.
    by rewrite Hupd, andb_false_r. }
  split; [apply Hfail|]. intros e Hwf.
  assert (∃ rq, parseRequest (FromApiGateway e) w = (Ok rq, w)) as (rq & Hparse).
  { destruct e as [[[raw| |s t]|] q]; try (by destruct Hwf); by eexists. }
  destruct (Hfail rq) as (w' & Hrun & Hcache). exists w'. split; [|done].
  assert (handleApiGateway env (FromApiGateway e) w
          = (Ok {| statusCode := 500;
                   body := Message "Failed to aggregate news content" |}, w'))
    as Hapi.
  { unfold handleApiGateway, tryCatch.
    by rewrite (bind_ok _ _ _ _ _ Hparse), (bind_throw _ _ _ _ _ Hrun). }
  unfold handler. by rewrite (bind_ok _ _ _ _ _ Hapi).
Qed.

(** X5.  When the cascade keeps a provider result with at least one item
    and the cache write goes through (each of the first ten items has a
    link the document client marshals, and the table accepts the update),
    the response holds the first ten of its items in the provider's order,
    each canonicalised on its own: a provider id is kept, and title,
    summary, link and publication time are the first present of their
    alternatives. *)
Theorem news_items_keep_provider_order request w secrets w1 r w2 :
  resolveSecrets env w = (Ok secrets, w1) →
  cascade env (newsQuery request) secrets w1 = (Ok (Some r), w2) →
  FetchNews.items r ≠ [] →
  storableResult (Some r) = true →
  updateSucceeds env = true →
  ∃ resp w',
    aggregateContent env request w = (Ok resp, w')
    ∧ Forall2 (canonOf request (generatedAt resp))
              (take 10 (FetchNews.items r)) (res_items resp).
Proof.
  intros Hsec Hcas Hne Hsto Hupd.
  destruct (aggregateContent_run request w secrets w1 Hsec)
    as (aiResult & items & w3 & Hsame & _ & _ & _ & _ & Hitems & Hm & ->).
  rewrite Hcas in Hsame. injection Hsame as <-. rewrite Hsto in Hm.
  rewrite (bind_ok _ _ _ _ _ (writeNews_writes env _ _ _ _ _ Hm Hupd)).
  eexists _, _. split; [reflexivity|]. cbn in *.
  by destruct (FetchNews.items r).
Qed.

End NewsEffects.

(** ** fetchPatents, further *)

Section PatentEffects.
Import Js FetchPatents.
Variable env : Env.

Lemma loadSecrets_calm : keeps calm (loadSecrets env).
Proof.
  intros w. unfold loadSecrets. destruct (patentSecrets w); [done|].
  destruct (nonEmpty (secretArn env)); [|done].
  by destruct (getSecretValue env) as [| |[b|]].
Qed.

Lemma fromPerplexity_patentOf request raw w :
  ∃ p w', fromPerplexity request raw w = (Ok p, w')
          ∧ patentOf request raw p ∧ calm w w'.
Proof.
  unfold fromPerplexity, patentOf. destruct (p_id raw) as [i|] eqn:Hid.
  - eexists _, _. split; [reflexivity|]. split; [|done]. cbn.
    repeat split. by intros ? [= ->].
  - eexists _, _. split; [reflexivity|]. split; [|done]. cbn. by repeat split.
Qed.

(** A loop whose body returns and keeps the world calm. *)
Lemma mapM_calm {A B} (f : A → M World B) (P : A → B → Prop) :
  (∀ x w, ∃ y w', f x w = (Ok y, w') ∧ P x y ∧ calm w w') →
  ∀ xs w, ∃ ys w',
    mapM f xs w = (Ok ys, w') ∧ Forall2 P xs ys ∧ calm w w'.
Proof.
  intros Hf xs. induction xs as [|x xs IH]; intros w.
  - exists [], w. by repeat split.
  - destruct (Hf x w) as (y & w1 & Hy & HP & Hc1).
    destruct (IH w1) as (ys & w2 & Hys & HPs & Hc2).
    exists (y :: ys), w2. split; [|split; [by constructor | by etrans]].
    cbn [mapM]. rewrite (bind_ok _ _ _ _ _ Hy).
    by rewrite (bind_ok _ _ _ _ _ Hys).
Qed.

Lemma placeholderPatents_return request w :
  ∃ ps w',
    mapM (placeholderPatent env request) (seq 0 3) w = (Ok ps, w')
    ∧ length ps = 3
    ∧ Forall (λ p, Patent.impactScore p = 55%Z
                   ∧ Patent.abstractText p
                     = "Placeholder patent highlight for " +:+ section request
                       +:+ " (" +:+ timePeriod request
                       +:+ "). Configure API keys to replace this data.") ps
    ∧ calm w w'.
Proof.
  destruct (mapM_calm (placeholderPatent env request)
              (λ _ p, Patent.impactScore p = 55%Z
                      ∧ Patent.abstractText p
                        = "Placeholder patent highlight for "
                          +:+ section request +:+ " (" +:+ timePeriod request
                          +:+ "). Configure API keys to replace this data."))
    with (xs := seq 0 3) (w := w) as (ps & w' & Hrun & Hall & Hcalm).
  { intros x w0. eexists _, _. split; [reflexivity|]. by split. }
  exists ps, w'. split; [done|].
  split; [by rewrite <- (Forall2_length _ _ _ Hall)|]. split; [|done].
  clear -Hall. induction Hall; by constructor.
Qed.

(** X7.  When Perplexity resolves with at least one result, the
    confidences being in the range of binary64, the patent summaries are its first ten results mapped one by one (id kept,
    defaults for missing title and abstract, the confidence times 100 as
    the binary64 multiplication gives it, rounded, 60 without a
    confidence); only Perplexity is called and the cache is not
    touched. *)
Theorem patents_from_perplexity request w secrets w1 raw raws :
  loadSecrets env w = (Ok secrets, w1) →
  perplexityPatents env (patentQuery request) secrets = raw :: raws →
  Forall (λ x, inRange (default 0.6%Q (p_confidence x) * 100) = true)
         (raw :: raws) →
  ∃ ps w',
    generatePatentSummaries env request w = (Ok ps, w')
    ∧ Forall2 (patentOf request) (take 10 (raw :: raws)) ps
    ∧ outbound w' = outbound w ++ [Post "perplexity" (patentQuery request)]
    ∧ contentCache w' = contentCache w.
Proof.
  intros Hsec Hraws _.
  destruct (keeps_run _ _ _ _ _ loadSecrets_calm Hsec) as [Hc1 Ht1].
  unfold generatePatentSummaries. rewrite (bind_ok _ _ _ _ _ Hsec).
  cbv beta zeta. revert Hraws. unfold perplexityPatents.
  destruct (perplexityApiKey secrets) as [k|]; [|discriminate].
  destruct (nonEmpty k); [|discriminate].
  destruct (postPerplexity env (patentQuery request) k) as [|data];
    [discriminate|].
  intros Hraws. rewrite Hraws.
  destruct (mapM_calm (fromPerplexity request) (patentOf request))
    with (xs := raw :: raws)
         (w := logCall (Post "perplexity" (patentQuery request)) w1)
    as (ps & w2 & Hmap & Hall & Hc2 & Ht2).
  { intros x w0. apply fromPerplexity_patentOf. }
  assert (tryCatch
            (modify (logCall (Post "perplexity" (patentQuery request))) ;;;
             mapM (fromPerplexity request) (raw :: raws))
            (λ _, ret []) w1 = (Ok ps, w2)) as Htry.
  { unfold tryCatch. rewrite bind_modify. by rewrite Hmap. }
  rewrite (bind_ok _ _ _ _ _ Htry).
  inversion Hall as [|? p ? ps' Hp Hps]; subst.
  rewrite bind_ret.
  eexists _, _. split; [reflexivity|].
  split; [by apply Forall2_take|].
  unfold sameCache, sameTrace in *. cbn in Hc2, Ht2.
  split; [by rewrite Ht2, Ht1 | by rewrite Hc2, Hc1].
Qed.


(** The guarded Perplexity step of [generatePatentSummaries]: it always
    returns, with one patent per raw result. *)
Lemma perplexity_step request secrets w :
  ∃ items1 w1,
    (match perplexityApiKey secrets with
     | Some k =>
         if nonEmpty k then
           tryCatch
             (modify (logCall (Post "perplexity" (patentQuery request))) ;;;
              match postPerplexity env (patentQuery request) k with
              | Resolves data =>
                  mapM (fromPerplexity request) (default [] data)
              | Rejects => throw (AxiosError "perplexity")
              end)
             (λ _, ret [])
         else ret []
     | None => ret []
     end) w = (Ok items1, w1)
    ∧ Forall2 (patentOf request)
              (perplexityPatents env (patentQuery request) secrets) items1
    ∧ outbound w1
      = outbound w ++ (if truthy (perplexityApiKey secrets)
                       then [Post "perplexity" (patentQuery request)] else [])
    ∧ contentCache w1 = contentCache w.
Proof.
  unfold perplexityPatents.
  destruct (perplexityApiKey secrets) as [[|c k]|]; cbn [truthy nonEmpty].
  1,3: exists [], w; repeat split; [constructor | by rewrite app_nil_r].
  destruct (postPerplexity env (patentQuery request) (String c k)) as [|data].
  - eexists _, _. split; [reflexivity|]. split; [constructor|]. by split.
  - destruct (mapM_calm (fromPerplexity request) (patentOf request))
      with (xs := default [] data)
           (w := logCall (Post "perplexity" (patentQuery request)) w)
      as (ps & w2 & Hmap & Hall & Hc2 & Ht2).
    { intros x w0. apply fromPerplexity_patentOf. }
    exists ps, w2. split.
    { unfold tryCatch. rewrite bind_modify. by rewrite Hmap. }
    split; [done|]. unfold sameCache, sameTrace in *. by split.
Qed.

Lemma fromLine_returns indexed w :
  ∃ p w', fromLine indexed w = (Ok p, w')
          ∧ (Patent.abstractText p = indexed.2
             ∧ Patent.impactScore p = 60%Z
             ∧ head (split ":" indexed.2) = Some (Patent.title p)
             ∧ Patent.filingDate p = Absent
             ∧ Patent.sourceUrl p = Absent)
          ∧ calm w w'.
Proof.
  destruct indexed as [index line]. unfold fromLine.
  eexists _, _. split; [reflexivity|]. split; [|done]. cbn.
  repeat split. by destruct line as [|c line]; cbn;
    [|destruct (Ascii.eqb c ":"); [|destruct (split ":" line)]].
Qed.

Lemma imap_keeps_snd {A} (f : nat → A → nat * A) (l : list A) :
  (∀ i x, (f i x).2 = x) →
  Forall2 (λ x (ip : nat * A), ip.2 = x) l (imap f l).
Proof.
  revert f. induction l as [|x l IH]; intros f Hf; cbn; constructor; [done|].
  apply IH. intros i y. apply Hf.
Qed.

(** X9.  When Perplexity yields nothing (no credential, a rejected call or
    an empty answer) and there is no ChatGPT credential, the result is the
    three placeholder patents of score 55; at most the Perplexity call was
    sent and the cache is not touched. *)
Theorem patents_fall_back_to_placeholders request w secrets w1 :
  loadSecrets env w = (Ok secrets, w1) →
  perplexityPatents env (patentQuery request) secrets = [] →
  truthy (chatGptApiKey secrets) = false →
  ∃ ps w',
    generatePatentSummaries env request w = (Ok ps, w')
    ∧ length ps = 3
    ∧ Forall (λ p, Patent.impactScore p = 55%Z
                   ∧ Patent.abstractText p
                     = "Placeholder patent highlight for " +:+ section request
                       +:+ " (" +:+ timePeriod request
                       +:+ "). Configure API keys to replace this data.") ps
    ∧ outbound w'
      = outbound w ++ (if truthy (perplexityApiKey secrets)
                       then [Post "perplexity" (patentQuery request)] else [])
    ∧ contentCache w' = contentCache w.
Proof.
  intros Hsec Hraws Hkey.
  destruct (keeps_run _ _ _ _ _ loadSecrets_calm Hsec) as [Hc1 Ht1].
  destruct (perplexity_step request secrets w1)
    as (items1 & w2 & Hstep & Hall & Ht2 & Hc2).
  rewrite Hraws in Hall. inversion Hall; subst.
  destruct (placeholderPatents_return request w2)
    as (ps & w3 & Hps & Hlen & Hfive & Hc3 & Ht3).
  unfold sameCache, sameTrace in *.
  exists ps, w3. split.
  { unfold generatePatentSummaries. rewrite (bind_ok _ _ _ _ _ Hsec).
    cbv beta zeta. rewrite (bind_ok _ _ _ _ _ Hstep).
    destruct (chatGptApiKey secrets) as [[|c k]|]; try discriminate Hkey;
      cbn [nonEmpty]; rewrite bind_ret; exact Hps. }
  split; [done|]. split; [done|].
  split; [by rewrite Ht3, Ht2, Ht1 | by rewrite Hc3, Hc2, Hc1].
Qed.

(** X8.  When Perplexity yields nothing and ChatGPT resolves with a text
    that has a non-empty line, there is one patent per non-empty line,
    five at most and in order; each has its line as abstract, what
    precedes the first colon as title, score 60, and neither filing date
    nor link. *)
Theorem patents_from_chatgpt_lines request w secrets w1 k text line lines :
  loadSecrets env w = (Ok secrets, w1) →
  perplexityPatents env (patentQuery request) secrets = [] →
  chatGptApiKey secrets = Some k →
  nonEmpty k = true →
  postChatGpt env (patentQuery request) k = Resolves (Some text) →
  patentLines text = line :: lines →
  ∃ ps w',
    generatePatentSummaries env request w = (Ok ps, w')
    ∧ Forall2 (λ l p, Patent.abstractText p = l
                      ∧ Patent.impactScore p = 60%Z
                      ∧ head (split ":" l) = Some (Patent.title p)
                      ∧ Patent.filingDate p = Absent
                      ∧ Patent.sourceUrl p = Absent)
              (line :: lines) ps
    ∧ length ps ≤ 5
    ∧ contentCache w' = contentCache w.
Proof.
  intros Hsec Hraws Hk Hne Hpost Hlines.
  destruct (keeps_run _ _ _ _ _ loadSecrets_calm Hsec) as [Hc1 Ht1].
  destruct (perplexity_step request secrets w1)
    as (items1 & w2 & Hstep & Hall & Ht2 & Hc2).
  rewrite Hraws in Hall. inversion Hall; subst.
  assert (nonEmpty text = true) as Htext.
  { destruct text; [discriminate Hlines | done]. }
  destruct (mapM_calm fromLine
              (λ (ip : nat * string) p,
                 Patent.abstractText p = ip.2
                 ∧ Patent.impactScore p = 60%Z
                 ∧ head (split ":" ip.2) = Some (Patent.title p)
                 ∧ Patent.filingDate p = Absent
                 ∧ Patent.sourceUrl p = Absent))
    with (xs := imap pair (line :: lines))
         (w := logCall (Post "chatgpt" (patentQuery request)) w2)
    as (ps & w3 & Hmap & Hps & Hc3 & Ht3).
  { intros x w0. apply fromLine_returns. }
  assert (Forall2 (λ l p, Patent.abstractText p = l
                      ∧ Patent.impactScore p = 60%Z
                      ∧ head (split ":" l) = Some (Patent.title p)
                      ∧ Patent.filingDate p = Absent
                      ∧ Patent.sourceUrl p = Absent) (line :: lines) ps) as Hres.
  { eapply Forall2_trans;
      [|apply (imap_keeps_snd pair (line :: lines)); done|exact Hps].
    cbn. intros l ip p <- Hp. exact Hp. }
  assert (length ps ≤ 5) as Hlen.
  { rewrite <- (Forall2_length _ _ _ Hres), <- Hlines. unfold patentLines.
    rewrite length_take. lia. }
  unfold sameCache, sameTrace in *. cbn in Hc3.
  destruct ps as [|p ps]; [inversion Hres|].
  exists (p :: ps), w3. split.
  { unfold generatePatentSummaries. rewrite (bind_ok _ _ _ _ _ Hsec).
    cbv beta zeta. rewrite (bind_ok _ _ _ _ _ Hstep). rewrite Hk, Hne.
    rewrite Hpost. cbn [default from_option id].
    rewrite Htext. fold (patentLines text). rewrite Hlines.
    assert ((modify (logCall (Post "chatgpt" (patentQuery request))) ;;;
             mapM fromLine (imap pair (line :: lines))) w2
            = (Ok (p :: ps), w3)) as Hchat
      by (by rewrite bind_modify).
    rewrite (bind_ok _ _ _ _ _ Hchat).
    rewrite (take_ge (p :: ps) 10) by lia. reflexivity. }
  split; [done|]. split; [done|]. by rewrite Hc3, Hc2, Hc1.
Qed.


Lemma bind_assoc {W A B C} (m : M W A) (k1 : A → M W B) (k2 : B → M W C) w :
  bind (bind m k1) k2 w = bind m (λ a, bind (k1 a) k2) w.
Proof. unfold bind. by destruct (m w) as [[a|e] w1]. Qed.

(** Every outcome of [generatePatentSummaries]: between one and ten
    patents, or a failure of the secrets or of the ChatGPT call; the cache
    is not touched. *)
Lemma generatePatentSummaries_cases request w :
  match generatePatentSummaries env request w with
  | (Ok ps, w') => 1 ≤ length ps ≤ 10 ∧ contentCache w' = contentCache w
  | (Throw e, w') =>
      contentCache w' = contentCache w
      ∧ (e = ServiceError "secretsmanager" ∨ e = SyntaxError
         ∨ e = AxiosError "chatgpt")
  end.
Proof.
  unfold generatePatentSummaries.
  destruct (loadSecrets env w) as [[secrets|e] w1] eqn:Hsec.
  2: { rewrite (bind_throw _ _ _ _ _ Hsec).
       destruct (keeps_run _ _ _ _ _ loadSecrets_calm Hsec) as [Hc _].
       split; [done|]. revert Hsec. unfold loadSecrets.
       destruct (patentSecrets w); [discriminate|].
       destruct (nonEmpty (secretArn env)); [|discriminate].
       destruct (getSecretValue env) as [| |[b|]]; intros [= <- _]; auto. }
  destruct (keeps_run _ _ _ _ _ loadSecrets_calm Hsec) as [Hc1 _].
  rewrite (bind_ok _ _ _ _ _ Hsec). cbv beta zeta.
  destruct (perplexity_step request secrets w1)
    as (items1 & w2 & Hstep & _ & _ & Hc2).
  rewrite (bind_ok _ _ _ _ _ Hstep).
  unfold sameCache in *.
  assert (∀ w3, contentCache w3 = contentCache w →
            match mapM (placeholderPatent env request) (seq 0 3) w3 with
            | (Ok ps, w') =>
                1 ≤ length ps ≤ 10 ∧ contentCache w' = contentCache w
            | (Throw e, w') =>
                contentCache w' = contentCache w
                ∧ (e = ServiceError "secretsmanager" ∨ e = SyntaxError
                   ∨ e = AxiosError "chatgpt")
            end) as Hplace.
  { intros w3 Hc3. destruct (placeholderPatents_return request w3)
      as (ps & w4 & -> & Hlen & _ & Hc4 & _).
    unfold sameCache in Hc4. split; [lia | by rewrite Hc4]. }
  destruct items1 as [|p items1].
  2: { rewrite bind_ret. cbn [snd fst]. split; [|by rewrite Hc2].
       rewrite length_take. cbn [length]. lia. }
  destruct (chatGptApiKey secrets) as [k|].
  2: { rewrite bind_ret. apply Hplace. by rewrite Hc2. }
  destruct (nonEmpty k).
  2: { rewrite bind_ret. apply Hplace. by rewrite Hc2. }
  rewrite bind_assoc, bind_modify.
  destruct (postChatGpt env (patentQuery request) k) as [|data].
  { cbn. split; [by rewrite Hc2 | auto]. }
  destruct (nonEmpty (default "" data)).
  2: { rewrite bind_ret. apply Hplace. cbn. by rewrite Hc2. }
  destruct (mapM_calm fromLine (λ _ _, True))
    with (xs := imap pair
                  (take 5 (List.filter nonEmpty (split "010" (default "" data)))))
         (w := logCall (Post "chatgpt" (patentQuery request)) w2)
    as (ps & w3 & Hmap & Hall & Hc3 & _).
  { intros x w0. destruct (fromLine_returns x w0) as (y & w' & ? & _ & ?).
    by exists y, w'. }
  rewrite (bind_ok _ _ _ _ _ Hmap). unfold sameCache in Hc3. cbn in Hc3.
  destruct ps as [|p ps].
  - apply Hplace. by rewrite Hc3, Hc2.
  - cbn [ret fst snd]. split; [|by rewrite Hc3, Hc2].
    rewrite length_take. cbn [length]. lia.
Qed.

(** X11.  The impact average stored for a non-empty list of patents lies
    between the smallest and the largest impact score of the list. *)
Theorem impactAverage_within_scores (ps : list Patent.PatentSummary)
    (lo hi : Z) :
  ps ≠ [] →
  Forall (λ p, (lo ≤ Patent.impactScore p ≤ hi)%Z) ps →
  (lo ≤ impactAverage ps ≤ hi)%Z.
Proof.
  intros Hne Hall. rewrite (impactAverage_rounds_mean ps Hne).
  set (xs := Patent.impactScore <$> ps).
  assert (Forall (λ x, (lo ≤ x ≤ hi)%Z) xs) as Hxs by (by apply Forall_fmap).
  assert (xs ≠ []) as Hxne by (subst xs; by destruct ps).
  clearbody xs. clear Hall Hne ps.
  assert ((lo * Z.of_nat (length xs) ≤ foldr Z.add 0 xs
           ≤ hi * Z.of_nat (length xs))%Z) as Hsum.
  { clear Hxne. induction Hxs as [|x xs Hx _ IH]; [cbn; lia|].
    cbn [foldr length]. lia. }
  assert ((0 < Z.of_nat (length xs))%Z) as Hpos
    by (destruct xs; [done | cbn [length]; lia]).
  assert ((inject_Z lo <= mean xs)%Q ∧ (mean xs <= inject_Z hi)%Q) as [Hlo Hhi].
  { unfold mean. split.
    - apply Qle_shift_div_l.
      + rewrite <- (Zlt_Qlt 0). exact Hpos.
      + rewrite <- inject_Z_mult, <- Zle_Qle. lia.
    - apply Qle_shift_div_r.
      + rewrite <- (Zlt_Qlt 0). exact Hpos.
      + rewrite <- inject_Z_mult, <- Zle_Qle. lia. }
  destruct (Math_round_nearest (mean xs)) as [Hdown Hup].
  assert ((inject_Z lo - (1 # 2) < inject_Z (Math_round (mean xs)))%Q) as H1
    by lra.
  assert ((inject_Z (Math_round (mean xs)) <= inject_Z hi + (1 # 2))%Q) as H2
    by lra.
  revert H1 H2. generalize (Math_round (mean xs)). intros r H1 H2.
  unfold Qlt, Qle, Qminus, Qplus, Qopp, inject_Z in H1, H2. cbn in H1, H2.
  lia.
Qed.


(** X12.  A patent aggregation that produced a list and whose cache write
    goes through (the document client marshals the list, no summary
    holding an undefined filing date or link, and the table accepts the
    update) answers with that list (as an HTTP 200 behind API Gateway, as
    the bare response for the state machine) and leaves under
    section#period exactly the list, its rounded mean, the timestamp and a
    time to live of one day; the news fields of the record and all other
    records are unchanged. *)
Theorem patents_success_is_persisted event request ps w w1 :
  normalizeRequest event w = (Ok request, w) →
  generatePatentSummaries env request w = (Ok ps, w1) →
  forallb Patent.marshals ps = true →
  updateSucceeds env = true →
  ∃ w',
    handler env event w
    = (Ok (match event with
           | FromApiGateway _ =>
               inl {| statusCode := 200;
                      body := Payload (respond env request ps) |}
           | FromStateMachine _ _ _ => inr (respond env request ps)
           end), w')
    ∧ patents (respond env request ps) = ps
    ∧ contentCache w' !! patentKey request
      = Some {| newsArray := (contentCache w !! patentKey request) ≫= newsArray;
                patentsArray := Some ps;
                verifiedAt := Some (nowIso env);
                expiresAt := Some (nowSeconds env + 86400)%Z;
                verificationScore :=
                  (contentCache w !! patentKey request) ≫= verificationScore;
                patentImpactAverage := Some (impactAverage ps) |}
    ∧ ∀ k, k ≠ patentKey request → contentCache w' !! k = contentCache w !! k.
Proof.
  intros Hnorm Hgen Hm Hupd.
  pose proof (generatePatentSummaries_cases request w) as Hout. rewrite Hgen in Hout.
  destruct Hout as [_ Hc1].
  pose proof (upsertCache_writes env request ps w1 Hm Hupd) as Hwrite.
  set (w2 := setCache _ w1) in Hwrite.
  exists w2. split.
  { destruct event as [e|s t m]; unfold handler.
    - assert (handleApi env (FromApiGateway e) w
              = (Ok {| statusCode := 200;
                       body := Payload (respond env request ps) |}, w2)) as Hapi.
      { unfold handleApi, tryCatch. rewrite (bind_ok _ _ _ _ _ Hnorm).
        rewrite (bind_ok _ _ _ _ _ Hgen).
        by rewrite (bind_ok _ _ _ _ _ Hwrite). }
      by rewrite (bind_ok _ _ _ _ _ Hapi).
    - rewrite (bind_ok _ _ _ _ _ Hnorm), (bind_ok _ _ _ _ _ Hgen).
      by rewrite (bind_ok _ _ _ _ _ Hwrite). }
  subst w2. cbn [contentCache setCache]. split; [done|]. split.
  - by rewrite setPatents_lookup, Hc1.
  - intros k Hk. unfold setPatents. cbv zeta.
    rewrite lookup_insert_ne; [by rewrite Hc1 | congruence].
Qed.

(** X13.  When the patent cache write fails the table keeps its content; a
    caller behind API Gateway gets 500 with the generic message, while the
    state machine gets the exception. *)
Theorem patents_write_failure_changes_nothing event request ps w w1 :
  normalizeRequest event w = (Ok request, w) →
  generatePatentSummaries env request w = (Ok ps, w1) →
  updateSucceeds env = false →
  ∃ w',
    handler env event w
    = (match event with
       | FromApiGateway _ =>
           Ok (inl {| statusCode := 500;
                      body := Message "Unable to aggregate patent insights" |})
       | FromStateMachine _ _ _ => Throw (ServiceError "dynamodb")
       end, w')
    ∧ contentCache w' = contentCache w.
Proof.
  intros Hnorm Hgen Hupd.
  pose proof (generatePatentSummaries_cases request w) as Hout. rewrite Hgen in Hout.
  destruct Hout as [_ Hc1].
  assert (upsertCache env request ps w1
          = (Throw (ServiceError "dynamodb"), w1)) as Hwrite
    by (unfold upsertCache; by rewrite Hupd, andb_false_r).
  exists w1. split; [|done].
  destruct event as [e|s t m]; unfold handler.
  - assert (handleApi env (FromApiGateway e) w
            = (Ok {| statusCode := 500;
                     body := Message "Unable to aggregate patent insights" |},
               w1)) as Hapi.
    { unfold handleApi, tryCatch. rewrite (bind_ok _ _ _ _ _ Hnorm).
      rewrite (bind_ok _ _ _ _ _ Hgen).
      by rewrite (bind_throw _ _ _ _ _ Hwrite). }
    by rewrite (bind_ok _ _ _ _ _ Hapi).
  - rewrite (bind_ok _ _ _ _ _ Hnorm), (bind_ok _ _ _ _ _ Hgen).
    by rewrite (bind_throw _ _ _ _ _ Hwrite).
Qed.

Lemma normalizeRequest_pure event w : (normalizeRequest event w).2 = w.
Proof.
  destruct event as [e|s t m]; [|done].
  unfold normalizeRequest. by destruct (apiBody e) as [[| |]|].
Qed.

(** X10.  A caller behind API Gateway always gets an answer from the
    patent Lambda, never an exception: 200 with between one and ten
    patents, or 500 with the generic message, and in the second case the
    cache table is as it was. *)
Theorem patents_api_always_answers e w :
  ∃ a w',
    handler env (FromApiGateway e) w = (Ok (inl a), w')
    ∧ ((statusCode a = 200%Z
        ∧ ∃ resp, body a = Payload resp ∧ 1 ≤ length (patents resp) ≤ 10)
       ∨ (a = {| statusCode := 500;
                 body := Message "Unable to aggregate patent insights" |}
          ∧ contentCache w' = contentCache w)).
Proof.
  assert (∃ a w',
            handleApi env (FromApiGateway e) w = (Ok a, w')
            ∧ ((statusCode a = 200%Z
                ∧ ∃ resp, body a = Payload resp
                          ∧ 1 ≤ length (patents resp) ≤ 10)
               ∨ (a = {| statusCode := 500;
                         body := Message "Unable to aggregate patent insights" |}
                  ∧ contentCache w' = contentCache w))) as (a & w' & Hrun & H).
  { unfold handleApi, tryCatch.
    destruct (normalizeRequest (FromApiGateway e) w) as [[request|ex] w0]
      eqn:Hnorm.
    2: { rewrite (bind_throw _ _ _ _ _ Hnorm). eexists _, _.
         split; [reflexivity|]. right. split; [done|].
         pose proof (normalizeRequest_pure (FromApiGateway e) w) as Hp.
         rewrite Hnorm in Hp. cbn in Hp. by subst. }
    assert (w0 = w) as ->.
    { pose proof (normalizeRequest_pure (FromApiGateway e) w) as Hp.
      by rewrite Hnorm in Hp. }
    rewrite (bind_ok _ _ _ _ _ Hnorm).
    pose proof (generatePatentSummaries_cases request w) as Hgen.
    destruct (generatePatentSummaries env request w) as [[ps|ex] w1] eqn:Hg.
    2: { rewrite (bind_throw _ _ _ _ _ Hg). eexists _, _.
         split; [reflexivity|]. right. by destruct Hgen. }
    rewrite (bind_ok _ _ _ _ _ Hg). destruct Hgen as [Hlen Hc].
    unfold upsertCache.
    destruct (forallb Patent.marshals ps && updateSucceeds env).
    - rewrite bind_modify. eexists _, _. split; [reflexivity|]. left.
      split; [done|]. by eexists.
    - eexists _, _. split; [reflexivity|]. right. by split. }
  exists a, w'. split; [|done]. unfold handler.
  by rewrite (bind_ok _ _ _ _ _ Hrun).
Qed.

End PatentEffects.


(** ** relatedContent: further properties *)

Section RelatedMore.
Import Js RelatedContent.

Lemma find_none {A} (f : A → bool) (l : list A) :
  Forall (λ x, f x = false) l → List.find f l = None.
Proof. induction 1 as [|x l Hx _ IH]; [done|]. cbn. by rewrite Hx. Qed.

Lemma find_first {A} (f : A → bool) (l1 l2 : list A) (x : A) :
  Forall (λ y, f y = false) l1 → f x = true →
  List.find f (l1 ++ x :: l2) = Some x.
Proof.
  intros H Hx. induction H as [|y l Hy _ IH]; cbn.
  - by rewrite Hx.
  - by rewrite Hy.
Qed.

Lemma heights_bounded (rs : list RelatedItem) (n : nat) :
  Forall (λ r, height r ≤ n) rs → foldr Nat.max 0 (List.map height rs) ≤ n.
Proof. induction 1 as [|r rs Hr _ IH]; cbn [foldr List.map]; lia. Qed.

Lemma expand_children_height (cs : list JsItem) (depth : Num) :
  Forall (λ item, ∀ d w, ∃ r w',
            expandRelated item d w = (Ok r, w')
            ∧ 1 ≤ height r ≤ levels d) cs →
  ∀ w, ∃ rs w',
    mapM (λ child, expandRelated child depth) cs w = (Ok rs, w')
    ∧ Forall (λ r, height r ≤ levels depth) rs.
Proof.
  induction 1 as [|c cs Hc _ IH]; intros w.
  - by exists [], w.
  - destruct (Hc depth w) as (r & w1 & Hr & Hh).
    destruct (IH w1) as (rs & w2 & Hrs & Hhs).
    exists (r :: rs), w2. split.
    + cbn [mapM]. rewrite (bind_ok _ _ _ _ _ Hr).
      by rewrite (bind_ok _ _ _ _ _ Hrs).
    + constructor; [lia | done].
Qed.

Lemma levels_pred (depth : Num) :
  gt depth 1 = true → S (levels (pred depth)) = levels depth.
Proof.
  destruct depth as [|z]; [done|]. cbn [gt pred levels].
  intros H%Z.ltb_lt. lia.
Qed.

Lemma levels_pos (depth : Num) : 1 ≤ levels depth.
Proof. destruct depth as [|z]; cbn [levels]; lia. Qed.

Lemma expandRelated_height (item : JsItem) :
  ∀ depth w, ∃ r w',
    expandRelated item depth w = (Ok r, w') ∧ 1 ≤ height r ≤ levels depth.
Proof.
  induction item as [a b c d e f g h rel IH] using JsItem_induction.
  intros depth w. rewrite expandRelated_unfold.
  assert (∀ w1, ∃ i w2,
            (match a with Some i => ret i | None => uuid end) w1 = (Ok i, w2))
    as Hid by (intros w1; destruct a; eexists _, _; reflexivity).
  assert (∃ rs w1,
            (match rel with
             | Some children =>
                 mapM (λ child, expandRelated child (pred depth))
                      (take 3 children)
             | None => ret []
             end) w = (Ok rs, w1)
            ∧ Forall (λ r, height r ≤ levels (pred depth)) rs)
    as (rs & w1 & Hrs & Hh).
  { destruct rel as [children|]; [|by exists [], w].
    apply expand_children_height. by apply Forall_take. }
  rewrite (bind_ok _ _ _ _ _ Hrs).
  destruct (Hid w1) as (i & w2 & Hi). rewrite (bind_ok _ _ _ _ _ Hi).
  eexists _, _. split; [reflexivity|].
  destruct (gt depth 1) eqn:Hgt; cbn [height].
  - pose proof (heights_bounded _ _ Hh). pose proof (levels_pred _ Hgt). lia.
  - pose proof (levels_pos depth). lia.
Qed.

(** An expansion yields the stored id when there is one and, field by
    field, the first present of the stored alternatives. *)
Lemma expandRelated_fields (item : JsItem) depth w :
  ∃ r w',
    expandRelated item depth w = (Ok r, w')
    ∧ (∀ i, j_id item = Some i → id r = i)
    ∧ title r = default "Related technology development" (j_title item)
    ∧ summary r
      = default "AI generated related insight awaiting full orchestration."
          (orElse (j_summary item) (j_content item))
    ∧ sourceUrl r
      = orElse (j_sourceUrl item) (orElse (j_source_url item) (j_url item))
    ∧ verificationScore r
      = match j_verificationScore item with
        | Some v => Math_round v
        | None => 60%Z
        end.
Proof.
  destruct (expandRelated_height item depth w) as (r & w' & Hr & _).
  exists r, w'. split; [done|].
  destruct item as [a b c d e f g h rel]. rewrite expandRelated_unfold in Hr.
  destruct (match rel with
            | Some children =>
                mapM (λ child, expandRelated child (pred depth))
                     (take 3 children)
            | None => ret []
            end w) as [[rs|ex] w1] eqn:Hrs.
  2: { by rewrite (bind_throw _ _ _ _ _ Hrs) in Hr. }
  rewrite (bind_ok _ _ _ _ _ Hrs) in Hr.
  destruct a as [i|]; cbn in Hr; injection Hr as <- _; cbn;
    repeat split; try done; by intros ? [= <-].
Qed.

Variable env : Env.

(** X14.  An expansion to depth z has between one and max(1, z) levels,
    and whatever the stored items and the depth asked for, a deep dive
    that is answered has between one and five levels; the handler fails
    only when the cache read fails. *)
Theorem related_tree_has_at_most_five_levels :
  (∀ item z w, ∃ r w',
      expandRelated item (Int z) w = (Ok r, w')
      ∧ 1 ≤ height r ≤ Z.to_nat (Z.max 1 z))
  ∧ (∀ event w,
       match handler env event w with
       | (Ok answer, _) =>
           ∃ resp, body answer = Payload resp ∧ 1 ≤ height (item resp) ≤ 5
       | (Throw e, w') => e = ServiceError "dynamodb" ∧ w' = w
       end).
Proof.
  split.
  - intros item z w. apply (expandRelated_height item (Int z) w).
  - intros event w. unfold handler, serve.
    destruct (fetchCached env (section (parseRequest event))
                (period (parseRequest event)) w) as [[cached|e] w1] eqn:Hf.
    2: { rewrite (bind_throw _ _ _ _ _ Hf). revert Hf. unfold fetchCached.
         destruct (nonEmpty (tableName env)); [|discriminate].
         destruct (getItem env _); [|discriminate].
         unfold throw. by intros [= <- <-]. }
    rewrite (bind_ok _ _ _ _ _ Hf).
    destruct (buildPlaceholder (unicode env) (section (parseRequest event))
                (period (parseRequest event)) (itemId (parseRequest event)) w1)
      as [[fb|e] w2] eqn:Hb.
    2: { exfalso. revert Hb. unfold buildPlaceholder. cbn. discriminate. }
    rewrite (bind_ok _ _ _ _ _ Hb). cbv zeta.
    match goal with |- context [expandRelated ?t ?d] =>
      destruct (expandRelated_height t d w2) as (r & w3 & Hr & Hh);
      assert (levels d ≤ 5) as Hd end.
    { destruct (depth (parseRequest event)) as [[|z]|];
        cbn [default from_option Datatypes.id Math_min levels]; lia. }
    rewrite (bind_ok _ _ _ _ _ Hr). cbn. eexists. split; [done|]. cbn. lia.
Qed.

(** X15.  When the cache table is not configured, or the stored record has
    no item whose id is the requested one or whose title mentions it, the
    answer is the placeholder deep dive: it carries the requested id, the
    title [Deep dive for SECTION (period)] and score 60 and, at a depth
    above one, exactly two children of score 55 without children of their
    own. *)
Theorem related_falls_back_to_placeholder request w :
  let d := Math_min (default (Int 3) (depth request)) 5 in
  (nonEmpty (tableName env) = false
   ∨ nonEmpty (tableName env) = true
     ∧ ∃ stored,
         getItem env (section request +:+ "#" +:+ period request)
         = GetItem stored
         ∧ Forall (λ it, j_id it ≠ Some (itemId request)
                         ∧ mentions (unicode env) (itemId request) it = false)
             (default [] (mjoin stored))) →
  ∃ resp w',
    serve env request w
    = (Ok {| statusCode := 200; body := Payload resp |}, w')
    ∧ res_section resp = section request
    ∧ res_period resp = period request
    ∧ id (item resp) = itemId request
    ∧ title (item resp)
      = "Deep dive for " +:+ toUpperCase (unicode env) (section request)
        +:+ " (" +:+ period request +:+ ")"
    ∧ verificationScore (item resp) = 60%Z
    ∧ match related (item resp) with
      | Some children =>
          gt d 1 = true
          ∧ length children = 2
          ∧ Forall (λ c, verificationScore c = 55%Z
                         ∧ default [] (related c) = []) children
      | None => gt d 1 = false
      end.
Proof.
  intros d Hmiss.
  assert (∃ stored,
            fetchCached env (section request) (period request) w
            = (Ok stored, w)
            ∧ Forall (λ it, j_id it ≠ Some (itemId request)
                            ∧ mentions (unicode env) (itemId request) it = false)
                (default [] (mjoin stored))) as (stored & Hf & Hnone).
  { unfold fetchCached.
    destruct Hmiss as [-> | (-> & stored & -> & Hnone)].
    - exists None. by split.
    - by exists stored. }
  unfold serve. rewrite (bind_ok _ _ _ _ _ Hf).
  assert (∀ fb, pickTarget env (default [] (mjoin stored)) (itemId request) fb
                = asAny fb) as Hpick.
  { intros fb. unfold pickTarget. rewrite !find_none; [done| |].
    - eapply Forall_impl; [exact Hnone|]. intros it [_ Hm]. exact Hm.
    - eapply Forall_impl; [exact Hnone|]. intros it [Hi _].
      by apply bool_decide_eq_false. }
  unfold buildPlaceholder, placeholderChild.
  cbn [mapM seq]. unfold bind at 1. cbn -[pickTarget expandRelated].
  rewrite Hpick. cbn [asAny List.map]. rewrite expandRelated_unfold.
  cbn [take mapM]. rewrite !expandRelated_unfold.
  unfold bind, ret. cbn. fold d.
  eexists _, _. split; [reflexivity|]. cbn.
  repeat (split; [done|]).
  destruct (gt d 1); [|done].
  split; [done|]. split; [done|].
  repeat constructor; cbn; by destruct (gt (pred d) 1).
Qed.

(** X16.  The first stored item whose id is the requested one is the one
    served, even when an item before it mentions the requested id in its
    title: the answer carries that id and the item's title, summary, link
    and rounded score. *)
Theorem related_prefers_the_identifier request before c after w :
  nonEmpty (tableName env) = true →
  getItem env (section request +:+ "#" +:+ period request)
  = GetItem (Some (Some (before ++ c :: after))) →
  Forall (λ it, j_id it ≠ Some (itemId request)) before →
  j_id c = Some (itemId request) →
  ∃ resp w',
    serve env request w
    = (Ok {| statusCode := 200; body := Payload resp |}, w')
    ∧ id (item resp) = itemId request
    ∧ title (item resp)
      = default "Related technology development" (j_title c)
    ∧ summary (item resp)
      = default "AI generated related insight awaiting full orchestration."
          (orElse (j_summary c) (j_content c))
    ∧ sourceUrl (item resp)
      = orElse (j_sourceUrl c) (orElse (j_source_url c) (j_url c))
    ∧ verificationScore (item resp)
      = match j_verificationScore c with
        | Some v => Math_round v
        | None => 60%Z
        end.
Proof.
  intros Htab Hget Hbefore Hc.
  assert (fetchCached env (section request) (period request) w
          = (Ok (Some (Some (before ++ c :: after))), w)) as Hf
    by (unfold fetchCached; by rewrite Htab, Hget).
  unfold serve. rewrite (bind_ok _ _ _ _ _ Hf).
  destruct (buildPlaceholder (unicode env) (section request) (period request)
              (itemId request) w) as [[fb|e] w2] eqn:Hb.
  2: { exfalso. revert Hb. unfold buildPlaceholder. cbn. discriminate. }
  rewrite (bind_ok _ _ _ _ _ Hb). cbv zeta.
  assert (pickTarget env
            (default [] (mjoin (Some (Some (before ++ c :: after)))))
            (itemId request) fb = c) as ->.
  { unfold pickTarget. cbn [mjoin option_join default from_option Datatypes.id].
    rewrite (find_first _ before after c); [done| |].
    - eapply Forall_impl; [exact Hbefore|]. intros it Hi.
      by apply bool_decide_eq_false.
    - by apply bool_decide_eq_true. }
  destruct (expandRelated_fields c
              (Math_min (default (Int 3) (depth request)) 5) w2)
    as (r & w3 & Hr & Hi & Ht & Hs & Hu & Hv).
  rewrite (bind_ok _ _ _ _ _ Hr).
  eexists _, _. split; [reflexivity|]. cbn.
  split; [by apply Hi|]. done.
Qed.

End RelatedMore.


(** ** dailyRefresh: further properties *)

Section Refresh.
Import Js DailyRefresh.
Variable env : Env.

Lemma pushAll_ids payload targets w :
  connectionId <$> pushes (pushAll env payload targets w).2
  = (connectionId <$> pushes w) ++ targets.
Proof.
  cbn. rewrite fmap_app. f_equal.
  induction targets as [|c cs IH]; [done|]. cbn. f_equal. exact IH.
Qed.

(** X17.  Every outcome of the scanning dailyRefresh: 500 and nothing done
    when the state machine is not configured; 202 once the execution has
    been started with the requested or the default sections and periods;
    or an exception, either before anything has happened (the start is
    refused) or, when the sessions scan fails, after the execution has
    started. Nobody is notified when it throws. *)
Theorem refresh_outcomes event w :
  let detail := default noDetail event in
  let started :=
    executions w
    ++ [{| ex_sections := default defaultSections (sections detail);
           ex_timePeriods := default defaultPeriods (timePeriods detail);
           triggeredAt := nowIso env |}] in
  match handler env event w with
  | (Ok a, w') =>
      (a = {| answerStatus := 500;
              answerBody := "Missing state machine configuration" |}
       ∧ w' = w ∧ nonEmpty (stateMachineArn env) = false)
      ∨ (a = {| answerStatus := 202; answerBody := "Refresh started" |}
         ∧ executions w' = started)
  | (Throw e, w') =>
      pushes w' = pushes w
      ∧ ((e = ServiceError "states" ∧ w' = w)
         ∨ (e = ServiceError "dynamodb" ∧ executions w' = started
            ∧ connections detail = None ∧ scan env = ScanFails))
  end.
Proof.
  cbv zeta. unfold handler, startExecution.
  destruct (nonEmpty (stateMachineArn env)); [|left; by repeat split].
  destruct (startSucceeds env); [|by split; [|left]].
  rewrite bind_modify.
  destruct (connections (default noDetail event)) as [cs|] eqn:Hcs.
  - rewrite bind_ret.
    destruct (nonEmpty (websocketEndpoint env)), cs; by right.
  - unfold listActiveConnections.
    destruct (nonEmpty (websocketTableName env)).
    + destruct (scan env) as [|its lastKey] eqn:Hscan.
      * cbn. split; [done|]. right. by repeat split.
      * rewrite bind_ret.
        match goal with |- context [omap ?f ?l] => destruct (omap f l) end;
          destruct (nonEmpty (websocketEndpoint env)); by right.
    + rewrite bind_ret. destruct (nonEmpty (websocketEndpoint env)); by right.
Qed.

(** X18.  When the trigger names its connections, the two versions of
    dailyRefresh behave alike, the sessions table plays no part, and with
    everything configured the answer is 202 and the notice goes to exactly
    the named connections, in order. *)
Theorem refresh_with_listed_connections detail cs table answer w :
  connections detail = Some cs →
  let env' := {| stateMachineArn := stateMachineArn env;
                 websocketEndpoint := websocketEndpoint env;
                 websocketTableName := table;
                 startSucceeds := startSucceeds env;
                 scan := answer;
                 postToConnection := postToConnection env;
                 nowIso := nowIso env |} in
  handler env (Some detail) w = handlerListed env (Some detail) w
  ∧ handler env' (Some detail) w = handler env (Some detail) w
  ∧ (nonEmpty (stateMachineArn env) = true →
     startSucceeds env = true →
     nonEmpty (websocketEndpoint env) = true →
     (handler env (Some detail) w).1
     = Ok {| answerStatus := 202; answerBody := "Refresh started" |}
     ∧ connectionId <$> pushes (handler env (Some detail) w).2
       = (connectionId <$> pushes w) ++ cs).
Proof.
  intros Hcs env'. split; [|split].
  - unfold handler, handlerListed, startExecution.
    cbn [default from_option Datatypes.id]. rewrite Hcs.
    destruct (nonEmpty (stateMachineArn env)); [|done].
    destruct (startSucceeds env); [|done].
    rewrite !bind_modify, bind_ret.
    destruct (nonEmpty (websocketEndpoint env)); [|done].
    destruct cs as [|c cs]; [|done].
    cbn. by rewrite app_nil_r.
  - unfold handler, startExecution.
    cbn [default from_option Datatypes.id]. rewrite Hcs.
    by cbn [stateMachineArn websocketEndpoint startSucceeds postToConnection
              nowIso env'].
  - intros Harn Hstart Hws. unfold handler, startExecution.
    cbn [default from_option Datatypes.id]. rewrite Hcs, Harn, Hstart, Hws.
    rewrite bind_modify, bind_ret.
    destruct cs as [|c cs]; [split; [done|]; cbn; by rewrite app_nil_r|].
    split; [done|].
    match goal with |- context [pushAll env ?p ?t] =>
      pose proof (pushAll_ids p t) as Hids end.
    unfold bind. cbn -[pushAll]. unfold bind.
    match goal with |- context [pushAll env ?p ?t ?w0] =>
      specialize (Hids w0); destruct (pushAll env p t w0) as [[[]|] w1] eqn:Hp
    end; cbn in *; exact Hids.
Qed.

(** X19.  On a trigger without a connection list the scanning
    dailyRefresh, fully configured, pushes the notice exactly once to
    every connection stored in the sessions table, in the order of the
    scan, and to nobody else, provided its one scan answers with the whole
    table: a page of the table without a key to resume from. *)
Theorem refresh_notifies_each_session_once
    (t : gmap string WebsocketManager.Session) (ids : list string) event w :
  connections (default noDetail event) = None →
  nonEmpty (stateMachineArn env) = true →
  nonEmpty (websocketEndpoint env) = true →
  nonEmpty (websocketTableName env) = true →
  startSucceeds env = true →
  scan env = ScanItems (Some (Some <$> ids)) None →
  pageOf t ids None →
  ∃ w' sent,
    handler env event w
    = (Ok {| answerStatus := 202; answerBody := "Refresh started" |}, w')
    ∧ pushes w' = pushes w ++ sent
    ∧ connectionId <$> sent = ids
    ∧ NoDup (connectionId <$> sent)
    ∧ ∀ c, c ∈ connectionId <$> sent ↔ is_Some (t !! c).
Proof.
  intros Hnone Harn Hws Htab Hstart Hscan (Hnodup & Hin & Hall).
  destruct (scanning_handler_notifies_page env event ids None w
              Hnone Harn Hws Htab Hstart Hscan)
    as (w' & sent & Hrun & Hpushes & Hsent).
  { apply Forall_forall. intros i Hi. by destruct (Hin i Hi). }
  exists w', sent. rewrite Hsent. split; [done|]. split; [done|].
  split; [done|]. split; [done|]. intros c. split.
  - intros Hc. by destruct (Hin c Hc).
  - by apply Hall.
Qed.

End Refresh.

(** ** websocketManager *)

Section Sockets.
Import Js WebsocketManager.
Variable env : Env.

(** X20.  Whatever the event type and whether the DynamoDB write goes
    through or not, websocketManager leaves the session records of all
    connections other than the event's own as they are. *)
Theorem socket_events_touch_one_record event c r :
  connectionId event = Some c →
  ∀ k, k ≠ c →
    sessions (handler env event r).2 !! k = sessions r !! k.
Proof.
  intros Hc k Hk.
  assert (∀ f (a : Answer) r,
            (∀ t, f t !! k = t !! k) →
            sessions (bind (send env f) (λ _, ret a) r).2 !! k
            = sessions r !! k) as Hsend.
  { intros f a r0 Hf. unfold send. destruct (writeSucceeds env); [|done].
    rewrite bind_modify. cbn. apply Hf. }
  assert (sessions (handleMessage env event r).2 !! k = sessions r !! k)
    as Hmsg.
  { unfold handleMessage. rewrite Hc.
    destruct (nonEmpty (tableName env)); [|done].
    by destruct (truthy (Some c)). }
  unfold handler.
  destruct (eventType event) as [ty|]; [|exact Hmsg].
  destruct (decide (ty = "CONNECT")) as [->|Hn1].
  { unfold handleConnect. rewrite Hc.
    destruct (nonEmpty (tableName env)); [|done].
    rewrite bind_ret.
    destruct (querySessionId event) as [s|].
    - rewrite bind_ret. apply Hsend. intros t.
      apply lookup_insert_ne. congruence.
    - unfold bind at 1. unfold randomUUID at 1. cbv beta iota.
      rewrite Hsend; [done|]. intros t. apply lookup_insert_ne. congruence. }
  destruct (decide (ty = "DISCONNECT")) as [->|Hn2].
  { unfold handleDisconnect. rewrite Hc.
    destruct (nonEmpty (tableName env)); [|done].
    destruct (truthy (Some c)); [|done].
    apply Hsend. intros t. cbn. apply lookup_delete_ne. congruence. }
  replace (match ty with
           | "CONNECT" => handleConnect env event
           | "DISCONNECT" => handleDisconnect env event
           | _ => handleMessage env event
           end) with (handleMessage env event); [exact Hmsg|].
  clear -Hn1 Hn2.
  repeat (destruct ty as [|[[] [] [] [] [] [] [] []] ty]; try reflexivity);
    congruence.
Qed.

(** X21.  A CONNECT stores under the connection id the session id (the one
    of the query string, a fresh one otherwise), the time and a time to
    live of one day, and answers with the two ids; a following DISCONNECT
    of the same connection deletes that record, so the table is the
    earlier one without that connection. *)
Theorem connect_then_disconnect opening closing c r :
  nonEmpty (tableName env) = true →
  writeSucceeds env = true →
  eventType opening = Some "CONNECT" →
  eventType closing = Some "DISCONNECT" →
  connectionId opening = Some c →
  connectionId closing = Some c →
  nonEmpty c = true →
  ∃ s r1 r2,
    handler env opening r
    = (Ok {| answerStatus := 200; answerBody := Registered c s |}, r1)
    ∧ s = default (seed r (drawn r)) (querySessionId opening)
    ∧ sessions r1 !! c
      = Some {| sessionId := Some s;
                ttl := Some (nowSeconds env + 86400)%Z;
                connectedAt := Some (nowIso env);
                lastSeen := None |}
    ∧ handler env closing r1
      = (Ok {| answerStatus := 200; answerBody := Text "disconnected" |}, r2)
    ∧ sessions r2 = delete c (sessions r).
Proof.
  intros Htab Hw Hopen Hclose Hc Hc' Hne.
  unfold handler. rewrite Hopen, Hclose.
  unfold handleConnect, handleDisconnect, send. rewrite Htab, Hw, Hc, Hc'.
  assert (truthy (Some c) = true) as -> by (by destruct c).
  rewrite bind_ret.
  destruct (querySessionId opening) as [s|].
  - rewrite bind_ret, !bind_modify.
    eexists _, _, _. split; [reflexivity|]. split; [done|].
    cbn [sessions setSessions]. split; [by rewrite lookup_insert_eq|].
    split; [reflexivity|].
    cbn [sessions setSessions default from_option Datatypes.id].
    apply delete_insert_eq.
  - unfold bind at 1. unfold randomUUID at 1. cbv beta iota.
    rewrite !bind_modify.
    eexists _, _, _. split; [reflexivity|]. split; [done|].
    cbn [sessions setSessions]. split; [by rewrite lookup_insert_eq|].
    split; [reflexivity|].
    cbn [sessions setSessions default from_option Datatypes.id].
    apply delete_insert_eq.
Qed.

End Sockets.

(** ** searchHandler *)

Section SearchMore.
Import Js JsMore Search.
Variable env : Env.

Global Instance quietly_preorder : PreOrder quietly.
Proof.
  split.
  - by intros p.
  - intros p1 p2 p3 [H1 H1'] [H2 H2']. split; congruence.
Qed.

Lemma formatOne_returns confidence item p :
  ∃ r p',
    formatOne confidence item p = (Ok r, p')
    ∧ quietly p p'
    ∧ verificationScore r
      = Math_round (times (orNumber (b64 confidence) 0.5%Q) 100).
Proof.
  unfold formatOne. destruct (h_id item) as [i|].
  - rewrite bind_ret. by eexists _, _.
  - unfold bind, draw. cbn. by eexists _, _.
Qed.

Lemma formatResults_returns raw confidence limit p :
  ∃ rs p',
    formatResults raw confidence limit p = (Ok rs, p')
    ∧ quietly p p'
    ∧ length rs = length (slice0 limit raw)
    ∧ Forall (λ r, verificationScore r
                   = Math_round (times (orNumber (b64 confidence) 0.5%Q) 100))
             rs.
Proof.
  unfold formatResults. generalize (slice0 limit raw). intros l. revert p.
  induction l as [|x l IH]; intros p.
  - by exists [], p.
  - destruct (formatOne_returns confidence x p) as (r & p1 & Hr & Hq1 & Hs).
    destruct (IH p1) as (rs & p2 & Hrs & Hq2 & Hlen & Hall).
    exists (r :: rs), p2. cbn [mapM].
    rewrite (bind_ok _ _ _ _ _ Hr), (bind_ok _ _ _ _ _ Hrs).
    split; [done|]. split; [by etrans|]. split; [cbn; by rewrite Hlen|].
    by constructor.
Qed.

Lemma loadSecrets_trace p : trace (loadSecrets env p).2 = trace p.
Proof.
  unfold loadSecrets. destruct (memo p); [done|].
  destruct (nonEmpty (apiSecretArn env)); [|done].
  by destruct (getSecretValue env) as [| |[b|]].
Qed.

(** The three provider calls of one search, run one after the other. *)
Lemma providers_run q secrets p :
  ∃ p',
    (let* r1 := callPerplexity env q (perplexityApiKey secrets) in
     let* r2 := callGemini env q (geminiApiKey secrets) in
     let* r3 := callChatGpt env q (chatGptApiKey secrets) in
     ret (omap (λ r : option ProviderResult, r) [r1; r2; r3])) p
    = (Ok (searchOffers env q secrets), p')
    ∧ memo p' = memo p
    ∧ trace p' = trace p ++ searchCalls q secrets.
Proof.
  unfold searchOffers, searchCalls, callPerplexity, callGemini, callChatGpt,
    offer.
  destruct (perplexityApiKey secrets) as [[|c1 k1]|];
    destruct (geminiApiKey secrets) as [[|c2 k2]|];
    destruct (chatGptApiKey secrets) as [[|c3 k3]|];
    cbn [nonEmpty truthy];
    repeat match goal with
           | |- context [postPerplexity env q ?k] =>
               destruct (postPerplexity env q k)
           | |- context [postGemini env q ?k] => destruct (postGemini env q k)
           | |- context [postChatGpt env q ?k] =>
               destruct (postChatGpt env q k)
           end;
    eexists; (split; [reflexivity|]); cbn;
    (split; [reflexivity|]);
    rewrite <- ?app_assoc, ?app_nil_r; reflexivity.
Qed.

Lemma handler_run body p secrets p1 :
  loadSecrets env p = (Ok secrets, p1) →
  let request := parseRequest body in
  let selected := select (searchOffers env (enrich request) secrets) in
  ∃ formatted results p2 p3 p4,
    handler env body p
    = (Ok {| statusCode := 200;
             body := Payload {| res_query := query request;
                                res_section := section request;
                                results := results;
                                generatedAt := nowIso env;
                                provider := p_provider <$> selected |} |}, p4)
    ∧ trace p4 = trace p ++ searchCalls (enrich request) secrets
    ∧ memo p4 = memo p1
    ∧ match selected with
      | Some s =>
          formatResults (p_items s) (p_confidence s)
            (default 10%Z (limit request)) p2 = (Ok formatted, p3)
      | None => formatted = []
      end
    ∧ match formatted with
      | [] =>
          ∃ r, results = [r]
               ∧ headline r = "Stay tuned for curated technology insights"
               ∧ verificationScore r = 50%Z
      | _ :: _ => results = formatted
      end.
Proof.
  intros Hsec request selected.
  pose proof (loadSecrets_trace p) as Ht1. rewrite Hsec in Ht1. cbn in Ht1.
  destruct (providers_run (enrich request) secrets p1)
    as (p2 & Hprov & Hm2 & Ht2).
  unfold handler. fold request. cbv zeta.
  rewrite (bind_ok _ _ _ _ _ Hsec).
  destruct (callPerplexity env (enrich request) (perplexityApiKey secrets) p1)
    as [[r1|e1] q1] eqn:H1.
  2: { exfalso. revert Hprov. unfold bind. by rewrite H1. }
  destruct (callGemini env (enrich request) (geminiApiKey secrets) q1)
    as [[r2|e2] q2] eqn:H2.
  2: { exfalso. revert Hprov. unfold bind. by rewrite H1, H2. }
  destruct (callChatGpt env (enrich request) (chatGptApiKey secrets) q2)
    as [[r3|e3] q3] eqn:H3.
  2: { exfalso. revert Hprov. unfold bind. by rewrite H1, H2, H3. }
  rewrite (bind_ok _ _ _ _ _ H1), (bind_ok _ _ _ _ _ H2),
    (bind_ok _ _ _ _ _ H3).
  assert (omap (λ r : option ProviderResult, r) [r1; r2; r3]
          = searchOffers env (enrich request) secrets ∧ q3 = p2)
    as [Hoffers ->].
  { revert Hprov. unfold bind. rewrite H1, H2, H3. unfold ret.
    intros Hprov. by injection Hprov. }
  rewrite Hoffers. fold selected.
  assert (∃ formatted p3,
            match selected with
            | Some s =>
                formatResults (p_items s) (p_confidence s)
                  (default 10%Z (limit request))
            | None =>
                formatResults [] 0.5%Q (default 10%Z (limit request))
            end p2 = (Ok formatted, p3)
            ∧ quietly p2 p3
            ∧ match selected with
              | Some s =>
                  formatResults (p_items s) (p_confidence s)
                    (default 10%Z (limit request)) p2 = (Ok formatted, p3)
              | None => formatted = []
              end) as (formatted & p3 & Hfmt & Hq3 & Hsel).
  { destruct selected as [s|].
    - destruct (formatResults_returns (p_items s) (p_confidence s)
                  (default 10%Z (limit request)) p2)
        as (rs & p3 & Hrs & Hq & _). by exists rs, p3.
    - exists [], p2. split; [|done]. unfold formatResults, slice0.
      by rewrite take_nil. }
  rewrite (bind_ok _ _ _ _ _ Hfmt).
  destruct Hq3 as [Hm3 Ht3].
  destruct formatted as [|f fs].
  - eexists [], _, p2, p3, _. split; [reflexivity|].
    cbn [snd fst trace memo draw]. cbn.
    split; [by rewrite Ht3, Ht2, Ht1|]. split; [by rewrite Hm3|].
    split; [done|]. by eexists.
  - rewrite bind_ret. exists (f :: fs), (f :: fs), p2, p3, p3.
    split; [reflexivity|]. split; [by rewrite Ht3, Ht2, Ht1|].
    split; [by rewrite Hm3|]. done.
Qed.

Lemma find_split {A} (f : A → bool) (l : list A) :
  match List.find f l with
  | Some x =>
      ∃ l1 l2, l = l1 ++ x :: l2 ∧ f x = true ∧ Forall (λ y, f y = false) l1
  | None => Forall (λ y, f y = false) l
  end.
Proof.
  induction l as [|y l IH]; cbn; [done|].
  destruct (f y) eqn:Hy.
  - by exists [], l.
  - destruct (List.find f l) as [x|].
    + destruct IH as (l1 & l2 & -> & Hx & Hl1).
      exists (y :: l1), l2. split; [done|]. split; [done|]. by constructor.
    + by constructor.
Qed.

Lemma select_spec (offers : list ProviderResult) :
  match select offers with
  | Some o =>
      ∃ before after,
        offers = before ++ o :: after
        ∧ Forall (λ b, hasHits b = false) before
        ∧ (hasHits o = true
           ∨ (before = [] ∧ Forall (λ b, hasHits b = false) after))
  | None => offers = []
  end.
Proof.
  unfold select. pose proof (find_split hasHits offers) as Hfind.
  change (λ p : ProviderResult,
            match p_items p with [] => false | _ :: _ => true end)
    with hasHits.
  destruct (List.find hasHits offers) as [o|].
  - destruct Hfind as (l1 & l2 & -> & Ho & Hl1). exists l1, l2. auto.
  - destruct offers as [|o offers]; [done|]. cbn.
    exists [], offers. split; [done|]. split; [done|]. right.
    split; [done|]. by inversion Hfind.
Qed.

(** X23.  Once the secrets are loaded, a search calls every provider it
    has a credential for, in the order Perplexity, Gemini, ChatGPT,
    whether or not an earlier one has already answered, answers 200 and
    echoes the query as the caller wrote it. *)
Theorem search_calls_every_provider body p secrets p1 :
  loadSecrets env p = (Ok secrets, p1) →
  ∃ resp p',
    handler env body p
    = (Ok {| statusCode := 200; body := Payload resp |}, p')
    ∧ res_query resp = query (parseRequest body)
    ∧ trace p' = trace p ++ searchCalls (enrich (parseRequest body)) secrets.
Proof.
  intros Hsec.
  destruct (handler_run body p secrets p1 Hsec)
    as (formatted & out & p2 & p3 & p4 & Hrun & Htrace & _).
  eexists _, p4. split; [exact Hrun|]. by split.
Qed.

(** X24.  The provider a search reports is the first, in the order of the
    handler, that resolved with at least one hit, whatever its confidence;
    when none has a hit it is the first that resolved, and none is
    reported when no provider resolved. Every result carries the
    confidence of that provider (0.5 when it is zero) times 100 as the
    binary64 multiplication gives it, rounded, for a confidence in the
    range of binary64, or the answer is the single stay-tuned result of
    score 50. *)
Theorem search_reports_first_provider_with_hits body p secrets p1 :
  loadSecrets env p = (Ok secrets, p1) →
  ∃ resp p',
    handler env body p
    = (Ok {| statusCode := 200; body := Payload resp |}, p')
    ∧ match provider resp with
      | Some name =>
          ∃ before o after,
            searchOffers env (enrich (parseRequest body)) secrets
            = before ++ o :: after
            ∧ p_provider o = name
            ∧ Forall (λ b, hasHits b = false) before
            ∧ (hasHits o = true
               ∨ (before = [] ∧ Forall (λ b, hasHits b = false) after))
            ∧ (inRange (p_confidence o * 100) = true →
               Forall (λ r, verificationScore r
                            = Math_round
                                (times (orNumber (b64 (p_confidence o)) 0.5%Q)
                                   100)) (results resp)
               ∨ ∃ r, results resp = [r] ∧ verificationScore r = 50%Z)
      | None =>
          searchOffers env (enrich (parseRequest body)) secrets = []
          ∧ ∃ r, results resp = [r] ∧ verificationScore r = 50%Z
      end.
Proof.
  intros Hsec.
  destruct (handler_run body p secrets p1 Hsec)
    as (formatted & out & p2 & p3 & p4 & Hrun & _ & _ & Hfmt & Hres).
  eexists _, p4. split; [exact Hrun|]. cbn [provider results].
  pose proof (select_spec
                (searchOffers env (enrich (parseRequest body)) secrets))
    as Hsel.
  destruct (select (searchOffers env (enrich (parseRequest body)) secrets))
    as [o|]; cbn [fmap option_fmap option_map].
  - destruct Hsel as (before & after & Hoff & Hbefore & Hhits).
    exists before, o, after. split; [done|]. split; [done|].
    split; [done|]. split; [done|].
    destruct (formatResults_returns (p_items o) (p_confidence o)
                (default 10%Z (limit (parseRequest body))) p2)
      as (rs & p3' & Hrs & _ & _ & Hall).
    rewrite Hrs in Hfmt. injection Hfmt as -> ->.
    destruct formatted as [|f fs].
    + right. destruct Hres as (r & -> & _ & Hscore). by exists r.
    + left. by subst.
  - split; [done|]. subst formatted.
    destruct Hres as (r & -> & _ & Hscore). by exists r.
Qed.

(** X25.  Every outcome of a search: 200 with at least one result and, for
    a limit that is not negative, at most max(1, limit) results; or an
    exception because the secrets cannot be loaded, raised before any
    provider is called and leaving the process as it was. *)
Theorem search_outcomes posted p :
  match handler env posted p with
  | (Ok a, p') =>
      statusCode a = 200%Z
      ∧ ∃ resp,
          body a = Payload resp
          ∧ 1 ≤ length (results resp)
          ∧ ((0 ≤ default 10%Z (limit (parseRequest posted)))%Z →
             length (results resp)
             ≤ Z.to_nat (Z.max 1 (default 10%Z (limit (parseRequest posted)))))
  | (Throw e, p') =>
      p' = p ∧ memo p = None
      ∧ (e = ServiceError "secretsmanager" ∨ e = SyntaxError)
  end.
Proof.
  destruct (loadSecrets env p) as [[secrets|e] p1] eqn:Hsec.
  2: { unfold handler. rewrite (bind_throw _ _ _ _ _ Hsec).
       revert Hsec. unfold loadSecrets.
       destruct (memo p); [discriminate|].
       destruct (nonEmpty (apiSecretArn env)); [|discriminate].
       destruct (getSecretValue env) as [| |[b|]]; intros [= <- <-]; auto. }
  destruct (handler_run posted p secrets p1 Hsec)
    as (formatted & out & p2 & p3 & p4 & -> & _ & _ & Hfmt & Hres).
  cbn [statusCode]. split; [done|]. eexists. split; [reflexivity|].
  cbn [Search.results].
  destruct formatted as [|f fs].
  - destruct Hres as (r & -> & _). cbn. lia.
  - subst out. split; [cbn; lia|]. intros Hlimit.
    destruct (select (searchOffers env (enrich (parseRequest posted)) secrets))
      as [o|]; [|done].
    destruct (formatResults_returns (p_items o) (p_confidence o)
                (default 10%Z (limit (parseRequest posted))) p2)
      as (rs & p3' & Hrs & _ & Hlen & _).
    rewrite Hrs in Hfmt. injection Hfmt as -> ->.
    rewrite Hlen. unfold slice0.
    destruct (default 10%Z (limit (parseRequest posted)) <? 0)%Z eqn:Hneg;
      [apply Z.ltb_lt in Hneg; lia|].
    rewrite length_take. lia.
Qed.

End SearchMore.


(** ** recommendations *)

Section Recommend.
Import Js JsMore Recommendations.

Lemma insertDesc_perm {A} (key : A → Q) (x : A) (l : list A) :
  insertDesc key x l ≡ₚ x :: l.
Proof.
  induction l as [|y l IH]; [done|]. cbn [insertDesc].
  destruct (Qle_bool (key x) (key y)); [|done].
  rewrite IH. apply Permutation_swap.
Qed.

Lemma sortDesc_perm {A} (key : A → Q) (xs : list A) : sortDesc key xs ≡ₚ xs.
Proof.
  unfold sortDesc.
  assert (∀ acc, foldl (λ sorted x, insertDesc key x sorted) acc xs
                 ≡ₚ xs ++ acc) as H.
  { induction xs as [|x xs IH]; intros acc; [done|].
    cbn [foldl]. rewrite IH, insertDesc_perm.
    by rewrite <- Permutation_middle. }
  by rewrite H, app_nil_r.
Qed.

Lemma insertDesc_sorted {A} (key : A → Q) (x : A) (l : list A) :
  descending (key <$> l) → descending (key <$> insertDesc key x l).
Proof.
  induction l as [|y l IH]; cbn [insertDesc fmap list_fmap descending].
  - by repeat constructor.
  - intros [Hy Hl]. destruct (Qle_bool (key x) (key y)) eqn:Hxy.
    + cbn [fmap list_fmap descending]. split; [|by apply IH].
      change (Forall (λ z, (z <= key y)%Q) (key <$> insertDesc key x l)).
      rewrite insertDesc_perm. constructor; [|done].
      by apply Qle_bool_iff.
    + assert (key y <= key x)%Q as Hyx.
      { destruct (Qlt_le_dec (key y) (key x)) as [?|Hle];
          [by apply Qlt_le_weak|].
        apply Qle_bool_iff in Hle. congruence. }
      cbn [fmap list_fmap descending]. split; [|done].
      constructor; [done|].
      eapply Forall_impl; [exact Hy|]. intros z Hz. cbn in Hz.
      by eapply Qle_trans.
Qed.

Lemma sortDesc_sorted {A} (key : A → Q) (xs : list A) :
  descending (key <$> sortDesc key xs).
Proof.
  unfold sortDesc.
  assert (∀ acc, descending (key <$> acc) →
                 descending
                   (key <$> foldl (λ sorted x, insertDesc key x sorted) acc xs))
    as H.
  { induction xs as [|x xs IH]; intros acc Hacc; [done|].
    cbn [foldl]. by apply IH, insertDesc_sorted. }
  by apply H.
Qed.

Variable u : Unicode.

Lemma descending_fmap (f : Q → Q) (l : list Q) :
  (∀ x y, (x <= y)%Q → (f x <= f y)%Q) →
  descending l → descending (f <$> l).
Proof.
  intros Hf. induction l as [|x l IH]; [done|].
  cbn [fmap list_fmap descending]. intros [Hx Hl]. split; [|by apply IH].
  change (Forall (λ y, (y <= f x)%Q) (f <$> l)).
  apply Forall_fmap. eapply Forall_impl; [exact Hx|]. intros y Hy. by apply Hf.
Qed.

(** The displayed score: one decimal place. *)
Lemma displayed_monotone (x y : Q) :
  (x <= y)%Q →
  (inject_Z (Math_round (x * 10)) / 10 <= inject_Z (Math_round (y * 10)) / 10)%Q.
Proof.
  intros Hxy. apply Qmult_le_compat_r; [|done].
  rewrite <- Zle_Qle. apply Qfloor_resp_le. lra.
Qed.

Lemma Math_round_integer (x : Q) (n : Z) :
  (x == inject_Z n)%Q → Math_round x = n.
Proof.
  intros Hx. unfold Math_round.
  pose proof (Qfloor_le (x + (1 # 2))) as Hle.
  pose proof (Qlt_floor (x + (1 # 2))) as Hlt.
  rewrite inject_Z_plus in Hlt. change (inject_Z 1) with 1%Q in Hlt.
  assert (inject_Z n - 1 < inject_Z (Qfloor (x + (1 # 2))))%Q as H1 by lra.
  assert (inject_Z (Qfloor (x + (1 # 2))) < inject_Z n + 1)%Q as H2 by lra.
  change 1%Q with (inject_Z 1) in H1, H2.
  unfold Qminus in H1. rewrite <- inject_Z_opp, <- inject_Z_plus in H1.
  rewrite <- inject_Z_plus in H2.
  rewrite <- Zlt_Qlt in H1, H2. lia.
Qed.

(** What one item of the history adds to the interest in a section. *)
Lemma visit_lookup (m : gmap string Q) (item : AccessItem) (s : string) :
  s ∈ baseSections →
  (default 0 (visit u m item !! s) == default 0 (m !! s) + adds u item s)%Q.
Proof.
  unfold visit, adds, namedIn, fromResearch, baseSections. cbv zeta.
  cbn [foldl]. rewrite !elem_of_cons, elem_of_nil.
  intros [->|[->|[->|[->|[]]]]];
    destruct (includes (toLowerCase u (default "" (path item))) "ai");
    destruct (includes (toLowerCase u (default "" (path item))) "ml");
    destruct (includes (toLowerCase u (default "" (path item))) "iot");
    destruct (includes (toLowerCase u (default "" (path item))) "quantum");
    (destruct (geo item) as [g|];
       [destruct (includes (toLowerCase u g) "research")|]);
    unfold bump;
    repeat first [ rewrite lookup_insert_eq
                 | rewrite lookup_insert_ne by discriminate ];
    cbn [default from_option Datatypes.id String.eqb Ascii.eqb Bool.eqb andb];
    lra.
Qed.

Lemma count_cons {A} (f : A → bool) (x : A) (l : list A) :
  (inject_Z (Z.of_nat (length (List.filter f (x :: l))))
   == (if f x then 1 else 0)
      + inject_Z (Z.of_nat (length (List.filter f l))))%Q.
Proof.
  cbn [List.filter]. destruct (f x); [|lra].
  cbn [length]. rewrite Nat2Z.inj_succ, <- Z.add_1_l, inject_Z_plus.
  reflexivity.
Qed.

(** The map the loop builds holds, for each of the four sections, the
    interest the history shows in it. *)
Lemma interestOf_lookup (history : list AccessItem) (s : string) :
  s ∈ baseSections →
  (default 0 (interestOf u history !! s) == interestIn u history s)%Q.
Proof.
  intros Hs. unfold interestOf.
  assert (∀ m, (default 0 (foldl (visit u) m history !! s)
                == default 0 (m !! s) + interestIn u history s)%Q) as H.
  { induction history as [|item history IH]; intros m.
    - unfold interestIn. cbn [List.filter length foldl].
      change (inject_Z (Z.of_nat 0)) with 0%Q.
      destruct (String.eqb s "quantum"); lra.
    - cbn [foldl]. rewrite IH, (visit_lookup m item s Hs).
      unfold interestIn, adds.
      destruct (String.eqb s "quantum"); cbn [andb];
        rewrite ?(count_cons (namedIn u s)), ?(count_cons (fromResearch u));
        destruct (namedIn u s item), (fromResearch u item); lra. }
  rewrite H.
  assert (default 0%Q
            (list_to_map ((λ s0, (s0, 0%Q)) <$> baseSections
                          : list (string * Q)) !! s
             : option Q) = 0%Q) as ->.
  { revert Hs. unfold baseSections. rewrite !elem_of_cons, elem_of_nil.
    by intros [->|[->|[->|[->|[]]]]]. }
  lra.
Qed.

Lemma count_nonneg {A} (f : A → bool) (l : list A) :
  (0 <= inject_Z (Z.of_nat (length (List.filter f l))))%Q
  ∧ (inject_Z (Z.of_nat (length (List.filter f l))) == 0
     ∨ 1 <= inject_Z (Z.of_nat (length (List.filter f l))))%Q.
Proof.
  destruct (length (List.filter f l)) as [|n].
  - split; [done|]. by left.
  - assert (1 <= inject_Z (Z.of_nat (S n)))%Q as H.
    { change 1%Q with (inject_Z 1). rewrite <- Zle_Qle. lia. }
    split; [lra|]. by right.
Qed.

(** X26.  Whatever the access history, the ranking names each of the four
    sections exactly once, in descending order of the displayed score.
    The interest in a section is two for every item of the history whose
    path names it and, for quantum, one and a half more for every item
    from a research network.  A section of interest zero has score 0.5
    and the invitation to discover it; every other section has its
    interest as score, at least 1.5, and the reason that the reader
    explored it. *)
Theorem recommendations_rank_every_section (history : list AccessItem) :
  section <$> inferScores u history ≡ₚ baseSections
  ∧ descending (score <$> inferScores u history)
  ∧ Forall (λ r,
              let interest := interestIn u history (section r) in
              if Qeq_bool interest 0
              then (score r == 1 # 2)%Q
                   ∧ reason r = discover u (section r)
              else (score r == interest)%Q
                   ∧ (3 # 2 <= score r)%Q
                   ∧ reason r = explored u (section r))
      (inferScores u history).
Proof.
  unfold inferScores. cbv zeta.
  set (h := λ s : string,
         (s, orNumber (default 0%Q (interestOf u history !! s)) 0.5%Q)).
  set (g := λ entry : string * Q, _).
  split; [|split].
  - rewrite <- list_fmap_compose.
    change (section ∘ g) with (fst : string * Q → string).
    rewrite sortDesc_perm, <- list_fmap_compose.
    reflexivity.
  - rewrite <- list_fmap_compose.
    change (score ∘ g)
      with ((λ x, (inject_Z (Math_round (x * 10)) / 10)%Q) ∘ snd
            : string * Q → Q).
    rewrite list_fmap_compose.
    apply descending_fmap; [apply displayed_monotone|].
    apply sortDesc_sorted.
  - apply Forall_fmap. rewrite sortDesc_perm. apply Forall_fmap.
    apply Forall_forall. intros s Hs. unfold compose, g, h.
    cbn [section score reason fst snd]. cbv zeta.
    pose proof (interestOf_lookup history s Hs) as Hx.
    set (x := default 0%Q (interestOf u history !! s)) in *.
    destruct (Qeq_bool (interestIn u history s) 0) eqn:Hzero.
    + apply Qeq_bool_iff in Hzero.
      assert (Qeq_bool x 0 = true) as Hx0
        by (apply Qeq_bool_iff; by rewrite Hx).
      unfold orNumber. rewrite Hx0. by split.
    + apply Qeq_bool_neq in Hzero.
      assert (Qeq_bool x 0 = false) as Hx0.
      { destruct (Qeq_bool x 0) eqn:H0; [|done].
        apply Qeq_bool_iff in H0. destruct Hzero. by rewrite <- Hx. }
      unfold orNumber. rewrite Hx0.
      set (a := Z.of_nat (length (List.filter (namedIn u s) history))).
      set (b := Z.of_nat (length (List.filter (fromResearch u) history))).
      destruct (count_nonneg (namedIn u s) history) as [Ha Ha'].
      destruct (count_nonneg (fromResearch u) history) as [Hb Hb'].
      fold a in Ha, Ha'. fold b in Hb, Hb'.
      assert (∃ n : Z, (x * 10 == inject_Z n)%Q
                       ∧ (inject_Z n / 10 == x)%Q) as (n & Hn & Hback).
      { assert (∀ y, (y == x * 10)%Q → (y / 10 == x)%Q) as Hdiv
          by (intros y ->; field).
        unfold interestIn in Hx. fold a b in Hx.
        destruct (String.eqb s "quantum").
        - exists (20 * a + 15 * b)%Z.
          rewrite inject_Z_plus, !inject_Z_mult.
          change (inject_Z 20) with 20%Q. change (inject_Z 15) with 15%Q.
          split; [lra | apply Hdiv; lra].
        - exists (20 * a)%Z. rewrite inject_Z_mult.
          change (inject_Z 20) with 20%Q. split; [lra | apply Hdiv; lra]. }
      rewrite (Math_round_integer _ _ Hn).
      assert (3 # 2 <= x)%Q as Hbig.
      { unfold interestIn in Hx, Hzero. fold a b in Hx, Hzero.
        destruct (String.eqb s "quantum");
          destruct Ha' as [Ha'|Ha'], Hb' as [Hb'|Hb']; try lra;
          exfalso; apply Hzero; lra. }
      split; [by rewrite Hback|]. split; [by rewrite Hback|].
      destruct (Qle_bool x 1) eqn:Hle; [|done].
      apply Qle_bool_iff in Hle. lra.
Qed.

Lemma slice0_fmap {A B} (f : A → B) (stop : Z) (xs : list A) :
  f <$> slice0 stop xs = slice0 stop (f <$> xs).
Proof. unfold slice0. by rewrite fmap_take, length_fmap. Qed.

Variable env : Env.

(** X27.  Without a session id, without a configured log table, or when
    the log has nothing for the session, the recommendations are the
    leading part of ai, ml, iot, quantum, as many as the limit allows,
    each with score 0.5 and the invitation to discover it; a missing,
    unreadable or null body is served with the first three. *)
Theorem recommendations_without_history (posted : option RequestBody) :
  let request := parseRequest posted in
  (truthy (sessionId request) = false
   ∨ nonEmpty (tableName env) = false
   ∨ ∃ s, sessionId request = Some s
          ∧ (queryLogs env s = QueryItems None
             ∨ queryLogs env s = QueryItems (Some []))) →
  ∃ resp,
    handler env posted tt
    = (Ok {| statusCode := 200; body := Payload resp |}, tt)
    ∧ generatedAt resp = nowIso env
    ∧ section <$> recommendations resp
      = slice0 (default 3%Z (limit request)) baseSections
    ∧ Forall (λ r, (score r == 1 # 2)%Q
                   ∧ reason r = discover (unicode env) (section r))
        (recommendations resp)
    ∧ (match posted with
       | Some (BodyObject _ _ _) => True
       | _ => section <$> recommendations resp = ["ai"; "ml"; "iot"]
       end).
Proof.
  intros request Hnone.
  assert (fetchAccessHistory env (sessionId request) tt = (Ok [], tt)) as Hf.
  { unfold fetchAccessHistory.
    destruct (sessionId request) as [s|]; [|done].
    destruct Hnone as [Hs|[Ht|(s' & [= <-] & Hq)]].
    - rewrite truthy_nonEmpty in Hs. rewrite Hs. by rewrite andb_false_r.
    - by rewrite Ht.
    - destruct (nonEmpty (tableName env) && nonEmpty s); [|done].
      by destruct Hq as [-> | ->]. }
  unfold handler. fold request. cbv zeta. rewrite (bind_ok _ _ _ _ _ Hf).
  eexists. split; [reflexivity|]. cbn [generatedAt recommendations].
  split; [done|]. split; [|split].
  - by rewrite slice0_fmap.
  - unfold slice0. apply Forall_take.
    repeat constructor.
  - destruct posted as [[| |]|]; done.
Qed.

End Recommend.


(** ** authCallback *)

Section Auth.
Import Js AuthCallback.
Variable env : Env.

Lemma getGoogleSecrets_quiet a :
  profiles (getGoogleSecrets env a).2 = profiles a
  ∧ calls (getGoogleSecrets env a).2 = calls a.
Proof.
  unfold getGoogleSecrets. destruct (memo a); [done|].
  destruct (nonEmpty (secretArn env)); [|done].
  by destruct (getSecretValue env) as [| |[b|]].
Qed.

Lemma truthy_some (x : option string) :
  truthy x = true → ∃ s, x = Some s ∧ nonEmpty s = true.
Proof. destruct x as [[|c s]|]; try discriminate. by eexists. Qed.

(** X28.  Every outcome of the sign-in Lambda. It answers 400 without a
    cookie and without touching the profiles table; or it answers 200, and
    then the caller's authorization code was exchanged with both Google
    credentials for an access token, Google returned a non-empty email for
    that token, and the cookie and the body carry that email with the name
    the caller preferred, Google's name otherwise; or it throws, the
    profiles table being unchanged. *)
Theorem auth_outcomes body a :
  match handler env body a with
  | (Ok r, a') =>
      (r = {| statusCode := 400; setCookie := None;
              reply := Failure "Unable to resolve Google profile information" |}
       ∧ profiles a' = profiles a)
      ∨ (∃ payload secrets code clientId clientSecret token profile email,
           parsePayload body = Some payload
           ∧ (getGoogleSecrets env a).1 = Ok secrets
           ∧ authorizationCode payload = Some code
           ∧ googleClientId secrets = Some clientId
           ∧ googleClientSecret secrets = Some clientSecret
           ∧ postToken env code
               (default "https://example.com/auth/callback"
                  (redirectUri payload)) clientId clientSecret
             = Resolves (Some {| access_token := Some token |})
           ∧ getProfile env token = Resolves (Some profile)
           ∧ firstEmail profile = Some email
           ∧ nonEmpty email = true
           ∧ r = {| statusCode := 200;
                    setCookie :=
                      Some (sessionCookie env email
                              (orElse (preferredName payload)
                                      (firstName profile)));
                    reply :=
                      Identity email
                        (orElse (preferredName payload) (firstName profile)) |})
  | (Throw e, a') => profiles a' = profiles a
  end.
Proof.
  unfold handler, exchangeCodeForTokens.
  pose proof (getGoogleSecrets_quiet a) as [Hp Hc].
  destruct (getGoogleSecrets env a) as [[secrets|e] a1] eqn:Hsec; cbn in Hp, Hc.
  2: { by rewrite (bind_throw _ _ _ _ _ (bind_throw _ _ _ _ _ Hsec)). }
  rewrite (bind_assoc _ _ _ a), (bind_ok _ _ _ _ _ Hsec).
  destruct (parsePayload body) as [payload|] eqn:Hpay; [|done].
  cbn [mbind option_bind].
  destruct (truthy (authorizationCode payload)) eqn:Hcode; cbn [andb].
  2: { rewrite bind_ret. cbn. left. by rewrite Hp. }
  destruct (truthy (googleClientId secrets)) eqn:Hid; cbn [andb].
  2: { rewrite bind_ret. cbn. left. by rewrite Hp. }
  destruct (truthy (googleClientSecret secrets)) eqn:Hsecret; cbn [andb].
  2: { rewrite bind_ret. cbn. left. by rewrite Hp. }
  apply truthy_some in Hcode as (code & Hcode & _).
  apply truthy_some in Hid as (clientId & Hid & _).
  apply truthy_some in Hsecret as (clientSecret & Hsecret & _).
  rewrite Hcode, Hid, Hsecret. cbn [default from_option Datatypes.id].
  rewrite bind_assoc, bind_modify.
  destruct (postToken env code _ clientId clientSecret) as [|[[[token|]]|]]
    eqn:Htoken; rewrite bind_ret; cbn [mbind option_bind access_token];
    try (rewrite bind_ret; cbn; left; by rewrite Hp).
  destruct (nonEmpty token) eqn:Hne.
  2: { rewrite bind_ret. cbn. left. by rewrite Hp. }
  unfold fetchGoogleProfile. rewrite !bind_assoc, bind_modify.
  destruct (getProfile env token) as [|[profile|]] eqn:Hprofile;
    rewrite !bind_ret; cbn [mbind option_bind fst snd];
    try (cbn; left; by rewrite Hp).
  destruct (firstEmail profile) as [email|] eqn:Hemail;
    [|cbn; left; by rewrite Hp].
  destruct (nonEmpty email) eqn:Hmail; [|cbn; left; by rewrite Hp].
  unfold persistUserProfile.
  destruct (nonEmpty (userProfilesTableName env)).
  - destruct (putSucceeds env).
    + rewrite bind_modify. right.
      exists payload, secrets, code, clientId, clientSecret, token, profile,
        email. by repeat (split; [done|]).
    + cbn. by rewrite Hp.
  - rewrite bind_ret. right.
    exists payload, secrets, code, clientId, clientSecret, token, profile,
      email. by repeat (split; [done|]).
Qed.

(** X29.  When the payload has no authorization code, or the secret lacks
    the Google client id or client secret, the sign-in Lambda answers 400
    without sending anything to Google and without touching the profiles
    table. *)
Theorem auth_needs_code_and_credentials body payload a secrets a1 :
  getGoogleSecrets env a = (Ok secrets, a1) →
  parsePayload body = Some payload →
  truthy (authorizationCode payload)
  && truthy (googleClientId secrets)
  && truthy (googleClientSecret secrets) = false →
  handler env body a
  = (Ok {| statusCode := 400; setCookie := None;
           reply := Failure "Unable to resolve Google profile information" |},
     a1)
  ∧ calls a1 = calls a
  ∧ profiles a1 = profiles a.
Proof.
  intros Hsec Hpay Hmissing.
  pose proof (getGoogleSecrets_quiet a) as [Hp Hc]. rewrite Hsec in Hp, Hc.
  split; [|by split].
  unfold handler, exchangeCodeForTokens.
  rewrite (bind_assoc _ _ _ a), (bind_ok _ _ _ _ _ Hsec), Hpay, Hmissing.
  by rewrite bind_ret.
Qed.

(** X30.  When the code exchange yields an access token and Google returns
    a non-empty email for it, the Lambda sends exactly the token exchange
    and the profile read; if the write to the configured profiles table
    goes through it answers 200 with the session cookie and stores under
    the email the preferred name, else Google's name, else the part of the
    email before the at sign; if the write fails it throws and the table
    is unchanged. *)
Theorem auth_success_is_persisted body payload a secrets a1 code clientId
    clientSecret token profile email :
  getGoogleSecrets env a = (Ok secrets, a1) →
  parsePayload body = Some payload →
  authorizationCode payload = Some code →
  googleClientId secrets = Some clientId →
  googleClientSecret secrets = Some clientSecret →
  nonEmpty code && nonEmpty clientId && nonEmpty clientSecret = true →
  postToken env code
    (default "https://example.com/auth/callback" (redirectUri payload))
    clientId clientSecret
  = Resolves (Some {| access_token := Some token |}) →
  nonEmpty token = true →
  getProfile env token = Resolves (Some profile) →
  firstEmail profile = Some email →
  nonEmpty email = true →
  nonEmpty (userProfilesTableName env) = true →
  let name := orElse (preferredName payload) (firstName profile) in
  ∃ a',
    calls a'
    = calls a
      ++ [TokenExchange code
            (default "https://example.com/auth/callback" (redirectUri payload))
            clientId clientSecret;
          ProfileRead token]
    ∧ if putSucceeds env then
        handler env body a
        = (Ok {| statusCode := 200;
                 setCookie := Some (sessionCookie env email name);
                 reply := Identity email name |}, a')
        ∧ profiles a'
          = <[email := {| displayName := default (localPart email) name;
                          updatedAt := nowIso env |}]> (profiles a)
      else
        handler env body a = (Throw (ServiceError "dynamodb"), a')
        ∧ profiles a' = profiles a.
Proof.
  intros Hsec Hpay Hcode Hid Hsecret Hne Htoken Htok Hprofile Hemail Hmail
    Htable name.
  pose proof (getGoogleSecrets_quiet a) as [Hp Hc]. rewrite Hsec in Hp, Hc.
  cbn in Hp, Hc.
  apply andb_true_iff in Hne as [Hne Hne3].
  apply andb_true_iff in Hne as [Hne1 Hne2].
  unfold handler, exchangeCodeForTokens.
  rewrite (bind_assoc _ _ _ a), (bind_ok _ _ _ _ _ Hsec), Hpay.
  rewrite Hcode, Hid, Hsecret, !truthy_nonEmpty, Hne1, Hne2, Hne3.
  cbn [andb default from_option Datatypes.id mbind option_bind].
  rewrite bind_assoc, bind_modify, Htoken, bind_ret.
  cbn [mbind option_bind access_token]. rewrite Htok.
  unfold fetchGoogleProfile. rewrite !bind_assoc, bind_modify, Hprofile.
  rewrite !bind_ret. cbn [mbind option_bind fst snd]. rewrite Hemail, Hmail.
  fold name. unfold persistUserProfile. rewrite Htable.
  destruct (putSucceeds env).
  - rewrite bind_modify. eexists. split; [|split; [reflexivity|]].
    + cbn. by rewrite Hc, <- app_assoc.
    + cbn. by rewrite Hp.
  - eexists. split; [|split; [reflexivity|]].
    + cbn. by rewrite Hc, <- app_assoc.
    + cbn. by rewrite Hp.
Qed.

End Auth.

(** * Worked examples *)

(** Perplexity answers, so Gemini and ChatGPT are not called although
    their credentials are there. *)
Lemma news_calls_follow_the_cascade_example :
  outbound
    (FetchNews.aggregateContent
       (Sample.newsEnv Sample.allKeys 0.9%Q [Sample.story "a"])
       Sample.aiDailyRequest Sample.world).2
  = [Post "perplexity" "Top verified ai technology news for daily"].
Proof.
  exact (news_calls_follow_the_cascade
           (Sample.newsEnv Sample.allKeys 0.9%Q [Sample.story "a"])
           Sample.aiDailyRequest Sample.world Sample.allKeys _ eq_refl).
Defined.

(** Perplexity answers with one item that has a link: the write goes
    through and the record expires a day later. *)
Lemma news_success_is_persisted_example :
  ∃ resp w',
    FetchNews.aggregateContent
      (Sample.newsEnv Sample.allKeys 0.9%Q
         [Sample.linked "a" "https://news.example/a"])
      Sample.aiDailyRequest Sample.world = (Ok resp, w')
    ∧ (contentCache w' !! newsKey Sample.aiDailyRequest) ≫= expiresAt
      = Some 1714608000%Z.
Proof.
  destruct (news_success_is_persisted
              (Sample.newsEnv Sample.allKeys 0.9%Q
                 [Sample.linked "a" "https://news.example/a"])
              Sample.aiDailyRequest Sample.world Sample.allKeys _
              (Some {| FetchNews.provider := "perplexity";
                       FetchNews.confidence := 0.9%Q;
                       FetchNews.items :=
                         [Sample.linked "a" "https://news.example/a"] |}) _
              eq_refl eq_refl eq_refl eq_refl)
    as (resp & w' & score & Hrun & _ & _ & _ & Hslot).
  exists resp, w'. split; [exact Hrun|]. rewrite Hslot. reflexivity.
Defined.

Lemma news_write_failure_changes_nothing_example :
  ∃ w',
    FetchNews.aggregateContent
      (Fixture.newsDown Sample.allKeys 0.9%Q [Sample.story "a"])
      Sample.aiDailyRequest Sample.world
    = (Throw (ServiceError "dynamodb"), w')
    ∧ contentCache w' = ∅.
Proof.
  exact (proj1 (news_write_failure_changes_nothing
                  (Fixture.newsDown Sample.allKeys 0.9%Q [Sample.story "a"])
                  Sample.aiDailyRequest Sample.world Sample.allKeys _
                  eq_refl eq_refl)).
Defined.

Lemma news_items_keep_provider_order_example :
  ∃ resp w',
    FetchNews.aggregateContent
      (Sample.newsEnv Sample.allKeys 0.9%Q
         [Sample.linked "a" "https://news.example/a";
          Sample.linked "b" "https://news.example/b"])
      Sample.aiDailyRequest Sample.world = (Ok resp, w')
    ∧ Ai.title <$> FetchNews.res_items resp = ["a"; "b"].
Proof.
  destruct (news_items_keep_provider_order
              (Sample.newsEnv Sample.allKeys 0.9%Q
                 [Sample.linked "a" "https://news.example/a";
                  Sample.linked "b" "https://news.example/b"])
              Sample.aiDailyRequest Sample.world Sample.allKeys _
              {| FetchNews.provider := "perplexity";
                 FetchNews.confidence := 0.9%Q;
                 FetchNews.items :=
                   [Sample.linked "a" "https://news.example/a";
                    Sample.linked "b" "https://news.example/b"] |} _
              eq_refl eq_refl ltac:(discriminate) eq_refl eq_refl)
    as (resp & w' & Hrun & Hall).
  exists resp, w'. split; [exact Hrun|].
  destruct (FetchNews.res_items resp) as [|x [|y [|z l]]];
    try (exfalso; inversion Hall as [|? ? ? ? _ Hrest]; inversion Hrest as [|? ? ? ? _ Hrest'];
         inversion Hrest'; fail);
    try (exfalso; inversion Hall; fail).
  inversion Hall as [|? ? ? ? Hx Hrest]. inversion Hrest as [|? ? ? ? Hy _].
  destruct Hx as (_ & Hx & _). destruct Hy as (_ & Hy & _).
  cbn in Hx, Hy. cbn. by rewrite Hx, Hy.
Defined.

(** Perplexity resolves with one result of confidence 0.575 and one
    without a confidence: the binary64 product 57.49999999999999 is rounded
    to 57, and the default gives 60. *)
Lemma patents_from_perplexity_example :
  ∃ ps w',
    FetchPatents.generatePatentSummaries
      (Fixture.patentsEnv Sample.perplexityOnly
         (Resolves (Some [Fixture.ratedPatent "p1" "Qubit routing" 0.575%Q;
                          Fixture.rawPatent "p2" "Photonic mesh"]))
         Rejects true)
      Sample.aiMonthly Sample.world = (Ok ps, w')
    ∧ Patent.impactScore <$> ps = [57%Z; 60%Z].
Proof.
  destruct (patents_from_perplexity
              (Fixture.patentsEnv Sample.perplexityOnly
                 (Resolves
                    (Some [Fixture.ratedPatent "p1" "Qubit routing" 0.575%Q;
                           Fixture.rawPatent "p2" "Photonic mesh"]))
                 Rejects true)
              Sample.aiMonthly Sample.world Sample.perplexityOnly _
              (Fixture.ratedPatent "p1" "Qubit routing" 0.575%Q)
              [Fixture.rawPatent "p2" "Photonic mesh"]
              eq_refl eq_refl)
    as (ps & w' & Hrun & Hall & _).
  { repeat constructor. }
  exists ps, w'. split; [exact Hrun|].
  cbn [take] in Hall.
  inversion Hall as [|? p1 ? ps1 H1 Hrest]; subst.
  inversion Hrest as [|? p2 ? ps2 H2 Hnil]; subst.
  inversion Hnil; subst.
  destruct H1 as (_ & _ & _ & _ & _ & H1 & _).
  destruct H2 as (_ & _ & _ & _ & _ & H2 & _).
  cbn [fmap list_fmap]. rewrite H1, H2. vm_compute. reflexivity.
Defined.

Lemma patents_fall_back_to_placeholders_example :
  ∃ ps w',
    FetchPatents.generatePatentSummaries
      (Fixture.patentsEnv Sample.perplexityOnly Rejects Rejects true)
      Sample.aiMonthly Sample.world = (Ok ps, w')
    ∧ length ps = 3.
Proof.
  destruct (patents_fall_back_to_placeholders
              (Fixture.patentsEnv Sample.perplexityOnly Rejects Rejects true)
              Sample.aiMonthly Sample.world Sample.perplexityOnly _
              eq_refl eq_refl eq_refl)
    as (ps & w' & Hrun & Hlen & _).
  by exists ps, w'.
Defined.

Lemma patents_from_chatgpt_lines_example :
  ∃ ps w',
    FetchPatents.generatePatentSummaries
      (Fixture.patentsEnv Sample.chatGptOnly Rejects
         (Resolves (Some "Qubit routing: a lattice")) true)
      Sample.aiMonthly Sample.world = (Ok ps, w')
    ∧ Patent.title <$> ps = ["Qubit routing"].
Proof.
  destruct (patents_from_chatgpt_lines
              (Fixture.patentsEnv Sample.chatGptOnly Rejects
                 (Resolves (Some "Qubit routing: a lattice")) true)
              Sample.aiMonthly Sample.world Sample.chatGptOnly _ "ck"
              "Qubit routing: a lattice" "Qubit routing: a lattice" []
              eq_refl eq_refl eq_refl eq_refl eq_refl eq_refl)
    as (ps & w' & Hrun & Hall & _).
  exists ps, w'. split; [exact Hrun|].
  destruct ps as [|p [|p' ps]]; try (exfalso; inversion Hall as [|? ? ? ? _ Hrest]; inversion Hrest; fail).
  inversion Hall as [|? ? ? ? (_ & _ & Hhead & _) _].
  cbn in Hhead. injection Hhead as Hh. cbn. by rewrite <- Hh.
Defined.

Lemma impactAverage_within_scores_example :
  (55 ≤ FetchPatents.impactAverage [Sample.patent "a" 60; Sample.patent "b" 55]
   ≤ 60)%Z.
Proof.
  apply (impactAverage_within_scores
           [Sample.patent "a" 60; Sample.patent "b" 55] 55 60).
  - discriminate.
  - repeat constructor; cbn; lia.
Defined.

Lemma patents_success_is_persisted_example :
  ∃ ps w',
    FetchPatents.handler
      (Fixture.patentsEnv Sample.perplexityOnly Rejects Rejects true)
      Fixture.refreshOfPatents Sample.world
    = (Ok (inr (FetchPatents.respond
                  (Fixture.patentsEnv Sample.perplexityOnly Rejects Rejects
                     true)
                  {| FetchPatents.section := "ai";
                     FetchPatents.timePeriod := "monthly";
                     FetchPatents.mode := None |} ps)), w')
    ∧ (contentCache w' !! "ai#monthly") ≫= patentImpactAverage = Some 55%Z.
Proof.
  destruct (FetchPatents.generatePatentSummaries
              (Fixture.patentsEnv Sample.perplexityOnly Rejects Rejects true)
              Sample.aiMonthly Sample.world) as [r w1] eqn:Hgen.
  pose proof Hgen as Hgen'. vm_compute in Hgen'.
  destruct r as [ps|e]; [|discriminate Hgen'].
  injection Hgen' as Hps _.
  destruct (patents_success_is_persisted
              (Fixture.patentsEnv Sample.perplexityOnly Rejects Rejects true)
              Fixture.refreshOfPatents
              {| FetchPatents.section := "ai";
                 FetchPatents.timePeriod := "monthly";
                 FetchPatents.mode := None |} ps Sample.world w1
              eq_refl Hgen)
    as (w' & Hrun & _ & Hslot & _).
  { rewrite <- Hps. reflexivity. }
  { reflexivity. }
  exists ps, w'. split; [exact Hrun|].
  change "ai#monthly" with
    (patentKey {| FetchPatents.section := "ai";
                  FetchPatents.timePeriod := "monthly";
                  FetchPatents.mode := None |}).
  rewrite Hslot. cbn. rewrite <- Hps. reflexivity.
Defined.

Lemma patents_write_failure_changes_nothing_example :
  ∃ w',
    FetchPatents.handler
      (Fixture.patentsEnv Sample.perplexityOnly Rejects Rejects false)
      Fixture.refreshOfPatents Sample.world
    = (Throw (ServiceError "dynamodb"), w')
    ∧ contentCache w' = ∅.
Proof.
  destruct (FetchPatents.generatePatentSummaries
              (Fixture.patentsEnv Sample.perplexityOnly Rejects Rejects false)
              Sample.aiMonthly Sample.world) as [r w1] eqn:Hgen.
  pose proof Hgen as Hgen'. vm_compute in Hgen'.
  destruct r as [ps|e]; [|discriminate Hgen'].
  exact (patents_write_failure_changes_nothing
           (Fixture.patentsEnv Sample.perplexityOnly Rejects Rejects false)
           Fixture.refreshOfPatents
           {| FetchPatents.section := "ai";
              FetchPatents.timePeriod := "monthly";
              FetchPatents.mode := None |} ps Sample.world w1
           eq_refl Hgen eq_refl).
Defined.

(** The record holds one item, and the request names another. *)
Lemma related_falls_back_to_placeholder_example :
  ∃ resp w',
    RelatedContent.serve
      (Fixture.relatedEnv [Fixture.storedItem "n1" "Quantum leap"])
      (Fixture.deepDive "n7") Sample.world
    = (Ok {| statusCode := 200; body := Payload resp |}, w')
    ∧ RelatedContent.id (RelatedContent.item resp) = "n7"
    ∧ RelatedContent.title (RelatedContent.item resp)
      = "Deep dive for AI (daily)".
Proof.
  destruct (related_falls_back_to_placeholder
              (Fixture.relatedEnv [Fixture.storedItem "n1" "Quantum leap"])
              (Fixture.deepDive "n7") Sample.world)
    as (resp & w' & Hrun & _ & _ & Hid & Htitle & _).
  - right. split; [reflexivity|]. eexists. split; [reflexivity|].
    repeat constructor. discriminate.
  - by exists resp, w'.
Defined.

(** The first stored item mentions the requested id in its title, the
    second has it as its id: the second is served. *)
Lemma related_prefers_the_identifier_example :
  ∃ resp w',
    RelatedContent.serve
      (Fixture.relatedEnv [Fixture.storedItem "n1" "All about n2";
                           Fixture.storedItem "n2" "Quantum leap"])
      (Fixture.deepDive "n2") Sample.world
    = (Ok {| statusCode := 200; body := Payload resp |}, w')
    ∧ RelatedContent.title (RelatedContent.item resp) = "Quantum leap".
Proof.
  destruct (related_prefers_the_identifier
              (Fixture.relatedEnv [Fixture.storedItem "n1" "All about n2";
                                   Fixture.storedItem "n2" "Quantum leap"])
              (Fixture.deepDive "n2")
              [Fixture.storedItem "n1" "All about n2"]
              (Fixture.storedItem "n2" "Quantum leap") [] Sample.world
              eq_refl eq_refl)
    as (resp & w' & Hrun & _ & Htitle & _).
  - repeat constructor. discriminate.
  - reflexivity.
  - by exists resp, w'.
Defined.

Lemma refresh_with_listed_connections_example :
  DailyRefresh.handler Sample.refreshEnv (Some (Fixture.listed ["c9"]))
    Sample.quiet
  = DailyRefresh.handlerListed Sample.refreshEnv (Some (Fixture.listed ["c9"]))
      Sample.quiet.
Proof.
  exact (proj1 (refresh_with_listed_connections Sample.refreshEnv
                  (Fixture.listed ["c9"]) ["c9"] "" DailyRefresh.ScanFails
                  Sample.quiet eq_refl)).
Defined.

(** The table holds c1, c2 and c3 and the scan returns them all, in its
    own order. *)
Lemma refresh_notifies_each_session_once_example :
  ∃ w' sent,
    DailyRefresh.handler (Sample.scanning ["c2"; "c3"; "c1"] None)
      (Some DailyRefresh.noDetail) Sample.quiet
    = (Ok {| DailyRefresh.answerStatus := 202;
             DailyRefresh.answerBody := "Refresh started" |}, w')
    ∧ DailyRefresh.pushes w' = sent
    ∧ DailyRefresh.connectionId <$> sent = ["c2"; "c3"; "c1"]
    ∧ ("c3" ∈ DailyRefresh.connectionId <$> sent
       ↔ is_Some (Sample.sessionsTable !! "c3")).
Proof.
  destruct (refresh_notifies_each_session_once
              (Sample.scanning ["c2"; "c3"; "c1"] None)
              Sample.sessionsTable ["c2"; "c3"; "c1"]
              (Some DailyRefresh.noDetail) Sample.quiet
              eq_refl eq_refl eq_refl eq_refl eq_refl eq_refl)
    as (w' & sent & Hrun & Hpushes & Hsent & _ & Hin).
  - split; [|split].
    + by apply (bool_decide_unpack _); vm_compute.
    + intros c0. rewrite !elem_of_cons, elem_of_nil.
      intros [->|[->|[->|[]]]]; (split; [by eexists; vm_compute | reflexivity]).
    + intros _ c0 Hc0. unfold Sample.sessionsTable in Hc0.
      rewrite !lookup_insert_is_Some, lookup_empty in Hc0.
      rewrite !elem_of_cons.
      destruct Hc0 as [->|[_ [->|[_ [->|[_ Hn]]]]]]; auto.
      by destruct Hn.
  - exists w', sent. split; [exact Hrun|]. split; [exact Hpushes|].
    split; [exact Hsent|exact (Hin "c3")].
Defined.

(** The registry holds c1, c2 and c3; a DISCONNECT of c1 leaves the record
    of c2 as it is. *)
Lemma socket_events_touch_one_record_example :
  WebsocketManager.sessions
    (WebsocketManager.handler Fixture.socketsEnv
       (Fixture.socketEvent "DISCONNECT" "c1") Fixture.crowded).2 !! "c2"
  = Some (Sample.session "s2").
Proof.
  rewrite (socket_events_touch_one_record Fixture.socketsEnv
             (Fixture.socketEvent "DISCONNECT" "c1") "c1" Fixture.crowded
             eq_refl "c2" ltac:(discriminate)).
  reflexivity.
Defined.

Lemma connect_then_disconnect_example :
  ∃ s r1 r2,
    WebsocketManager.handler Fixture.socketsEnv
      (Fixture.socketEvent "CONNECT" "c1") Fixture.registry
    = (Ok {| WebsocketManager.answerStatus := 200;
             WebsocketManager.answerBody :=
               WebsocketManager.Registered "c1" s |}, r1)
    ∧ s = "session-0"
    ∧ WebsocketManager.handler Fixture.socketsEnv
        (Fixture.socketEvent "DISCONNECT" "c1") r1
      = (Ok {| WebsocketManager.answerStatus := 200;
               WebsocketManager.answerBody :=
                 WebsocketManager.Text "disconnected" |}, r2)
    ∧ WebsocketManager.sessions r2 = delete "c1" ∅.
Proof.
  destruct (connect_then_disconnect Fixture.socketsEnv
              (Fixture.socketEvent "CONNECT" "c1")
              (Fixture.socketEvent "DISCONNECT" "c1") "c1" Fixture.registry
              eq_refl eq_refl eq_refl eq_refl eq_refl eq_refl eq_refl)
    as (s & r1 & r2 & Hopen & Hs & _ & Hclose & Hgone).
  by exists s, r1, r2.
Defined.

(** Perplexity resolves without hits and Gemini with one: all three
    providers are called, and Gemini is reported. *)
Lemma search_calls_every_provider_example :
  ∃ resp p',
    Search.handler (Fixture.searchEnv [Fixture.hit "Chiplets"]) None
      Fixture.process
    = (Ok {| statusCode := 200; body := Payload resp |}, p')
    ∧ Search.trace p'
      = [Post "perplexity" "latest ai breakthroughs";
         Post "gemini" "latest ai breakthroughs";
         Post "chatgpt" "latest ai breakthroughs"].
Proof.
  destruct (search_calls_every_provider
              (Fixture.searchEnv [Fixture.hit "Chiplets"]) None
              Fixture.process Sample.allKeys _ eq_refl)
    as (resp & p' & Hrun & _ & Htrace).
  by exists resp, p'.
Defined.

(** Gemini is the first provider with a hit, and its confidence 0.6
    gives the score 60. *)
Lemma search_reports_first_provider_with_hits_example :
  ∃ resp p',
    Search.handler (Fixture.searchEnv [Fixture.hit "Chiplets"]) None
      Fixture.process
    = (Ok {| statusCode := 200; body := Payload resp |}, p')
    ∧ Search.provider resp = Some "gemini"
    ∧ Search.verificationScore <$> Search.results resp = [60%Z].
Proof.
  destruct (search_reports_first_provider_with_hits
              (Fixture.searchEnv [Fixture.hit "Chiplets"]) None
              Fixture.process Sample.allKeys _ eq_refl)
    as (resp & p' & Hrun & Hsel).
  exists resp, p'. split; [exact Hrun|].
  pose proof Hrun as Hrun'. vm_compute in Hrun'.
  injection Hrun' as <- _. split; reflexivity.
Defined.

Lemma recommendations_without_history_example :
  ∃ resp,
    Recommendations.handler Fixture.recommendEnv
      (Some (Recommendations.Unreadable "{limit")) tt
    = (Ok {| statusCode := 200; body := Payload resp |}, tt)
    ∧ Recommendations.section <$> Recommendations.recommendations resp
      = ["ai"; "ml"; "iot"].
Proof.
  destruct (recommendations_without_history Fixture.recommendEnv
              (Some (Recommendations.Unreadable "{limit")))
    as (resp & Hrun & _ & _ & _ & Hthree).
  - by left.
  - by exists resp.
Defined.

(** A call without a body carries no authorization code. *)
Lemma auth_needs_code_and_credentials_example :
  ∃ a1,
    AuthCallback.handler Fixture.authEnv None Fixture.visitor
    = (Ok {| AuthCallback.statusCode := 400; AuthCallback.setCookie := None;
             AuthCallback.reply :=
               AuthCallback.Failure
                 "Unable to resolve Google profile information" |}, a1)
    ∧ AuthCallback.calls a1 = [].
Proof.
  destruct (auth_needs_code_and_credentials Fixture.authEnv None
              AuthCallback.noPayload Fixture.visitor _ _
              eq_refl eq_refl eq_refl) as (Hrun & Hcalls & _).
  eexists. split; [exact Hrun | exact Hcalls].
Defined.

Lemma auth_success_is_persisted_example :
  ∃ a',
    AuthCallback.handler Fixture.authEnv
      (Some (AuthCallback.BodyObject Fixture.signIn)) Fixture.visitor
    = (Ok {| AuthCallback.statusCode := 200;
             AuthCallback.setCookie :=
               Some (AuthCallback.sessionCookie Fixture.authEnv
                       "ada@example.com" (Some "Ada L."));
             AuthCallback.reply :=
               AuthCallback.Identity "ada@example.com" (Some "Ada L.") |}, a')
    ∧ AuthCallback.displayName <$> AuthCallback.profiles a' !! "ada@example.com"
      = Some "Ada L.".
Proof.
  destruct (auth_success_is_persisted Fixture.authEnv
              (Some (AuthCallback.BodyObject Fixture.signIn)) Fixture.signIn
              Fixture.visitor _ _ "code" "client" "secret" "token"
              {| AuthCallback.firstEmail := Some "ada@example.com";
                 AuthCallback.firstName := Some "Ada L." |}
              "ada@example.com"
              eq_refl eq_refl eq_refl eq_refl eq_refl eq_refl eq_refl eq_refl
              eq_refl eq_refl eq_refl eq_refl)
    as (a' & _ & Hrun & Htable).
  exists a'. split; [exact Hrun|].
  rewrite Htable. by rewrite lookup_insert_eq.
Defined.
